(** * LED copper string controller: the lighting core of [firmware/src/main.c]

    A shallow embedding of the firmware's brightness mapper, H-bridge driver,
    fade engine, identify effects, button handling, battery curve and startup
    resolver, with the properties the design document states about them.

    Conventions.  C integers are [Z]; every conversion to a narrower or
    unsigned type is written out ([u8], [u16], [u32], [s32]).  C's [/] on
    integers truncates toward zero, which is [Z.quot].  File-scope variables
    of [main.c] are fields of the record [state]; a function that mutates
    them is a function [state -> state]. *)

From Stdlib Require Import ZArith List Bool Lia String.
Import ListNotations.
Open Scope Z_scope.

(** ** Machine integers *)

Definition u8 (z : Z) : Z := z mod 256.
Definition u16 (z : Z) : Z := z mod 65536.
Definition u32 (z : Z) : Z := z mod 4294967296.
Definition u64 (z : Z) : Z := z mod 18446744073709551616.

(** Conversion to [int32_t] (two's complement). *)
Definition s32 (z : Z) : Z := (z + 2147483648) mod 4294967296 - 2147483648.

Definition is_u8 (z : Z) : Prop := 0 <= z <= 255.
Definition is_u16 (z : Z) : Prop := 0 <= z <= 65535.

(** ** Battery gauge *)

Module Battery.

(** [struct battery_level_point]. *)
Record battery_level_point := { mv : Z; percent : Z }.

Definition pt (v p : Z) : battery_level_point := {| mv := v; percent := p |}.

Definition lipo_discharge_curve : list battery_level_point :=
  [ pt 4200 100; pt 4150 95; pt 4110 90; pt 4080 85; pt 4020 80;
    pt 3980 75;  pt 3950 70; pt 3910 65; pt 3870 60; pt 3840 55;
    pt 3800 50;  pt 3760 45; pt 3730 40; pt 3690 35; pt 3660 30;
    pt 3620 25;  pt 3580 20; pt 3500 15; pt 3450 10; pt 3300 5;
    pt 3000 0 ].

Definition BATTERY_CURVE_SIZE : nat := List.length lipo_discharge_curve.

(** [lipo_discharge_curve[i]]. *)
Definition curve (i : nat) : battery_level_point :=
  nth i lipo_discharge_curve (pt 0 0).

(** The body of the [for] loop of [battery_mv_to_percent], entered at index
    [i] with [n] iterations left; falls through to the final [return 0]. *)
Fixpoint interpolate_from (m : Z) (i n : nat) : Z :=
  match n with
  | O => 0
  | S n' =>
      if mv (curve (S i)) <=? m then
        let v_high := mv (curve i) in
        let v_low := mv (curve (S i)) in
        let p_high := percent (curve i) in
        let p_low := percent (curve (S i)) in
        let v_range := u16 (v_high - v_low) in
        let p_range := u8 (p_high - p_low) in
        u8 (p_low + Z.quot ((m - v_low) * p_range) v_range)
      else interpolate_from m (S i) n'
  end.

(** [battery_mv_to_percent(uint16_t mv)]. *)
Definition battery_mv_to_percent (m : Z) : Z :=
  if mv (curve 0) <=? m then 100
  else if m <=? mv (curve (BATTERY_CURVE_SIZE - 1)%nat) then 0
  else interpolate_from m 0 (BATTERY_CURVE_SIZE - 1)%nat.

(** The readings of a list, in table order. *)
Definition millivolts (c : list battery_level_point) : list Z := map mv c.
Definition percents (c : list battery_level_point) : list Z := map percent c.

(** Order predicates over adjacent entries, as boolean checks. *)
Fixpoint adjacent (r : Z -> Z -> bool) (l : list Z) : bool :=
  match l with
  | x :: (y :: _) as tl => r x y && adjacent r tl
  | _ => true
  end.

Definition strictly_decreasing : list Z -> bool := adjacent (fun x y => y <? x).
Definition non_decreasing : list Z -> bool := adjacent (fun x y => x <=? y).

(** Index of the bracket the loop stops at: the first [i] with
    [curve (i+1)] at or below the reading. *)
Fixpoint bracket_from (m : Z) (i n : nat) : option nat :=
  match n with
  | O => None
  | S n' => if mv (curve (S i)) <=? m then Some i else bracket_from m (S i) n'
  end.

Definition bracket (m : Z) : option nat :=
  bracket_from m 0 (BATTERY_CURVE_SIZE - 1)%nat.

(** Linear interpolation of percent inside bracket [i]. *)
Definition lerp (m : Z) (i : nat) : Z :=
  percent (curve (S i))
  + Z.quot ((m - mv (curve (S i))) * (percent (curve i) - percent (curve (S i))))
           (mv (curve i) - mv (curve (S i))).

(** What interpolation promises for one reading between the end points, as
    a check that can be run: the loop stops at bracket [i], the first one in
    table order whose lower point is at or below the reading, and returns the
    linear interpolation inside it. *)
Definition interpolates_ok (m : Z) : bool :=
  match bracket m with
  | Some i =>
      (Nat.ltb (S i) BATTERY_CURVE_SIZE)
      && forallb (fun j => m <? mv (curve (S j))) (seq 0 i)
      && (mv (curve (S i)) <=? m) && (m <? mv (curve i))
      && (battery_mv_to_percent m =? lerp m i)
      && (percent (curve (S i)) <=? battery_mv_to_percent m)
      && (battery_mv_to_percent m <=? percent (curve i))
  | None => false
  end.

(** [f] holds of [lo], [lo+1], ..., [lo+n-1]. *)
Fixpoint all_from (f : Z -> bool) (lo : Z) (n : nat) : bool :=
  match n with
  | O => true
  | S n' => f lo && all_from f (lo + 1) n'
  end.

End Battery.

Import Battery.


(** ** Firmware state *)

(** What the firmware sends out besides the PWM and GPIO lines: log lines at
    the levels the module keeps ([LOG_MODULE_REGISTER(app, LOG_LEVEL_INF)]
    drops [LOG_DBG]), recorded by their format string, writes to the settings
    store, and the network reset request. *)
Inductive output :=
| LOG_ERR (fmt : string)
| LOG_INF (fmt : string)
| settings_save_one (name : string) (value : Z)
| zb_bdb_reset_via_local_action.

(** The attributes of [dev_ctx] that the lighting core reads or writes:
    [on_off_attr.on_off], [on_off_attr.start_up_on_off],
    [level_control_attr.current_level],
    [level_control_attr.on_off_transition_time] and
    [level_control_attr.start_up_current_level]. *)
Record light_device_ctx_t := {
  on_off : bool;
  start_up_on_off : Z;
  current_level : Z;
  on_off_transition_time : Z;
  start_up_current_level : Z
}.

(** [app_state]. *)
Record app_state_t := {
  press_time : Z;
  pressed : bool;
  last_brightness : Z
}.

(** A [struct k_work_delayable]: [None] when idle, [Some d] when scheduled
    to run once the uptime reaches [d] milliseconds. *)
Definition k_work_delayable := option Z.

(** [k_work_schedule] leaves an already scheduled item alone. *)
Definition k_work_schedule (w : k_work_delayable) (delay now : Z)
  : k_work_delayable :=
  match w with
  | Some d => Some d
  | None => Some (now + delay)
  end.

Definition k_work_cancel_delayable (w : k_work_delayable) : k_work_delayable :=
  None.

Definition K_NO_WAIT : Z := 0.

(** [effect_work], [effect_type], [effect_step]. *)
Record effect_t := {
  effect_work : k_work_delayable;
  effect_type : Z;
  effect_step : Z
}.

(** [current_brightness], [light_is_on], [polarity_phase]: the actuator's
    present output (the design document's BrightnessState). *)
Record light_t := {
  current_brightness : Z;
  light_is_on : bool;
  polarity_phase : bool
}.

(** [transition_work] and the four [transition_*] variables. *)
Record transition_t := {
  transition_work : k_work_delayable;
  transition_start : Z;
  transition_target : Z;
  transition_elapsed : Z;
  transition_duration : Z
}.

(** The peripherals: [pwm_brightness.period] (fixed by the devicetree), the
    pulse width last accepted by the PWM, the three TB6612 lines, whether
    [polarity_timer] is running, and the status LED. *)
Record hw_t := {
  pwm_period : Z;
  pwm_pulse : Z;
  tb6612_ain1 : bool;
  tb6612_ain2 : bool;
  tb6612_standby : bool;
  polarity_timer : bool;
  status_led : bool
}.

Record state := {
  dev_ctx : light_device_ctx_t;
  app_state : app_state_t;
  long_press_work : k_work_delayable;
  effect : effect_t;
  light : light_t;
  transition : transition_t;
  hw : hw_t;
  uptime : Z;                (* k_uptime_get(), milliseconds *)
  outputs : list output      (* most recent first *)
}.

Definition set_dev_ctx (v : light_device_ctx_t) (s : state) : state :=
  {| dev_ctx := v; app_state := app_state s;
     long_press_work := long_press_work s; effect := effect s;
     light := light s; transition := transition s; hw := hw s;
     uptime := uptime s; outputs := outputs s |}.

Definition set_app_state (v : app_state_t) (s : state) : state :=
  {| dev_ctx := dev_ctx s; app_state := v;
     long_press_work := long_press_work s; effect := effect s;
     light := light s; transition := transition s; hw := hw s;
     uptime := uptime s; outputs := outputs s |}.

Definition set_long_press_work (v : k_work_delayable) (s : state) : state :=
  {| dev_ctx := dev_ctx s; app_state := app_state s;
     long_press_work := v; effect := effect s;
     light := light s; transition := transition s; hw := hw s;
     uptime := uptime s; outputs := outputs s |}.

Definition set_effect (v : effect_t) (s : state) : state :=
  {| dev_ctx := dev_ctx s; app_state := app_state s;
     long_press_work := long_press_work s; effect := v;
     light := light s; transition := transition s; hw := hw s;
     uptime := uptime s; outputs := outputs s |}.

Definition set_light (v : light_t) (s : state) : state :=
  {| dev_ctx := dev_ctx s; app_state := app_state s;
     long_press_work := long_press_work s; effect := effect s;
     light := v; transition := transition s; hw := hw s;
     uptime := uptime s; outputs := outputs s |}.

Definition set_transition (v : transition_t) (s : state) : state :=
  {| dev_ctx := dev_ctx s; app_state := app_state s;
     long_press_work := long_press_work s; effect := effect s;
     light := light s; transition := v; hw := hw s;
     uptime := uptime s; outputs := outputs s |}.

Definition set_hw (v : hw_t) (s : state) : state :=
  {| dev_ctx := dev_ctx s; app_state := app_state s;
     long_press_work := long_press_work s; effect := effect s;
     light := light s; transition := transition s; hw := v;
     uptime := uptime s; outputs := outputs s |}.

Definition set_uptime (v : Z) (s : state) : state :=
  {| dev_ctx := dev_ctx s; app_state := app_state s;
     long_press_work := long_press_work s; effect := effect s;
     light := light s; transition := transition s; hw := hw s;
     uptime := v; outputs := outputs s |}.

Definition emit (o : output) (s : state) : state :=
  {| dev_ctx := dev_ctx s; app_state := app_state s;
     long_press_work := long_press_work s; effect := effect s;
     light := light s; transition := transition s; hw := hw s;
     uptime := uptime s; outputs := o :: outputs s |}.

(** ** TB6612 H-bridge *)

(** [polarity_timer_handler]. *)
Definition polarity_timer_handler (s : state) : state :=
  if negb (light_is_on (light s)) then s
  else
    let phase := negb (polarity_phase (light s)) in
    let s := set_light {| current_brightness := current_brightness (light s);
                          light_is_on := light_is_on (light s);
                          polarity_phase := phase |} s in
    set_hw {| pwm_period := pwm_period (hw s); pwm_pulse := pwm_pulse (hw s);
              tb6612_ain1 := negb phase; tb6612_ain2 := phase;
              tb6612_standby := tb6612_standby (hw s);
              polarity_timer := polarity_timer (hw s);
              status_led := status_led (hw s) |} s.

(** [tb6612_on]: leave standby, assert phase A, start the alternation. *)
Definition tb6612_on (s : state) : state :=
  let s := set_hw {| pwm_period := pwm_period (hw s);
                     pwm_pulse := pwm_pulse (hw s);
                     tb6612_ain1 := true; tb6612_ain2 := false;
                     tb6612_standby := true;
                     polarity_timer := true;
                     status_led := status_led (hw s) |} s in
  set_light {| current_brightness := current_brightness (light s);
               light_is_on := true;
               polarity_phase := false |} s.

(** [tb6612_off]: stop the alternation, brake, enter standby. *)
Definition tb6612_off (s : state) : state :=
  let s := set_light {| current_brightness := current_brightness (light s);
                        light_is_on := false;
                        polarity_phase := polarity_phase (light s) |} s in
  set_hw {| pwm_period := pwm_period (hw s); pwm_pulse := pwm_pulse (hw s);
            tb6612_ain1 := false; tb6612_ain2 := false;
            tb6612_standby := false;
            polarity_timer := false;
            status_led := status_led (hw s) |} s.

(** ** Brightness mapper *)

Definition cie1931_lut : list Z :=
  [
      0;   0;   0;   0;   0;   1;   1;   1;   1;   1;   1;   1;   1;   1;   2;   2;
      2;   2;   2;   2;   2;   2;   2;   3;   3;   3;   3;   3;   3;   3;   3;   4;
      4;   4;   4;   4;   4;   5;   5;   5;   5;   5;   6;   6;   6;   6;   6;   7;
      7;   7;   7;   8;   8;   8;   8;   9;   9;   9;  10;  10;  10;  10;  11;  11;
     11;  12;  12;  12;  13;  13;  13;  14;  14;  15;  15;  15;  16;  16;  17;  17;
     17;  18;  18;  19;  19;  20;  20;  21;  21;  22;  22;  23;  23;  24;  24;  25;
     25;  26;  26;  27;  28;  28;  29;  29;  30;  31;  31;  32;  32;  33;  34;  34;
     35;  36;  37;  37;  38;  39;  39;  40;  41;  42;  43;  43;  44;  45;  46;  47;
     47;  48;  49;  50;  51;  52;  53;  54;  54;  55;  56;  57;  58;  59;  60;  61;
     62;  63;  64;  65;  66;  67;  68;  70;  71;  72;  73;  74;  75;  76;  77;  79;
     80;  81;  82;  83;  85;  86;  87;  88;  90;  91;  92;  94;  95;  96;  98;  99;
    100; 102; 103; 105; 106; 108; 109; 110; 112; 113; 115; 116; 118; 120; 121; 123;
    124; 126; 128; 129; 131; 132; 134; 136; 138; 139; 141; 143; 145; 146; 148; 150;
    152; 154; 155; 157; 159; 161; 163; 165; 167; 169; 171; 173; 175; 177; 179; 181;
    183; 185; 187; 189; 191; 193; 196; 198; 200; 202; 204; 207; 209; 211; 214; 216;
    218; 220; 223; 225; 228; 230; 232; 235; 237; 240; 242; 245; 247; 250; 252; 255 ].

(** The pulse width [light_set_brightness] asks for:
    [(uint64_t)corrected * pwm_brightness.period / 255U], stored in a
    [uint32_t]. *)
Definition pulse_of (period brightness : Z) : Z :=
  let corrected := nth (Z.to_nat brightness) cie1931_lut 0 in
  u32 (Z.quot (u64 (corrected * period)) 255).

(** [light_set_brightness].  [pwm_ret] is what [pwm_set_pulse_dt] returns
    for this call (0 on success); a refused write leaves the PWM as it was. *)
Definition light_set_brightness (pwm_ret : Z) (brightness : Z) (s : state)
  : state :=
  let pulse := pulse_of (pwm_period (hw s)) brightness in
  if negb (pwm_ret =? 0) then emit (LOG_ERR "PWM set failed") s
  else
    let s := set_hw {| pwm_period := pwm_period (hw s); pwm_pulse := pulse;
                       tb6612_ain1 := tb6612_ain1 (hw s);
                       tb6612_ain2 := tb6612_ain2 (hw s);
                       tb6612_standby := tb6612_standby (hw s);
                       polarity_timer := polarity_timer (hw s);
                       status_led := status_led (hw s) |} s in
    let s := set_light {| current_brightness := brightness;
                          light_is_on := light_is_on (light s);
                          polarity_phase := polarity_phase (light s) |} s in
    if (0 <? brightness) && negb (light_is_on (light s)) then tb6612_on s
    else if (brightness =? 0) && light_is_on (light s) then tb6612_off s
    else s.

(** ** Smooth brightness transitions *)

Definition TRANSITION_STEP_MS : Z := 20.

(** The interpolated level of [transition_work_handler]:
    [diff] and the product are [int32_t], the sum is stored in a
    [uint8_t]. *)
Definition transition_level (start target elapsed duration : Z) : Z :=
  let diff := s32 (target - start) in
  u8 (start + Z.quot (s32 (diff * elapsed)) duration).

(** [transition_work_handler]. *)
Definition transition_work_handler (pwm_ret : Z) (s : state) : state :=
  let t := transition s in
  let elapsed := u16 (transition_elapsed t + TRANSITION_STEP_MS) in
  let s := set_transition
             {| transition_work := transition_work t;
                transition_start := transition_start t;
                transition_target := transition_target t;
                transition_elapsed := elapsed;
                transition_duration := transition_duration t |} s in
  if transition_duration t <=? elapsed then
    light_set_brightness pwm_ret (transition_target t) s
  else
    let current := transition_level (transition_start t) (transition_target t)
                                    elapsed (transition_duration t) in
    let s := light_set_brightness pwm_ret current s in
    set_transition
      {| transition_work :=
           k_work_schedule (transition_work (transition s))
                           TRANSITION_STEP_MS (uptime s);
         transition_start := transition_start (transition s);
         transition_target := transition_target (transition s);
         transition_elapsed := transition_elapsed (transition s);
         transition_duration := transition_duration (transition s) |} s.

(** [light_fade_to]. *)
Definition light_fade_to (pwm_ret : Z) (target duration_ms : Z) (s : state)
  : state :=
  let s := set_transition
             {| transition_work :=
                  k_work_cancel_delayable (transition_work (transition s));
                transition_start := transition_start (transition s);
                transition_target := transition_target (transition s);
                transition_elapsed := transition_elapsed (transition s);
                transition_duration := transition_duration (transition s) |}
             s in
  if (duration_ms =? 0) || (current_brightness (light s) =? target) then
    light_set_brightness pwm_ret target s
  else
    let s := set_transition
               {| transition_work := transition_work (transition s);
                  transition_start := current_brightness (light s);
                  transition_target := target;
                  transition_elapsed := 0;
                  transition_duration := duration_ms |} s in
    let s := emit (LOG_INF "Fade: %u -> %u over %ums") s in
    set_transition
      {| transition_work :=
           k_work_schedule (transition_work (transition s)) K_NO_WAIT
                           (uptime s);
         transition_start := transition_start (transition s);
         transition_target := transition_target (transition s);
         transition_elapsed := transition_elapsed (transition s);
         transition_duration := transition_duration (transition s) |} s.

(** ** Attribute updates and persistence *)

(** [ZB_ZCL_SET_ATTRIBUTE] on the On/Off attribute: the attribute list binds
    it to [dev_ctx.on_off_attr.on_off], which receives the value. *)
Definition set_attr_on_off (v : bool) (s : state) : state :=
  set_dev_ctx {| on_off := v;
                 start_up_on_off := start_up_on_off (dev_ctx s);
                 current_level := current_level (dev_ctx s);
                 on_off_transition_time := on_off_transition_time (dev_ctx s);
                 start_up_current_level := start_up_current_level (dev_ctx s) |}
              s.

(** [ZB_ZCL_SET_ATTRIBUTE] on CurrentLevel, bound to
    [dev_ctx.level_control_attr.current_level]. *)
Definition set_attr_current_level (v : Z) (s : state) : state :=
  set_dev_ctx {| on_off := on_off (dev_ctx s);
                 start_up_on_off := start_up_on_off (dev_ctx s);
                 current_level := v;
                 on_off_transition_time := on_off_transition_time (dev_ctx s);
                 start_up_current_level := start_up_current_level (dev_ctx s) |}
              s.

Definition set_last_brightness (v : Z) (s : state) : state :=
  set_app_state {| press_time := press_time (app_state s);
                   pressed := pressed (app_state s);
                   last_brightness := v |} s.

(** [save_light_state]. *)
Definition save_light_state (s : state) : state :=
  let s := emit (settings_save_one "light/on_off"
                   (if on_off (dev_ctx s) then 1 else 0)) s in
  emit (settings_save_one "light/level" (current_level (dev_ctx s))) s.

(** [level_control_set_value(zb_uint16_t new_level)]; the attribute and the
    brightness receive the low byte. *)
Definition level_control_set_value (pwm_ret : Z) (new_level : Z) (s : state)
  : state :=
  let s := emit (LOG_INF "Set level: %u") s in
  let s := set_attr_current_level (u8 new_level) s in
  let s := light_set_brightness pwm_ret (u8 new_level) s in
  let s := if 0 <? new_level then set_last_brightness (u8 new_level) s
           else s in
  save_light_state s.

(** The steady-state brightness the attributes ask for. *)
Definition steady_level (c : light_device_ctx_t) : Z :=
  if on_off c then current_level c else 0.

(** The recurring fragment
    [if (dev_ctx.on_off_attr.on_off) light_set_brightness(current_level);
     else light_set_brightness(0);]. *)
Definition restore_state (pwm_ret : Z) (s : state) : state :=
  if on_off (dev_ctx s) then
    light_set_brightness pwm_ret (current_level (dev_ctx s)) s
  else light_set_brightness pwm_ret 0 s.

(** [on_off_set_value]. *)
Definition on_off_set_value (pwm_ret : Z) (on : bool) (s : state) : state :=
  let s := emit (LOG_INF "Set on/off: %s") s in
  let s := set_attr_on_off on s in
  let s := if on then
             light_set_brightness pwm_ret (current_level (dev_ctx s)) s
           else light_set_brightness pwm_ret 0 s in
  save_light_state s.

(** The local [target_level] of [light_toggle]. *)
Definition toggle_target_level (s : state) : Z :=
  let new_state := negb (on_off (dev_ctx s)) in
  if new_state then
    let target_level :=
      if 0 <? current_level (dev_ctx s) then current_level (dev_ctx s)
      else last_brightness (app_state s) in
    if target_level =? 0 then 255 else target_level
  else 0.

(** The local [transition_ms] of [light_toggle]: the product is an [int],
    stored in a [uint16_t]. *)
Definition toggle_transition_ms (s : state) : Z :=
  let transition_ms := u16 (on_off_transition_time (dev_ctx s) * 100) in
  if transition_ms =? 0 then 1000 else transition_ms.

(** [light_toggle]. *)
Definition light_toggle (pwm_ret : Z) (s : state) : state :=
  let new_state := negb (on_off (dev_ctx s)) in
  let target_level := toggle_target_level s in
  let transition_ms := toggle_transition_ms s in
  let s := set_attr_on_off new_state s in
  let s := if new_state
              && negb (target_level =? current_level (dev_ctx s))
           then set_attr_current_level target_level s else s in
  let s := light_fade_to pwm_ret target_level transition_ms s in
  let s := if 0 <? target_level then set_last_brightness target_level s
           else s in
  let s := save_light_state s in
  emit (LOG_INF "Toggle: %s (level %u, fade %ums)") s.

(** ** Identify effects *)

(** Modelled from the spec: the effect identifiers are declared in ZBOSS's
    [zb_zcl_identify.h], which is not among the sources; these are the
    values the ZCL Identify cluster assigns to the effects the design
    document lists (Blink, Breathe, Okay, ChannelChange, FinishEffect,
    Stop). *)
Definition ZB_ZCL_IDENTIFY_EFFECT_ID_BLINK : Z := 0.
Definition ZB_ZCL_IDENTIFY_EFFECT_ID_BREATHE : Z := 1.
Definition ZB_ZCL_IDENTIFY_EFFECT_ID_OKAY : Z := 2.
Definition ZB_ZCL_IDENTIFY_EFFECT_ID_CHANNEL_CHANGE : Z := 11.
Definition ZB_ZCL_IDENTIFY_EFFECT_ID_FINISH_EFFECT : Z := 254.
Definition ZB_ZCL_IDENTIFY_EFFECT_ID_STOP : Z := 255.

Definition set_effect_type (v : Z) (s : state) : state :=
  set_effect {| effect_work := effect_work (effect s);
                effect_type := v;
                effect_step := effect_step (effect s) |} s.

Definition set_effect_step (v : Z) (s : state) : state :=
  set_effect {| effect_work := effect_work (effect s);
                effect_type := effect_type (effect s);
                effect_step := v |} s.

(** [k_work_schedule(&effect_work, K_MSEC(delay))]. *)
Definition schedule_effect_work (delay : Z) (s : state) : state :=
  set_effect {| effect_work :=
                  k_work_schedule (effect_work (effect s)) delay (uptime s);
                effect_type := effect_type (effect s);
                effect_step := effect_step (effect s) |} s.

(** The closing arm of every script: restore, then mark the effect
    stopped. *)
Definition effect_finish (pwm_ret : Z) (s : state) : state :=
  set_effect_type ZB_ZCL_IDENTIFY_EFFECT_ID_STOP (restore_state pwm_ret s).

(** [effect_work_handler]. *)
Definition effect_work_handler (pwm_ret : Z) (s : state) : state :=
  let ty := effect_type (effect s) in
  let step := effect_step (effect s) in
  if ty =? ZB_ZCL_IDENTIFY_EFFECT_ID_BLINK then
    if step =? 0 then
      schedule_effect_work 500
        (set_effect_step 1 (light_set_brightness pwm_ret 255 s))
    else effect_finish pwm_ret s
  else if ty =? ZB_ZCL_IDENTIFY_EFFECT_ID_BREATHE then
    if step <? 30 then
      let brightness := if Z.rem step 2 =? 0 then 255 else 0 in
      schedule_effect_work 500
        (set_effect_step (u8 (step + 1))
           (light_set_brightness pwm_ret brightness s))
    else effect_finish pwm_ret s
  else if ty =? ZB_ZCL_IDENTIFY_EFFECT_ID_OKAY then
    if step <? 4 then
      let brightness := if Z.rem step 2 =? 0 then 255 else 0 in
      schedule_effect_work 200
        (set_effect_step (u8 (step + 1))
           (light_set_brightness pwm_ret brightness s))
    else effect_finish pwm_ret s
  else if ty =? ZB_ZCL_IDENTIFY_EFFECT_ID_CHANNEL_CHANGE then
    if step =? 0 then
      schedule_effect_work 500
        (set_effect_step 1 (light_set_brightness pwm_ret 255 s))
    else if step =? 1 then
      schedule_effect_work 7500
        (set_effect_step 2 (light_set_brightness pwm_ret 25 s))
    else effect_finish pwm_ret s
  else effect_finish pwm_ret s.

(** [start_identify_effect]. *)
Definition start_identify_effect (pwm_ret : Z) (effect_id : Z) (s : state)
  : state :=
  let s := emit (LOG_INF "Identify effect: %u") s in
  let s := set_effect
             {| effect_work := k_work_cancel_delayable (effect_work (effect s));
                effect_type := effect_id;
                effect_step := 0 |} s in
  if (effect_id =? ZB_ZCL_IDENTIFY_EFFECT_ID_STOP)
     || (effect_id =? ZB_ZCL_IDENTIFY_EFFECT_ID_FINISH_EFFECT) then
    restore_state pwm_ret s
  else schedule_effect_work K_NO_WAIT s.

(** ** Button handling *)

Definition BUTTON_LONG_PRESS_MS : Z := 3000.

(** [button_work_handler].  [level] is [gpio_pin_get_dt(&button) == 1] as
    sampled by this run of the handler. *)
Definition button_work_handler (pwm_ret : Z) (level : bool) (s : state)
  : state :=
  if level && negb (pressed (app_state s)) then
    let s := set_app_state {| press_time := uptime s;
                              pressed := true;
                              last_brightness := last_brightness (app_state s) |}
                           s in
    set_long_press_work
      (k_work_schedule (long_press_work s) BUTTON_LONG_PRESS_MS (uptime s)) s
  else if negb level && pressed (app_state s) then
    let s := set_app_state {| press_time := press_time (app_state s);
                              pressed := false;
                              last_brightness := last_brightness (app_state s) |}
                           s in
    let s := set_long_press_work
               (k_work_cancel_delayable (long_press_work s)) s in
    let duration := uptime s - press_time (app_state s) in
    if duration <? BUTTON_LONG_PRESS_MS then
      light_toggle pwm_ret (emit (LOG_INF "Short press - toggle") s)
    else s
  else s.

(** One round of the reset blink: [gpio_pin_toggle_dt(&status_led);
    k_msleep(100);]. *)
Definition blink_once (s : state) : state :=
  let s := set_hw {| pwm_period := pwm_period (hw s);
                     pwm_pulse := pwm_pulse (hw s);
                     tb6612_ain1 := tb6612_ain1 (hw s);
                     tb6612_ain2 := tb6612_ain2 (hw s);
                     tb6612_standby := tb6612_standby (hw s);
                     polarity_timer := polarity_timer (hw s);
                     status_led := negb (status_led (hw s)) |} s in
  set_uptime (uptime s + 100) s.

(** [long_press_work_handler].  [joined] is [ZB_JOINED()]. *)
Definition long_press_work_handler (joined : bool) (s : state) : state :=
  if pressed (app_state s) then
    let s := emit (LOG_INF "Long press - factory reset") s in
    let s := if joined then emit zb_bdb_reset_via_local_action s else s in
    Nat.iter 6 blink_once s
  else s.

(** ** Startup behaviour *)

Definition ZB_ZCL_ON_OFF_STARTUP_OFF : Z := 0.
Definition ZB_ZCL_ON_OFF_STARTUP_ON : Z := 1.
Definition ZB_ZCL_ON_OFF_STARTUP_TOGGLE : Z := 2.
Definition ZB_ZCL_ON_OFF_STARTUP_PREVIOUS : Z := 255.

Definition ZB_ZCL_LEVEL_STARTUP_MINIMUM : Z := 0.
Definition ZB_ZCL_LEVEL_STARTUP_PREVIOUS : Z := 255.

(** Modelled from the spec: [ZB_ZCL_LEVEL_CONTROL_LEVEL_MIN_VALUE] comes
    from ZBOSS's [zb_zcl_level_control.h], which is not among the sources;
    the design document gives the minimum startup level as 0. *)
Definition ZB_ZCL_LEVEL_CONTROL_LEVEL_MIN_VALUE : Z := 0.

(** The local [level] of [apply_startup_behavior]. *)
Definition startup_level (c : light_device_ctx_t) : Z :=
  if start_up_current_level c =? ZB_ZCL_LEVEL_STARTUP_MINIMUM then
    ZB_ZCL_LEVEL_CONTROL_LEVEL_MIN_VALUE
  else if start_up_current_level c =? ZB_ZCL_LEVEL_STARTUP_PREVIOUS then
    current_level c
  else start_up_current_level c.

(** The local [on_off_state] of [apply_startup_behavior]. *)
Definition startup_on_off (c : light_device_ctx_t) : bool :=
  if start_up_on_off c =? ZB_ZCL_ON_OFF_STARTUP_OFF then false
  else if start_up_on_off c =? ZB_ZCL_ON_OFF_STARTUP_ON then true
  else if start_up_on_off c =? ZB_ZCL_ON_OFF_STARTUP_TOGGLE then
    negb (on_off c)
  else on_off c.

(** [apply_startup_behavior]. *)
Definition apply_startup_behavior (pwm_ret : Z) (s : state) : state :=
  let s := emit (LOG_INF "Applying startup behavior (on_off: 0x%02x, level: 0x%02x)") s in
  let level := startup_level (dev_ctx s) in
  let on_off_state := startup_on_off (dev_ctx s) in
  let s := set_dev_ctx
             {| on_off := on_off_state;
                start_up_on_off := start_up_on_off (dev_ctx s);
                current_level := level;
                on_off_transition_time := on_off_transition_time (dev_ctx s);
                start_up_current_level := start_up_current_level (dev_ctx s) |}
             s in
  let s := if on_off_state then
             set_last_brightness level (light_set_brightness pwm_ret level s)
           else light_set_brightness pwm_ret 0 s in
  emit (LOG_INF "Startup state: %s, level: %u") s.

(** The design document's startup policy, and how the two attribute bytes
    encode it (the comments on [start_up_on_off] and
    [start_up_current_level] in [main.c]). *)
Inductive on_off_mode := StartupOff | StartupOn | StartupToggle | StartupPrevious.
Inductive level_mode := Minimum | Previous | Specific (v : Z).

Definition on_off_mode_of (b : Z) : on_off_mode :=
  if b =? 0 then StartupOff
  else if b =? 1 then StartupOn
  else if b =? 2 then StartupToggle
  else StartupPrevious.

Definition level_mode_of (b : Z) : level_mode :=
  if b =? 0 then Minimum else if b =? 255 then Previous else Specific b.

(** The resolution rules in the design document's words. *)
Definition resolve_level (m : level_mode) (persisted_level : Z) : Z :=
  match m with
  | Minimum => 0
  | Previous => persisted_level
  | Specific v => v
  end.

Definition resolve_on_off (m : on_off_mode) (persisted_on_off : bool) : bool :=
  match m with
  | StartupOff => false
  | StartupOn => true
  | StartupToggle => negb persisted_on_off
  | StartupPrevious => persisted_on_off
  end.

(** ** The work queue *)

(** What can happen to the firmware.  A delayable work item expires and its
    handler runs; or something arrives from outside at uptime [t]: a button
    edge (the handler samples the pin as [level]), an identify command, a
    level or on/off write from the Zigbee stack, a tick of the polarity
    timer.  Each carries what its handler reads from the environment. *)
Inductive event :=
| LongPressExpires (joined : bool)
| EffectExpires (pwm_ret : Z)
| TransitionExpires (pwm_ret : Z)
| ButtonEdge (t : Z) (level : bool) (pwm_ret : Z)
| IdentifyEffect (t : Z) (effect_id : Z) (pwm_ret : Z)
| LevelControlSetValue (t : Z) (new_level : Z) (pwm_ret : Z)
| OnOffSetValue (t : Z) (on : bool) (pwm_ret : Z)
| PolarityTick (t : Z).

(** [w] is idle or due no earlier than [t]. *)
Definition not_before (t : Z) (w : k_work_delayable) : bool :=
  match w with
  | Some d => t <=? d
  | None => true
  end.

(** No work item is due before [t]. *)
Definition nothing_due_before (t : Z) (s : state) : bool :=
  not_before t (long_press_work s)
  && not_before t (effect_work (effect s))
  && not_before t (transition_work (transition s)).

(** An outside event at uptime [t] is taken when the clock has not passed
    [t] and every work item due before [t] has already run. *)
Definition arrives (t : Z) (s : state) : option state :=
  if (uptime s <=? t) && nothing_due_before t s then Some (set_uptime t s)
  else None.

(** A work item due at [d] runs when nothing is due before it, at uptime [d]
    or, if the queue was busy past [d], as soon as it is free. *)
Definition expires (d : Z) (s : state) : option state :=
  if nothing_due_before d s then Some (set_uptime (Z.max d (uptime s)) s)
  else None.

Definition clear_effect_work (s : state) : state :=
  set_effect {| effect_work := None;
                effect_type := effect_type (effect s);
                effect_step := effect_step (effect s) |} s.

Definition clear_transition_work (s : state) : state :=
  set_transition
    {| transition_work := None;
       transition_start := transition_start (transition s);
       transition_target := transition_target (transition s);
       transition_elapsed := transition_elapsed (transition s);
       transition_duration := transition_duration (transition s) |} s.

(** One event; [None] when the event cannot happen in this state. *)
Definition step (s : state) (e : event) : option state :=
  match e with
  | LongPressExpires joined =>
      match long_press_work s with
      | Some d =>
          option_map (fun s => long_press_work_handler joined
                                 (set_long_press_work None s))
                     (expires d s)
      | None => None
      end
  | EffectExpires pwm_ret =>
      match effect_work (effect s) with
      | Some d =>
          option_map (fun s => effect_work_handler pwm_ret
                                 (clear_effect_work s))
                     (expires d s)
      | None => None
      end
  | TransitionExpires pwm_ret =>
      match transition_work (transition s) with
      | Some d =>
          option_map (fun s => transition_work_handler pwm_ret
                                 (clear_transition_work s))
                     (expires d s)
      | None => None
      end
  | ButtonEdge t level pwm_ret =>
      option_map (button_work_handler pwm_ret level) (arrives t s)
  | IdentifyEffect t effect_id pwm_ret =>
      option_map (start_identify_effect pwm_ret effect_id) (arrives t s)
  | LevelControlSetValue t new_level pwm_ret =>
      option_map (level_control_set_value pwm_ret new_level) (arrives t s)
  | OnOffSetValue t on pwm_ret =>
      option_map (on_off_set_value pwm_ret on) (arrives t s)
  | PolarityTick t =>
      if polarity_timer (hw s) then
        option_map polarity_timer_handler (arrives t s)
      else None
  end.

(** A sequence of events, left to right. *)
Fixpoint run (s : state) (es : list event) : option state :=
  match es with
  | [] => Some s
  | e :: es' =>
      match step s e with
      | Some s' => run s' es'
      | None => None
      end
  end.

(** A board at rest with a PWM of period [period]: the state
    [hardware_init] and [clusters_attr_init] leave behind, everything off,
    one-second on/off transition, both startup policies "previous", and the
    level attribute at ZBOSS's [ZB_ZCL_LEVEL_CONTROL_LEVEL_MAX_VALUE], taken
    here as 255. *)
Definition boot_state (period : Z) : state :=
  {| dev_ctx := {| on_off := false; start_up_on_off := 255;
                   current_level := 255; on_off_transition_time := 10;
                   start_up_current_level := 255 |};
     app_state := {| press_time := 0; pressed := false;
                     last_brightness := 254 |};
     long_press_work := None;
     effect := {| effect_work := None; effect_type := 0; effect_step := 0 |};
     light := {| current_brightness := 0; light_is_on := false;
                 polarity_phase := false |};
     transition := {| transition_work := None; transition_start := 0;
                      transition_target := 0; transition_elapsed := 0;
                      transition_duration := 0 |};
     hw := {| pwm_period := period; pwm_pulse := 0;
              tb6612_ain1 := false; tb6612_ain2 := false;
              tb6612_standby := false; polarity_timer := false;
              status_led := false |};
     uptime := 0;
     outputs := [] |}.

(** The kernel running [transition_work]: the item leaves the queue, then
    its handler runs. *)
Definition transition_tick (pwm_ret : Z) (s : state) : state :=
  transition_work_handler pwm_ret (clear_transition_work s).

(** Successive runs of [transition_work], one PWM answer per run. *)
Fixpoint transition_ticks (rs : list Z) (s : state) : state :=
  match rs with
  | [] => s
  | r :: rs' => transition_ticks rs' (transition_tick r s)
  end.

(** The kernel running [effect_work]. *)
Definition effect_tick (pwm_ret : Z) (s : state) : state :=
  effect_work_handler pwm_ret (clear_effect_work s).

Fixpoint effect_ticks (rs : list Z) (s : state) : state :=
  match rs with
  | [] => s
  | r :: rs' => effect_ticks rs' (effect_tick r s)
  end.

(** A freshly booted board whose [on_off_transition_time] has been written
    to 1966 (196.6 s). *)
Definition long_fade_state : state :=
  set_dev_ctx {| on_off := false; start_up_on_off := 255;
                 current_level := 255; on_off_transition_time := 1966;
                 start_up_current_level := 255 |}
              (boot_state 1000000).

(** A light that is off with level 0 and no remembered brightness. *)
Definition dark_state : state :=
  set_app_state {| press_time := 0; pressed := false; last_brightness := 0 |}
    (set_attr_current_level 0 (boot_state 1000000)).


(** The design document's effect variants, and the variant an identifier
    selects in the [switch] of [effect_work_handler] (FinishEffect, Stop and
    every unknown identifier share the restoring arm). *)
Inductive EffectKind := NoEffect | Blink | Breathe | Okay | ChannelChange.

Definition effect_kind (effect_id : Z) : EffectKind :=
  if effect_id =? ZB_ZCL_IDENTIFY_EFFECT_ID_BLINK then Blink
  else if effect_id =? ZB_ZCL_IDENTIFY_EFFECT_ID_BREATHE then Breathe
  else if effect_id =? ZB_ZCL_IDENTIFY_EFFECT_ID_OKAY then Okay
  else if effect_id =? ZB_ZCL_IDENTIFY_EFFECT_ID_CHANNEL_CHANGE
       then ChannelChange
  else NoEffect.

(** One row of the design document's script table: at step [step] the
    effect shows [brightness], moves to [next] and waits [delay] ms; [None]
    is the restore step. *)
Definition effect_script (k : EffectKind) (step : Z) : option (Z * Z * Z) :=
  match k with
  | Blink => if step =? 0 then Some (255, 1, 500) else None
  | Breathe =>
      if step <? 30 then
        Some (if Z.rem step 2 =? 0 then 255 else 0, u8 (step + 1), 500)
      else None
  | Okay =>
      if step <? 4 then
        Some (if Z.rem step 2 =? 0 then 255 else 0, u8 (step + 1), 200)
      else None
  | ChannelChange =>
      if step =? 0 then Some (255, 1, 500)
      else if step =? 1 then Some (25, 2, 7500)
      else None
  | NoEffect => None
  end.

(** The levels a whole script shows before it restores. *)
Fixpoint alternate (n : nat) (on : bool) : list Z :=
  match n with
  | O => []
  | S n' => (if on then 255 else 0) :: alternate n' (negb on)
  end.

Definition script_levels (k : EffectKind) : list Z :=
  match k with
  | Blink => [255]
  | Breathe => alternate 30 true
  | Okay => alternate 4 true
  | ChannelChange => [255; 25]
  | NoEffect => []
  end.

(** The step a script is at after [n] rows from [step], if it has that
    many. *)
Fixpoint script_after (k : EffectKind) (step : Z) (n : nat) : option Z :=
  match n with
  | O => Some step
  | S n' =>
      match effect_script k step with
      | Some (_, next, _) => script_after k next n'
      | None => None
      end
  end.

(** Row [n] of script [k], counted from step 0, is at step [n]; it shows
    level [n] of [script_levels k] when there is one and is the restore step
    when the levels are exhausted. *)
Definition script_row_ok (k : EffectKind) (n : nat) : bool :=
  match script_after k 0 n with
  | Some step =>
      (step =? Z.of_nat n)
      && match effect_script k step with
         | Some (brightness, _, _) =>
             Nat.ltb n (List.length (script_levels k))
             && (brightness =? nth n (script_levels k) 0)
         | None => Nat.eqb n (List.length (script_levels k))
         end
  | None => false
  end.

(** The two button events, as the log lines that announce them: a short
    press is [LOG_INF("Short press - toggle")] followed by [light_toggle], a
    long press is [LOG_INF("Long press - factory reset")] followed by the
    reset. *)
Definition is_short_press (o : output) : bool :=
  match o with
  | LOG_INF fmt => String.eqb fmt "Short press - toggle"
  | _ => false
  end.

Definition is_long_press (o : output) : bool :=
  match o with
  | LOG_INF fmt => String.eqb fmt "Long press - factory reset"
  | _ => false
  end.

Definition short_presses (s : state) : nat :=
  List.length (filter is_short_press (outputs s)).

Definition long_presses (s : state) : nat :=
  List.length (filter is_long_press (outputs s)).

(** An output that is neither button event. *)
Definition quiet (o : output) : bool :=
  negb (is_short_press o) && negb (is_long_press o).

(** What the button machine depends on and produces. *)
Definition button_view (s : state) : bool * Z * k_work_delayable * Z * nat * nat :=
  (pressed (app_state s), press_time (app_state s), long_press_work s,
   uptime s, short_presses s, long_presses s).

(** The handler of [button_work] sees the button released. *)
Definition is_release (e : event) : bool :=
  match e with
  | ButtonEdge _ level _ => negb level
  | _ => false
  end.

(** The handler of [button_work] sees the button pressed. *)
Definition is_press (e : event) : bool :=
  match e with
  | ButtonEdge _ level _ => level
  | _ => false
  end.

(** The button stays held throughout [es]: no run of the handler sees it
    released. *)
Definition held (es : list event) : bool := forallb (fun e => negb (is_release e)) es.

(** The button stays up throughout [es]. *)
Definition untouched (es : list event) : bool := forallb (fun e => negb (is_press e)) es.

(** Events that run neither [button_work] nor [long_press_work]. *)
Definition is_other (e : event) : bool :=
  match e with
  | ButtonEdge _ _ _ | LongPressExpires _ => false
  | _ => true
  end.

(** The button has been held since the handler saw it go down at uptime
    [t0], with [a] short and [b] long presses logged before that: either the
    long-press timer is still pending for [t0 + 3000] and the clock has not
    passed it, or it has fired, once. *)
Definition pressed_since (t0 : Z) (a b : nat) (s : state) : Prop :=
  pressed (app_state s) = true
  /\ press_time (app_state s) = t0
  /\ short_presses s = a
  /\ ((long_press_work s = Some (t0 + BUTTON_LONG_PRESS_MS)
       /\ long_presses s = b
       /\ uptime s <= t0 + BUTTON_LONG_PRESS_MS)
      \/ (long_press_work s = None
          /\ long_presses s = S b
          /\ t0 + BUTTON_LONG_PRESS_MS <= uptime s)).

(** The button is up and no long-press timer is pending. *)
Definition button_idle (s : state) : Prop :=
  pressed (app_state s) = false /\ long_press_work s = None.

(** A short press on a freshly booted board, and a press held until the
    long-press timer fires. *)
Definition short_press_trace : list event :=
  [ButtonEdge 1000 true 0; ButtonEdge 1500 false 0].

Definition okay_then_timer : list event :=
  [IdentifyEffect 2000 ZB_ZCL_IDENTIFY_EFFECT_ID_OKAY 0;
   EffectExpires 0; EffectExpires 0; EffectExpires 0; EffectExpires 0;
   EffectExpires 0; LongPressExpires false].

Definition long_press_trace : list event :=
  ButtonEdge 1000 true 0 :: okay_then_timer.

(** A short press starts a one-second fade from 0 to 255; after its first
    tick a Blink arrives and shows its first level. *)
Definition blink_mid_fade_trace : list event :=
  [ButtonEdge 1000 true 0; ButtonEdge 1100 false 0; TransitionExpires 0;
   IdentifyEffect 1110 ZB_ZCL_IDENTIFY_EFFECT_ID_BLINK 0; EffectExpires 0].

(** The same, followed by the 25 fade ticks that come due before the
    Blink's restore step. *)
Definition blink_until_restore_trace : list event :=
  blink_mid_fade_trace ++ repeat (TransitionExpires 0) 25.

(** The state a trace leads to from boot (the boot state itself if the
    trace cannot happen). *)
Definition after_boot (es : list event) : state :=
  match run (boot_state 1000000) es with
  | Some s => s
  | None => boot_state 1000000
  end.

(** ** Consistency of the actuator *)

(** The light record and the peripherals agree: the H-bridge is on exactly
    when the brightness is positive, the alternation timer runs and STANDBY
    is high exactly when it is on, the AIN lines show the polarity phase
    (both low when off), and the PWM holds the pulse of the recorded
    brightness. *)
Definition driver_ok (l : light_t) (h : hw_t) : Prop :=
  is_u8 (current_brightness l)
  /\ light_is_on l = (0 <? current_brightness l)
  /\ polarity_timer h = light_is_on l
  /\ tb6612_standby h = light_is_on l
  /\ tb6612_ain1 h = light_is_on l && negb (polarity_phase l)
  /\ tb6612_ain2 h = light_is_on l && polarity_phase l
  /\ pwm_pulse h = pulse_of (pwm_period h) (current_brightness l).

(** The level variables hold [uint8_t] values. *)
Definition levels_ok (s : state) : Prop :=
  is_u8 (current_level (dev_ctx s))
  /\ is_u8 (last_brightness (app_state s))
  /\ is_u8 (transition_target (transition s)).

Definition well_formed (s : state) : Prop :=
  driver_ok (light s) (hw s) /\ levels_ok s.

(** ** Battery measurement and reporting *)

Module Gauge.

(** What the battery code sends out: its log lines and the attribute write
    that reports the voltage to the coordinator. *)
Inductive output :=
| LOG_ERR (fmt : string)
| LOG_WRN (fmt : string)
| LOG_INF (fmt : string)
| report_battery_voltage (v : Z).

(** What one call of [battery_measure_mv] meets: whether [adc_dev] is set,
    the results of [adc_channel_setup] and [adc_read], and the [int16_t]
    sample the read leaves in the buffer. *)
Record adc_t := {
  adc_dev : bool;
  adc_channel_setup_ret : Z;
  adc_read_ret : Z;
  sample : Z
}.

(** [voltage_mv = (uint32_t)sample * 18000U / 4096U], stored in a
    [uint16_t]. *)
Definition sample_to_mv (sample : Z) : Z :=
  u16 (Z.quot (u32 (u32 sample * 18000)) 4096).

(** [battery_measure_mv]: the voltage, and the error it logged if any. *)
Definition battery_measure_mv (a : adc_t) : Z * list output :=
  if negb (adc_dev a) then (0, [LOG_ERR "ADC not initialized"])
  else if adc_channel_setup_ret a <? 0 then
    (0, [LOG_ERR "ADC channel setup failed: %d"])
  else if adc_read_ret a <? 0 then (0, [LOG_ERR "ADC read failed: %d"])
  else (sample_to_mv (sample a), []).

(** [dev_ctx.power_config_attr.battery_voltage] and [battery_percentage],
    the delayable work [battery_work], and what has been sent out (most
    recent first). *)
Record battery_t := {
  battery_voltage : Z;
  battery_percentage : Z;
  battery_work : k_work_delayable;
  sent : list output
}.

(** [battery_update_and_report].  [joined] is [ZB_JOINED()]. *)
Definition battery_update_and_report (a : adc_t) (joined : bool) (b : battery_t)
  : battery_t :=
  let (voltage_mv, errs) := battery_measure_mv a in
  if voltage_mv =? 0 then
    {| battery_voltage := battery_voltage b;
       battery_percentage := battery_percentage b;
       battery_work := battery_work b;
       sent := LOG_WRN "Battery measurement failed" :: errs ++ sent b |}
  else
    let percent := battery_mv_to_percent voltage_mv in
    let v := u8 (Z.quot voltage_mv 100) in
    {| battery_voltage := v;
       battery_percentage := u8 (percent * 2);
       battery_work := battery_work b;
       sent := (if joined then [report_battery_voltage v] else [])
               ++ LOG_INF "Battery: %u mV (%u%%)" :: errs ++ sent b |}.

(** [BATTERY_REPORT_INTERVAL_SEC], at its default, in milliseconds. *)
Definition BATTERY_REPORT_INTERVAL_MS : Z := 3600 * 1000.

(** The kernel running [battery_work] at uptime [now]: the item leaves the
    queue, then [battery_work_handler] runs. *)
Definition battery_work_handler (a : adc_t) (joined : bool) (now : Z)
    (b : battery_t) : battery_t :=
  let b := battery_update_and_report a joined
             {| battery_voltage := battery_voltage b;
                battery_percentage := battery_percentage b;
                battery_work := None;
                sent := sent b |} in
  {| battery_voltage := battery_voltage b;
     battery_percentage := battery_percentage b;
     battery_work := k_work_schedule (battery_work b)
                                     BATTERY_REPORT_INTERVAL_MS now;
     sent := sent b |}.

End Gauge.

(** ** Persistent settings *)

Definition EINVAL : Z := 22.
Definition ENODEV : Z := 19.

(** Modelled from the spec: [sizeof(dev_ctx.on_off_attr.on_off)] depends on
    ZBOSS's [zb_bool_t], which is not among the sources; the design document
    gives the persisted layout as one byte for [on_off] and one for
    [level]. *)
Definition sizeof_on_off : Z := 1.
Definition sizeof_current_level : Z := 1.

(** [light_settings_set].  [value] is what [read_cb] copies into the
    attribute, [len] the stored length; the result is the return code and
    the new state. *)
Definition light_settings_set (name : string) (len : Z) (value : Z) (s : state)
  : Z * state :=
  if String.eqb name "on_off" then
    if negb (len =? sizeof_on_off) then (- EINVAL, s)
    else (0, emit (LOG_INF "Restored on_off: %d")
               (set_attr_on_off (negb (value =? 0)) s))
  else if String.eqb name "level" then
    if negb (len =? sizeof_current_level) then (- EINVAL, s)
    else (0, emit (LOG_INF "Restored level: %d")
               (set_attr_current_level (u8 value) s))
  else (0, s).

(** ** Status LED *)

(** The status LED line and the delayable work [status_led_work]. *)
Record status_led_t := {
  led : bool;
  status_led_work : k_work_delayable
}.

(** The kernel running [status_led_work] at uptime [now]: the item leaves
    the queue, then [status_led_work_handler] runs.  [ready] is
    [device_is_ready(status_led.port)], [joined] is [ZB_JOINED()]. *)
Definition status_led_work_handler (ready joined : bool) (now : Z)
    (l : status_led_t) : status_led_t :=
  if negb ready then {| led := led l; status_led_work := None |}
  else if joined then {| led := false; status_led_work := None |}
  else {| led := negb (led l);
          status_led_work := k_work_schedule None 500 now |}.

(** [update_status_led], called at uptime [now]. *)
Definition update_status_led (ready joined : bool) (now : Z) (l : status_led_t)
  : status_led_t :=
  if negb ready then l
  else if joined then
    {| led := false;
       status_led_work := k_work_cancel_delayable (status_led_work l) |}
  else
    match status_led_work l with
    | Some _ => l
    | None => {| led := led l;
                 status_led_work := k_work_schedule None K_NO_WAIT now |}
    end.

(** Successive runs of [status_led_work] while the device stays unjoined,
    each at the time the previous one scheduled. *)
Fixpoint blink_unjoined (n : nat) (now : Z) (l : status_led_t) : status_led_t :=
  match n with
  | O => l
  | S n' => blink_unjoined n' (now + 500) (status_led_work_handler true false now l)
  end.

(** ** Hardware initialisation *)

(** What the initialisation calls meet: readiness of each device and the
    return codes of the configuration calls. *)
Record init_env := {
  pwm_ready : bool;
  ain1_ready : bool;
  ain2_ready : bool;
  standby_ready : bool;
  ain1_configure : Z;
  ain2_configure : Z;
  standby_configure : Z;
  status_led_ready : bool;
  status_led_configure : Z;
  button_ready : bool;
  button_configure : Z;
  button_interrupt_configure : Z;
  button_add_callback : Z;
  adc_ready : bool
}.

(** A line of the H-bridge configured [GPIO_OUTPUT_LOW]. *)
Definition configure_ain1 (s : state) : state :=
  set_hw {| pwm_period := pwm_period (hw s); pwm_pulse := pwm_pulse (hw s);
            tb6612_ain1 := false; tb6612_ain2 := tb6612_ain2 (hw s);
            tb6612_standby := tb6612_standby (hw s);
            polarity_timer := polarity_timer (hw s);
            status_led := status_led (hw s) |} s.

Definition configure_ain2 (s : state) : state :=
  set_hw {| pwm_period := pwm_period (hw s); pwm_pulse := pwm_pulse (hw s);
            tb6612_ain1 := tb6612_ain1 (hw s); tb6612_ain2 := false;
            tb6612_standby := tb6612_standby (hw s);
            polarity_timer := polarity_timer (hw s);
            status_led := status_led (hw s) |} s.

Definition configure_standby (s : state) : state :=
  set_hw {| pwm_period := pwm_period (hw s); pwm_pulse := pwm_pulse (hw s);
            tb6612_ain1 := tb6612_ain1 (hw s);
            tb6612_ain2 := tb6612_ain2 (hw s);
            tb6612_standby := false;
            polarity_timer := polarity_timer (hw s);
            status_led := status_led (hw s) |} s.

(** [k_timer_init(&polarity_timer, ...)]: the timer starts out stopped. *)
Definition init_polarity_timer (s : state) : state :=
  set_hw {| pwm_period := pwm_period (hw s); pwm_pulse := pwm_pulse (hw s);
            tb6612_ain1 := tb6612_ain1 (hw s);
            tb6612_ain2 := tb6612_ain2 (hw s);
            tb6612_standby := tb6612_standby (hw s);
            polarity_timer := false;
            status_led := status_led (hw s) |} s.

(** The status LED configured [GPIO_OUTPUT_INACTIVE]. *)
Definition configure_status_led (s : state) : state :=
  set_hw {| pwm_period := pwm_period (hw s); pwm_pulse := pwm_pulse (hw s);
            tb6612_ain1 := tb6612_ain1 (hw s);
            tb6612_ain2 := tb6612_ain2 (hw s);
            tb6612_standby := tb6612_standby (hw s);
            polarity_timer := polarity_timer (hw s);
            status_led := false |} s.

(** [tb6612_init]: the return code and the state it leaves.  A
    configuration call that fails leaves its line as it was. *)
Definition tb6612_init (e : init_env) (s : state) : Z * state :=
  if negb (ain1_ready e) then
    (- ENODEV, emit (LOG_ERR "TB6612 AIN1 GPIO not ready") s)
  else if negb (ain2_ready e) then
    (- ENODEV, emit (LOG_ERR "TB6612 AIN2 GPIO not ready") s)
  else if negb (standby_ready e) then
    (- ENODEV, emit (LOG_ERR "TB6612 STANDBY GPIO not ready") s)
  else if ain1_configure e <? 0 then
    (ain1_configure e, emit (LOG_ERR "TB6612 AIN1 config failed: %d") s)
  else
    let s := configure_ain1 s in
    if ain2_configure e <? 0 then
      (ain2_configure e, emit (LOG_ERR "TB6612 AIN2 config failed: %d") s)
    else
      let s := configure_ain2 s in
      if standby_configure e <? 0 then
        (standby_configure e,
         emit (LOG_ERR "TB6612 STANDBY config failed: %d") s)
      else
        let s := configure_standby s in
        let s := init_polarity_timer s in
        (0, emit (LOG_INF
                    "TB6612 initialized (AIN1=P0.%u, AIN2=P0.%u, STBY=P0.%u)")
                 s).

(** [button_init]: the return code and the state it leaves;
    [k_work_init_delayable(&long_press_work, ...)] leaves the timer idle. *)
Definition button_init (e : init_env) (s : state) : Z * state :=
  if negb (button_ready e) then
    (- ENODEV, emit (LOG_ERR "Button device not ready") s)
  else if button_configure e <? 0 then
    (button_configure e, emit (LOG_ERR "Button config failed: %d") s)
  else if button_interrupt_configure e <? 0 then
    (button_interrupt_configure e,
     emit (LOG_ERR "Button interrupt config failed: %d") s)
  else if button_add_callback e <? 0 then
    (button_add_callback e, emit (LOG_ERR "Button callback add failed: %d") s)
  else
    (0, emit (LOG_INF "Button initialized on P0.%u")
             (set_long_press_work None s)).

(** [battery_init]: the return code and the state it leaves.  The power
    configuration attributes and [battery_work] it initialises are those of
    [Gauge.battery_t], not of [state]; on [state] it only logs. *)
Definition battery_init (e : init_env) (s : state) : Z * state :=
  if negb (adc_ready e) then
    (- ENODEV, emit (LOG_ERR "ADC device not ready") s)
  else (0, emit (LOG_INF "Battery measurement initialized") s).

(** [hardware_init]: the return code, the warnings it logged (by format
    string, most recent first; [output] has no line for them) and the state
    it leaves.  A status LED that fails to configure and a battery that
    fails to initialise are passed over with a warning, and the result of
    the closing [light_set_brightness(0)] is not looked at. *)
Definition hardware_init (e : init_env) (pwm_ret : Z) (s : state)
  : Z * list string * state :=
  if negb (pwm_ready e) then
    (- ENODEV, [], emit (LOG_ERR "PWM device not ready") s)
  else
    let s := emit (LOG_INF "PWM ready: period=%u ns") s in
    let (ret, s) := tb6612_init e s in
    if ret <? 0 then (ret, [], s)
    else
      let (w, s) :=
        if status_led_ready e then
          if status_led_configure e <? 0 then
            (["Status LED config failed: %d"%string], s)
          else ([], configure_status_led s)
        else ([], s) in
      let (ret, s) := button_init e s in
      if ret <? 0 then (ret, w, s)
      else
        let (ret, s) := battery_init e s in
        let w :=
          if ret <? 0 then
            "Battery init failed: %d (continuing without battery)"%string :: w
          else w in
        let s := clear_transition_work (clear_effect_work s) in
        (0, w, light_set_brightness pwm_ret 0 s).

(** The hardware every part of which [hardware_init] insists on. *)
Definition required_hardware_ok (e : init_env) : Prop :=
  pwm_ready e = true /\ ain1_ready e = true /\ ain2_ready e = true
  /\ standby_ready e = true /\ 0 <= ain1_configure e
  /\ 0 <= ain2_configure e /\ 0 <= standby_configure e
  /\ button_ready e = true /\ 0 <= button_configure e
  /\ 0 <= button_interrupt_configure e /\ 0 <= button_add_callback e.

(** ** Level conversion macros of [zigbee_light_config.h] *)

(** [ZB_LEVEL_TO_PWM(level, period)]. *)
Definition ZB_LEVEL_TO_PWM (level period : Z) : Z :=
  Z.quot (u32 (u32 level * u32 period)) 254.

(** [PWM_TO_ZB_LEVEL(duty, period)]. *)
Definition PWM_TO_ZB_LEVEL (duty period : Z) : Z :=
  u8 (Z.quot (u32 (u32 duty * 254)) (u32 period)).

(** ** Effect timing *)

(** The time [n] rows of a script take from [step]: the sum of the delays
    the handler passes to [k_work_schedule]. *)
Fixpoint script_time (k : EffectKind) (step : Z) (n : nat) : Z :=
  match n with
  | O => 0
  | S n' =>
      match effect_script k step with
      | Some (_, next, delay) => delay + script_time k next n'
      | None => 0
      end
  end.

(** From the first level of a script to its restore step. *)
Definition script_duration (k : EffectKind) : Z :=
  script_time k 0 (List.length (script_levels k)).

(** ** Fades past the wrap *)

(** The number of the tick at which a 16-bit [elapsed] stepping by 20 holds
    exactly [d], for [d] a multiple of 4 below 65536:
    [20 * 3277 = 65540 = 4 (mod 65536)]. *)
Definition arrival_tick (d : Z) : Z := (Z.quot d 4 * 3277) mod 16384.

(** [20 * arrival_tick d = d (mod 65536)] and the tick is a real one, for
    the multiple of 4 numbered [m]. *)
Definition arrival_ok (m : Z) : bool :=
  (u16 (20 * arrival_tick (4 * m)) =? 4 * m) && (0 <? arrival_tick (4 * m)).

(** * Properties *)

(** ** Machine integers *)

Lemma u8_id z : is_u8 z -> u8 z = z.
Proof. unfold is_u8, u8; intros; apply Z.mod_small; lia. Qed.

Lemma u16_id z : is_u16 z -> u16 z = z.
Proof. unfold is_u16, u16; intros; apply Z.mod_small; lia. Qed.

Lemma s32_id z : -2147483648 <= z < 2147483648 -> s32 z = z.
Proof. unfold s32; intros; rewrite Z.mod_small; lia. Qed.

(** ** Battery gauge *)

Lemma all_from_spec f n : forall lo,
  all_from f lo n = true -> forall z, lo <= z < lo + Z.of_nat n -> f z = true.
Proof.
  induction n as [|n IH]; intros lo H z Hz; [lia|].
  cbn [all_from] in H. apply andb_true_iff in H as [H0 H1].
  destruct (Z.eq_dec z lo) as [->|Hne]; [exact H0|].
  apply (IH (lo + 1)); [exact H1|lia].
Qed.

Lemma interpolates_between_end_points (m : Z) :
  3000 < m < 4200 -> interpolates_ok m = true.
Proof.
  intros Hm. apply (all_from_spec interpolates_ok 1199 3001); [|lia].
  vm_compute. reflexivity.
Qed.

(** C4.  [battery_mv_to_percent] clamps to 100 at or above 4200 mV and to 0
    at or below 3000 mV; for a reading strictly between, it stops at the
    first bracket in table (descending) order whose lower calibration point
    is at or below the reading and returns the linear interpolation of
    percent inside that bracket, which lies between the bracket's two
    percentages.  In particular 4200 and 5000 give 100, 3000 gives 0 and
    3800, a calibration point, gives 50. *)
Theorem battery_mv_to_percent_spec (m : Z) :
  (4200 <= m -> battery_mv_to_percent m = 100)
  /\ (m <= 3000 -> battery_mv_to_percent m = 0)
  /\ (3000 < m < 4200 ->
      exists i : nat,
        (S i < BATTERY_CURVE_SIZE)%nat
        /\ (forall j : nat, (j < i)%nat -> m < mv (curve (S j)))
        /\ mv (curve (S i)) <= m < mv (curve i)
        /\ battery_mv_to_percent m = lerp m i
        /\ percent (curve (S i)) <= battery_mv_to_percent m <= percent (curve i))
  /\ battery_mv_to_percent 4200 = 100
  /\ battery_mv_to_percent 5000 = 100
  /\ battery_mv_to_percent 3000 = 0
  /\ battery_mv_to_percent 3800 = 50.
Proof.
  repeat split; try reflexivity.
  - intros H. unfold battery_mv_to_percent. cbn [curve nth lipo_discharge_curve pt mv].
    destruct (4200 <=? m) eqn:E; [reflexivity|]. apply Z.leb_gt in E. lia.
  - intros H. unfold battery_mv_to_percent.
    change (mv (curve 0)) with 4200.
    change (mv (curve (BATTERY_CURVE_SIZE - 1))) with 3000.
    destruct (4200 <=? m) eqn:E; [apply Z.leb_le in E; lia|].
    destruct (m <=? 3000) eqn:E'; [reflexivity|]. apply Z.leb_gt in E'. lia.
  - intros H. pose proof (interpolates_between_end_points m H) as Hok.
    unfold interpolates_ok in Hok.
    destruct (bracket m) as [i|]; [|discriminate].
    repeat (apply andb_true_iff in Hok; destruct Hok as [Hok ?]).
    exists i. repeat split.
    + apply Nat.ltb_lt. assumption.
    + intros j Hj. apply Z.ltb_lt.
      match goal with
      | F : forallb _ _ = true |- _ =>
          rewrite forallb_forall in F; apply (F j)
      end.
      apply in_seq. lia.
    + apply Z.leb_le. assumption.
    + apply Z.ltb_lt. assumption.
    + apply Z.eqb_eq. assumption.
    + apply Z.leb_le. assumption.
    + apply Z.leb_le. assumption.
Qed.

(** The theorem of C4 at 3800 mV: bracket 9 (3840/55 down to 3800/50). *)
Lemma battery_mv_to_percent_spec_witness :
  3000 < 3800 < 4200
  /\ exists i : nat,
       (S i < BATTERY_CURVE_SIZE)%nat
       /\ (forall j : nat, (j < i)%nat -> 3800 < mv (curve (S j)))
       /\ mv (curve (S i)) <= 3800 < mv (curve i)
       /\ battery_mv_to_percent 3800 = lerp 3800 i
       /\ percent (curve (S i)) <= battery_mv_to_percent 3800 <= percent (curve i).
Proof.
  split; [lia|].
  apply (proj1 (proj2 (proj2 (battery_mv_to_percent_spec 3800)))). lia.
Defined.

(** Adjacent-pair checks, read back as statements about indices. *)
Lemma adjacent_nth (r : Z -> Z -> bool) (l : list Z) :
  adjacent r l = true ->
  forall i : nat, (S i < List.length l)%nat ->
    r (nth i l 0) (nth (S i) l 0) = true.
Proof.
  induction l as [|x [|y tl] IH]; intros H i Hi; cbn [List.length] in Hi;
    try lia.
  cbn [adjacent] in H. apply andb_true_iff in H as [Hxy Htl].
  destruct i as [|i]; [exact Hxy|].
  apply (IH Htl i). cbn [List.length]. lia.
Qed.

Lemma curve_mv (i : nat) : mv (curve i) = nth i (millivolts lipo_discharge_curve) 0.
Proof.
  unfold curve, millivolts. symmetry.
  apply (map_nth mv lipo_discharge_curve (pt 0 0) i).
Qed.

Lemma curve_percent (i : nat) :
  percent (curve i) = nth i (percents lipo_discharge_curve) 0.
Proof.
  unfold curve, percents. symmetry.
  apply (map_nth percent lipo_discharge_curve (pt 0 0) i).
Qed.

(** C5, as the table has it.  The curve is a fixed sequence of 21 points
    from 4200 mV / 100 % to 3000 mV / 0 %; read in table order it is strictly
    decreasing in millivolts and strictly decreasing (so non-increasing) in
    percent: percent never falls as millivolts rise. *)
Theorem lipo_discharge_curve_descending :
  BATTERY_CURVE_SIZE = 21%nat
  /\ curve 0 = pt 4200 100
  /\ curve 20 = pt 3000 0
  /\ forall i : nat, (S i < BATTERY_CURVE_SIZE)%nat ->
       mv (curve (S i)) < mv (curve i)
       /\ percent (curve (S i)) < percent (curve i).
Proof.
  repeat split; rewrite ?curve_mv, ?curve_percent; apply Z.ltb_lt.
  - assert (D : strictly_decreasing (millivolts lipo_discharge_curve) = true)
      by reflexivity.
    apply (adjacent_nth _ _ D). exact H.
  - assert (D : strictly_decreasing (percents lipo_discharge_curve) = true)
      by reflexivity.
    apply (adjacent_nth _ _ D). exact H.
Qed.

Lemma lipo_discharge_curve_descending_witness :
  (S 9 < BATTERY_CURVE_SIZE)%nat
  /\ mv (curve 10) < mv (curve 9)
  /\ percent (curve 10) < percent (curve 9).
Proof.
  split; [vm_compute; lia|].
  apply (proj2 (proj2 (proj2 lipo_discharge_curve_descending)) 9%nat).
  vm_compute; lia.
Defined.

(** C5 as worded fails on the table: in table order percent is not
    non-decreasing, the first two points already go from 100 down to 95. *)
Lemma lipo_discharge_curve_percent_not_non_decreasing :
  ~ (forall i : nat, (S i < BATTERY_CURVE_SIZE)%nat ->
       percent (curve i) <= percent (curve (S i))).
Proof.
  intros H.
  assert (N : non_decreasing (percents lipo_discharge_curve) = false)
    by reflexivity.
  assert (L : (1 < BATTERY_CURVE_SIZE)%nat) by (vm_compute; lia).
  specialize (H 0%nat L). vm_compute in H. apply H. reflexivity.
Qed.

(** ** Brightness mapper *)

#[global] Arguments pulse_of : simpl never.
#[global] Arguments u8 : simpl never.
#[global] Arguments u16 : simpl never.
#[global] Arguments u32 : simpl never.
#[global] Arguments s32 : simpl never.

(** Opens a state down to the fields of its light and hardware records. *)
Ltac open_state s :=
  let c := fresh "ctx" in
  let a := fresh "app" in
  let l := fresh "lpw" in
  let e := fresh "eff" in
  let li := fresh "li" in
  let t := fresh "tr" in
  let h := fresh "h" in
  let u := fresh "up" in
  let o := fresh "out" in
  destruct s as [c a l e li t h u o]; destruct li, h;
  cbn [dev_ctx app_state long_press_work effect light transition hw uptime
       outputs current_brightness light_is_on polarity_phase pwm_period
       pwm_pulse tb6612_ain1 tb6612_ain2 tb6612_standby polarity_timer
       status_led] in *.

Ltac unfold_brightness :=
  unfold light_set_brightness, tb6612_on, tb6612_off, emit, set_hw, set_light;
  cbn [dev_ctx app_state long_press_work effect light transition hw uptime
       outputs current_brightness light_is_on polarity_phase pwm_period
       pwm_pulse tb6612_ain1 tb6612_ain2 tb6612_standby polarity_timer
       status_led negb].

Lemma light_set_brightness_fail (r level : Z) (s : state) :
  r <> 0 -> light_set_brightness r level s = emit (LOG_ERR "PWM set failed") s.
Proof.
  intros Hr. unfold light_set_brightness.
  destruct (r =? 0) eqn:E; [apply Z.eqb_eq in E; contradiction|reflexivity].
Qed.

(** What a successful write leaves in the light record. *)
Lemma light_set_brightness_ok_level (level : Z) (s : state) :
  current_brightness (light (light_set_brightness 0 level s)) = level.
Proof.
  open_state s. unfold_brightness.
  destruct (0 <? level), (level =? 0), light_is_on0; reflexivity.
Qed.

Lemma light_set_brightness_frame (r level : Z) (s : state) :
  let s' := light_set_brightness r level s in
  dev_ctx s' = dev_ctx s /\ app_state s' = app_state s
  /\ long_press_work s' = long_press_work s /\ effect s' = effect s
  /\ transition s' = transition s /\ uptime s' = uptime s
  /\ pwm_period (hw s') = pwm_period (hw s).
Proof.
  open_state s. unfold_brightness.
  destruct (r =? 0), (0 <? level), (level =? 0), light_is_on0;
    cbn; repeat split; reflexivity.
Qed.

(** After an accepted write the level is recorded, the PWM holds the
    matching pulse and the H-bridge is on exactly when the level is
    positive. *)
Lemma light_set_brightness_ok_post (level : Z) (s : state) :
  is_u8 level ->
  let s1 := light_set_brightness 0 level s in
  current_brightness (light s1) = level
  /\ pwm_pulse (hw s1) = pulse_of (pwm_period (hw s1)) level
  /\ light_is_on (light s1) = (0 <? level).
Proof.
  intros Hl. open_state s. unfold_brightness.
  destruct (0 <? level) eqn:Hpos, (level =? 0) eqn:Hz, light_is_on0;
    cbn [andb negb Z.eqb]; unfold_brightness; repeat split; try reflexivity.
  - apply Z.ltb_lt in Hpos. apply Z.eqb_eq in Hz. lia.
  - apply Z.ltb_ge in Hpos. apply Z.eqb_neq in Hz. unfold is_u8 in Hl. lia.
Qed.

(** A state that already shows [level] is a fixed point of an accepted
    write of [level]. *)
Lemma light_set_brightness_fixed (level : Z) (s : state) :
  current_brightness (light s) = level ->
  pwm_pulse (hw s) = pulse_of (pwm_period (hw s)) level ->
  light_is_on (light s) = (0 <? level) ->
  light_set_brightness 0 level s = s.
Proof.
  open_state s. intros Hc Hp Hon. subst. unfold_brightness.
  destruct (0 <? level) eqn:Hpos; destruct (level =? 0) eqn:Hz;
    cbn [andb negb Z.eqb]; try reflexivity.
  apply Z.ltb_lt in Hpos. apply Z.eqb_eq in Hz. lia.
Qed.

(** C2, as the code has it.  When the PWM write fails, [light_set_brightness]
    logs the failure and returns (it has no error result) leaving the state
    as it was before the call: the requested level is not recorded, the
    current brightness, the on/off flag and the H-bridge lines keep their
    previous values. *)
Theorem light_set_brightness_pwm_failure (pwm_ret level : Z) (s : state) :
  is_u8 level -> pwm_ret <> 0 ->
  let s' := light_set_brightness pwm_ret level s in
  outputs s' = LOG_ERR "PWM set failed" :: outputs s
  /\ light s' = light s
  /\ hw s' = hw s
  /\ s' = emit (LOG_ERR "PWM set failed") s.
Proof.
  intros _ Hr s'. subst s'. rewrite (light_set_brightness_fail _ _ _ Hr).
  repeat split; reflexivity.
Qed.

Lemma light_set_brightness_pwm_failure_witness :
  let s' := light_set_brightness (-5) 100 (boot_state 1000000) in
  outputs s' = LOG_ERR "PWM set failed" :: outputs (boot_state 1000000)
  /\ light s' = light (boot_state 1000000)
  /\ hw s' = hw (boot_state 1000000)
  /\ s' = emit (LOG_ERR "PWM set failed") (boot_state 1000000).
Proof.
  apply (light_set_brightness_pwm_failure (-5) 100 (boot_state 1000000)).
  - unfold is_u8; lia.
  - lia.
Defined.

(** C2 as worded fails: a failed write of level 100 on a light at level 0
    leaves the current brightness at 0, not at the requested 100. *)
Lemma light_set_brightness_failure_records_nothing :
  ~ (forall (pwm_ret level : Z) (s : state),
       is_u8 level -> pwm_ret <> 0 ->
       current_brightness (light (light_set_brightness pwm_ret level s)) = level).
Proof.
  intros H.
  specialize (H (-5) 100 (boot_state 1000000)).
  assert (L : is_u8 100) by (unfold is_u8; lia).
  assert (R : -5 <> 0) by lia.
  specialize (H L R). vm_compute in H. discriminate H.
Qed.

(** A repeated write changes nothing as soon as the first write was
    accepted or the second is refused. *)
Lemma light_set_brightness_repeat (r1 r2 level : Z) (s : state) :
  is_u8 level -> r1 = 0 \/ r2 <> 0 ->
  let s1 := light_set_brightness r1 level s in
  let s2 := light_set_brightness r2 level s1 in
  light s2 = light s1 /\ hw s2 = hw s1 /\ (r2 = 0 -> s2 = s1).
Proof.
  intros Hl Hr s1 s2. subst s1 s2.
  destruct (Z.eq_dec r2 0) as [->|Hr2].
  - destruct Hr as [->|Hr]; [|contradiction].
    destruct (light_set_brightness_ok_post level s Hl) as (Hc & Hpu & Hon).
    rewrite (light_set_brightness_fixed level _ Hc Hpu Hon).
    repeat split; reflexivity.
  - rewrite (light_set_brightness_fail r2 level _ Hr2).
    repeat split; try reflexivity. intros; contradiction.
Qed.

(** C9.  [light_set_brightness] is idempotent: with the PWM answering both
    calls alike ([pwm_ret]), calling it a second time with the same level
    asks for the same pulse width and leaves the brightness state (current
    brightness, on/off flag, polarity phase) and the PWM and H-bridge lines
    as the first call left them; when the writes are accepted the whole
    state is unchanged by the second call. *)
Theorem light_set_brightness_idempotent (pwm_ret level : Z) (s : state) :
  is_u8 level ->
  let s1 := light_set_brightness pwm_ret level s in
  let s2 := light_set_brightness pwm_ret level s1 in
  pulse_of (pwm_period (hw s1)) level = pulse_of (pwm_period (hw s)) level
  /\ light s2 = light s1
  /\ hw s2 = hw s1
  /\ light_set_brightness 0 level (light_set_brightness 0 level s)
     = light_set_brightness 0 level s.
Proof.
  intros Hl s1 s2. subst s1 s2.
  destruct (light_set_brightness_frame pwm_ret level s) as (_&_&_&_&_&_&Hp).
  split; [rewrite Hp; reflexivity|].
  assert (Hr : pwm_ret = 0 \/ pwm_ret <> 0)
    by (destruct (Z.eq_dec pwm_ret 0); [left | right]; assumption).
  destruct (light_set_brightness_repeat pwm_ret pwm_ret level s Hl Hr)
    as (H1 & H2 & _).
  split; [exact H1|]. split; [exact H2|].
  destruct (light_set_brightness_repeat 0 0 level s Hl (or_introl eq_refl))
    as (_ & _ & H3).
  exact (H3 eq_refl).
Qed.

Lemma light_set_brightness_idempotent_witness :
  let s1 := light_set_brightness 0 128 (boot_state 1000000) in
  let s2 := light_set_brightness 0 128 s1 in
  pulse_of (pwm_period (hw s1)) 128
    = pulse_of (pwm_period (hw (boot_state 1000000))) 128
  /\ light s2 = light s1
  /\ hw s2 = hw s1
  /\ light_set_brightness 0 128 (light_set_brightness 0 128 (boot_state 1000000))
     = light_set_brightness 0 128 (boot_state 1000000).
Proof.
  apply (light_set_brightness_idempotent 0 128 (boot_state 1000000)).
  unfold is_u8; lia.
Defined.

(** ** Fades and toggling *)

#[global] Arguments light_set_brightness : simpl never.
#[global] Arguments light_fade_to : simpl never.

(** Record projections, for controlled simplification. *)
Ltac proj :=
  cbn [dev_ctx app_state long_press_work effect light transition hw uptime
       outputs on_off start_up_on_off current_level on_off_transition_time
       start_up_current_level press_time pressed last_brightness effect_work
       effect_type effect_step current_brightness light_is_on polarity_phase
       transition_work transition_start transition_target transition_elapsed
       transition_duration pwm_period pwm_pulse tb6612_ain1 tb6612_ain2
       tb6612_standby polarity_timer status_led] in *.

Ltac unfold_setters :=
  unfold set_attr_on_off, set_attr_current_level, set_last_brightness,
    save_light_state, set_effect_type, set_effect_step, schedule_effect_work,
    clear_effect_work, clear_transition_work, emit, set_dev_ctx,
    set_app_state, set_long_press_work, set_effect, set_light,
    set_transition, set_hw, set_uptime in *.

(** Projections through the setters, without unfolding anything else. *)
Ltac frame :=
  cbn [dev_ctx app_state long_press_work effect light transition hw uptime
       outputs on_off start_up_on_off current_level on_off_transition_time
       start_up_current_level press_time pressed last_brightness effect_work
       effect_type effect_step current_brightness light_is_on polarity_phase
       transition_work transition_start transition_target transition_elapsed
       transition_duration pwm_period pwm_pulse tb6612_ain1 tb6612_ain2
       tb6612_standby polarity_timer status_led
       set_attr_on_off set_attr_current_level set_last_brightness
       save_light_state set_effect_type set_effect_step schedule_effect_work
       clear_effect_work clear_transition_work emit set_dev_ctx
       set_app_state set_long_press_work set_effect set_light
       set_transition set_hw set_uptime] in *.

Lemma light_fade_to_starts (r target d : Z) (s : state) :
  d <> 0 -> current_brightness (light s) <> target ->
  light_fade_to r target d s
  = set_transition {| transition_work := Some (uptime s);
                      transition_start := current_brightness (light s);
                      transition_target := target;
                      transition_elapsed := 0;
                      transition_duration := d |}
      (emit (LOG_INF "Fade: %u -> %u over %ums") s).
Proof.
  intros Hd Hc. unfold light_fade_to. unfold_setters. proj.
  apply Z.eqb_neq in Hd, Hc. rewrite Hd, Hc. cbn [orb].
  unfold k_work_cancel_delayable, k_work_schedule, K_NO_WAIT.
  rewrite Z.add_0_r. reflexivity.
Qed.

Lemma light_fade_to_immediate (r target d : Z) (s : state) :
  d = 0 \/ current_brightness (light s) = target ->
  light_fade_to r target d s
  = light_set_brightness r target
      (set_transition {| transition_work := None;
                         transition_start := transition_start (transition s);
                         transition_target := transition_target (transition s);
                         transition_elapsed := transition_elapsed (transition s);
                         transition_duration := transition_duration (transition s) |}
         s).
Proof.
  intros H. unfold light_fade_to. unfold_setters. proj.
  assert (E : (d =? 0) || (current_brightness (light s) =? target) = true).
  { apply orb_true_iff. destruct H as [H|H]; [left|right]; apply Z.eqb_eq, H. }
  rewrite E. reflexivity.
Qed.

Lemma toggle_transition_ms_nonzero (s : state) : toggle_transition_ms s <> 0.
Proof.
  unfold toggle_transition_ms.
  destruct (u16 (on_off_transition_time (dev_ctx s) * 100) =? 0) eqn:E;
    [lia | apply Z.eqb_neq in E; exact E].
Qed.

(** C10.  When [light_toggle] switches the light from off to on, the level
    it hands to [light_fade_to] is [current_level] if that is positive,
    otherwise [last_brightness] if that is positive, otherwise 255; it is
    never 0.  That level becomes the target of the fade it starts (or, when
    the light already shows it, the level written at once). *)
Theorem light_toggle_on_targets_positive_level (pwm_ret : Z) (s : state) :
  is_u8 (current_level (dev_ctx s)) ->
  is_u8 (last_brightness (app_state s)) ->
  on_off (dev_ctx s) = false ->
  let target := toggle_target_level s in
  let s' := light_toggle pwm_ret s in
  0 < target
  /\ target = (if 0 <? current_level (dev_ctx s) then current_level (dev_ctx s)
               else if 0 <? last_brightness (app_state s)
                    then last_brightness (app_state s)
                    else 255)
  /\ on_off (dev_ctx s') = true
  /\ (current_brightness (light s) <> target ->
      transition s'
      = {| transition_work := Some (uptime s);
           transition_start := current_brightness (light s);
           transition_target := target;
           transition_elapsed := 0;
           transition_duration := toggle_transition_ms s |})
  /\ (current_brightness (light s) = target ->
      transition_work (transition s') = None
      /\ (pwm_ret = 0 -> current_brightness (light s') = target)).
Proof.
  intros Hcl Hlb Hoff target s'.
  assert (Ht : target = (if 0 <? current_level (dev_ctx s)
                         then current_level (dev_ctx s)
                         else if 0 <? last_brightness (app_state s)
                              then last_brightness (app_state s)
                              else 255)).
  { subst target. unfold toggle_target_level. rewrite Hoff. cbn [negb].
    destruct (0 <? current_level (dev_ctx s)) eqn:E1.
    - apply Z.ltb_lt in E1.
      destruct (current_level (dev_ctx s) =? 0) eqn:E2;
        [apply Z.eqb_eq in E2; lia | reflexivity].
    - destruct (last_brightness (app_state s) =? 0) eqn:E2.
      + apply Z.eqb_eq in E2. rewrite E2. reflexivity.
      + apply Z.eqb_neq in E2. unfold is_u8 in Hlb.
        destruct (0 <? last_brightness (app_state s)) eqn:E3;
          [reflexivity | apply Z.ltb_ge in E3; lia]. }
  assert (Hpos : 0 < target).
  { rewrite Ht. unfold is_u8 in *.
    destruct (0 <? current_level (dev_ctx s)) eqn:E1;
      [apply Z.ltb_lt in E1; exact E1|].
    destruct (0 <? last_brightness (app_state s)) eqn:E2;
      [apply Z.ltb_lt in E2; exact E2 | lia]. }
  split; [exact Hpos|]. split; [exact Ht|].
  subst s'. unfold light_toggle. fold target. rewrite Hoff. cbn [negb andb].
  set (s2 := if negb (target =? current_level (dev_ctx (set_attr_on_off true s)))
             then set_attr_current_level target (set_attr_on_off true s)
             else set_attr_on_off true s).
  assert (F2 : on_off (dev_ctx s2) = true /\ light s2 = light s
               /\ transition s2 = transition s /\ uptime s2 = uptime s).
  { subst s2. destruct (negb _); frame; repeat split. }
  destruct F2 as (Hon2 & Hl2 & Ht2 & Hu2).
  apply Z.ltb_lt in Hpos. rewrite Hpos.
  split; [|split].
  - destruct (Z.eq_dec (current_brightness (light s)) target) as [E|E].
    + rewrite light_fade_to_immediate by (right; rewrite Hl2; exact E).
      destruct (light_set_brightness_frame pwm_ret target
                  (set_transition
                     {| transition_work := None;
                        transition_start := transition_start (transition s2);
                        transition_target := transition_target (transition s2);
                        transition_elapsed := transition_elapsed (transition s2);
                        transition_duration := transition_duration (transition s2) |}
                     s2)) as (Hd & _).
      frame. rewrite Hd. proj. exact Hon2.
    + rewrite light_fade_to_starts
        by (try apply toggle_transition_ms_nonzero; rewrite Hl2; exact E).
      frame. exact Hon2.
  - intros E.
    rewrite light_fade_to_starts
      by (try apply toggle_transition_ms_nonzero; rewrite Hl2; exact E).
    frame. rewrite Hl2, Hu2. reflexivity.
  - intros E.
    rewrite light_fade_to_immediate by (right; rewrite Hl2; exact E).
    set (s3 := set_transition _ s2).
    destruct (light_set_brightness_frame pwm_ret target s3)
      as (_ & _ & _ & _ & Htr & _).
    split.
    + frame. rewrite Htr. subst s3. frame.
      reflexivity.
    + intros ->. frame.
      apply light_set_brightness_ok_level.
Qed.

(** The theorem of C10 on a light that is off with level 0 and no remembered
    brightness: the toggle fades to 255. *)
Lemma light_toggle_on_targets_positive_level_witness :
  toggle_target_level dark_state = 255
  /\ 0 < toggle_target_level dark_state
  /\ transition_target (transition (light_toggle 0 dark_state)) = 255.
Proof.
  pose proof (light_toggle_on_targets_positive_level 0 dark_state) as H.
  assert (H1 : is_u8 (current_level (dev_ctx dark_state)))
    by (vm_compute; split; discriminate).
  assert (H2 : is_u8 (last_brightness (app_state dark_state)))
    by (vm_compute; split; discriminate).
  assert (H3 : on_off (dev_ctx dark_state) = false) by reflexivity.
  specialize (H H1 H2 H3). cbv zeta in H.
  destruct H as (Hpos & Ht & _ & Hfade & _).
  split; [reflexivity|]. split; [exact Hpos|].
  rewrite Hfade; [reflexivity | vm_compute; discriminate].
Defined.

(** ** Startup resolver *)

(** What [light_set_brightness] does to the light and the peripherals
    depends on nothing else in the state. *)
Lemma light_set_brightness_local (r level : Z) (s1 s2 : state) :
  light s1 = light s2 -> hw s1 = hw s2 ->
  light (light_set_brightness r level s1) = light (light_set_brightness r level s2)
  /\ hw (light_set_brightness r level s1) = hw (light_set_brightness r level s2).
Proof.
  destruct s1 as [c1 a1 l1 e1 li1 t1 h1 u1 o1].
  destruct s2 as [c2 a2 l2 e2 li2 t2 h2 u2 o2].
  cbn [light hw]. intros -> ->. destruct li2, h2. unfold_brightness.
  destruct (r =? 0), (0 <? level), (level =? 0), light_is_on0;
    cbn [andb negb]; unfold_brightness; split; reflexivity.
Qed.

Lemma startup_level_resolves (c : light_device_ctx_t) :
  startup_level c
  = resolve_level (level_mode_of (start_up_current_level c)) (current_level c).
Proof.
  unfold startup_level, level_mode_of, ZB_ZCL_LEVEL_STARTUP_MINIMUM,
    ZB_ZCL_LEVEL_STARTUP_PREVIOUS, ZB_ZCL_LEVEL_CONTROL_LEVEL_MIN_VALUE.
  destruct (start_up_current_level c =? 0);
    [reflexivity | destruct (start_up_current_level c =? 255); reflexivity].
Qed.

Lemma startup_on_off_resolves (c : light_device_ctx_t) :
  startup_on_off c
  = resolve_on_off (on_off_mode_of (start_up_on_off c)) (on_off c).
Proof.
  unfold startup_on_off, on_off_mode_of, ZB_ZCL_ON_OFF_STARTUP_OFF,
    ZB_ZCL_ON_OFF_STARTUP_ON, ZB_ZCL_ON_OFF_STARTUP_TOGGLE.
  destruct (start_up_on_off c =? 0); [reflexivity|].
  destruct (start_up_on_off c =? 1); [reflexivity|].
  destruct (start_up_on_off c =? 2); reflexivity.
Qed.

(** C8.  [apply_startup_behavior] resolves the level from the level policy
    and the persisted level alone (Minimum gives 0, Previous the persisted
    [current_level], Specific v gives v) and the on/off state from the on/off
    policy and the persisted [on_off] alone (Off, On, Toggle negates,
    Previous keeps); it stores both as the new attributes and writes the
    brightness at once, the resolved level if on and 0 if off, through
    [light_set_brightness], leaving the fade engine untouched. *)
Theorem apply_startup_behavior_resolves (pwm_ret : Z) (s : state) :
  let c := dev_ctx s in
  let level := resolve_level (level_mode_of (start_up_current_level c))
                             (current_level c) in
  let on := resolve_on_off (on_off_mode_of (start_up_on_off c)) (on_off c) in
  let s' := apply_startup_behavior pwm_ret s in
  current_level (dev_ctx s') = level
  /\ on_off (dev_ctx s') = on
  /\ start_up_current_level (dev_ctx s') = start_up_current_level c
  /\ start_up_on_off (dev_ctx s') = start_up_on_off c
  /\ transition s' = transition s
  /\ light s' = light (light_set_brightness pwm_ret (if on then level else 0) s)
  /\ hw s' = hw (light_set_brightness pwm_ret (if on then level else 0) s)
  /\ current_brightness (light (apply_startup_behavior 0 s))
     = (if on then level else 0).
Proof.
  intros c level on s'.
  assert (G : forall r,
    let s' := apply_startup_behavior r s in
    dev_ctx s' = {| on_off := on; start_up_on_off := start_up_on_off c;
                    current_level := level;
                    on_off_transition_time := on_off_transition_time c;
                    start_up_current_level := start_up_current_level c |}
    /\ transition s' = transition s
    /\ light s' = light (light_set_brightness r (if on then level else 0) s)
    /\ hw s' = hw (light_set_brightness r (if on then level else 0) s)).
  { intros r. cbv zeta. unfold apply_startup_behavior.
    rewrite startup_level_resolves, startup_on_off_resolves.
    frame. fold c. fold level. fold on.
    set (s1 := set_dev_ctx _ _).
    assert (L1 : light s1 = light s /\ hw s1 = hw s /\ transition s1 = transition s
                 /\ dev_ctx s1 = {| on_off := on;
                                    start_up_on_off := start_up_on_off c;
                                    current_level := level;
                                    on_off_transition_time := on_off_transition_time c;
                                    start_up_current_level := start_up_current_level c |}).
    { subst s1. frame. repeat split. }
    destruct L1 as (Hl & Hh & Ht & Hc).
    destruct on.
    - destruct (light_set_brightness_frame r level s1) as (Hd&_&_&_&Htr&_).
      destruct (light_set_brightness_local r level s1 s Hl Hh) as (Hl' & Hh').
      frame. rewrite Hd, Htr, Hl', Hh'. repeat split; assumption.
    - destruct (light_set_brightness_frame r 0 s1) as (Hd&_&_&_&Htr&_).
      destruct (light_set_brightness_local r 0 s1 s Hl Hh) as (Hl' & Hh').
      frame. rewrite Hd, Htr, Hl', Hh'. repeat split; assumption. }
  destruct (G pwm_ret) as (Hd & Ht & Hl & Hh).
  subst s'. rewrite Hd. frame.
  repeat split; try assumption.
  destruct (G 0) as (_ & _ & Hl0 & _). rewrite Hl0.
  apply light_set_brightness_ok_level.
Qed.

(** ** The fade engine, tick by tick *)

(** One run of [transition_work]: [elapsed] advances by the step, modulo
    2^16; the fade ends (target written, nothing rescheduled) when it has
    reached the duration, and otherwise writes the interpolated level and
    reschedules itself. *)
Lemma transition_tick_spec (r : Z) (s : state) :
  let t := transition s in
  let e := u16 (transition_elapsed t + TRANSITION_STEP_MS) in
  let level := if transition_duration t <=? e then transition_target t
               else transition_level (transition_start t) (transition_target t)
                                     e (transition_duration t) in
  let s' := transition_tick r s in
  transition s'
  = {| transition_work := if transition_duration t <=? e then None
                          else Some (uptime s + TRANSITION_STEP_MS);
       transition_start := transition_start t;
       transition_target := transition_target t;
       transition_elapsed := e;
       transition_duration := transition_duration t |}
  /\ light s' = light (light_set_brightness r level s)
  /\ hw s' = hw (light_set_brightness r level s)
  /\ dev_ctx s' = dev_ctx s /\ app_state s' = app_state s
  /\ effect s' = effect s /\ long_press_work s' = long_press_work s
  /\ uptime s' = uptime s.
Proof.
  intros t e level s'. subst s'.
  unfold transition_tick, transition_work_handler. frame.
  fold t. fold e. subst level.
  set (s1 := set_transition _ (clear_transition_work s)).
  assert (F : light s1 = light s /\ hw s1 = hw s /\ dev_ctx s1 = dev_ctx s
              /\ app_state s1 = app_state s /\ effect s1 = effect s
              /\ long_press_work s1 = long_press_work s /\ uptime s1 = uptime s
              /\ transition s1
                 = {| transition_work := None;
                      transition_start := transition_start t;
                      transition_target := transition_target t;
                      transition_elapsed := e;
                      transition_duration := transition_duration t |}).
  { subst s1. frame. repeat split. }
  destruct F as (Fl & Fh & Fc & Fa & Fe & Fp & Fu & Ft).
  destruct (transition_duration t <=? e).
  - destruct (light_set_brightness_frame r (transition_target t) s1)
      as (Hc & Ha & Hp & He & Ht & Hu & _).
    destruct (light_set_brightness_local r (transition_target t) s1 s Fl Fh)
      as (Hl & Hh).
    rewrite Hc, Ha, Hp, He, Ht, Hu, Hl, Hh. repeat split; assumption.
  - set (lv := transition_level _ _ _ _).
    destruct (light_set_brightness_frame r lv s1)
      as (Hc & Ha & Hp & He & Ht & Hu & _).
    destruct (light_set_brightness_local r lv s1 s Fl Fh) as (Hl & Hh).
    frame. rewrite Hc, Ha, Hp, He, Ht, Hu, Hl, Hh, Ft. frame.
    unfold k_work_schedule. rewrite Fu. repeat split; assumption.
Qed.

(** The interpolated level is [start + (target - start) * elapsed / duration]
    without any wrap, and lies between [start] and [target]. *)
Lemma transition_level_between (start target e d : Z) :
  is_u8 start -> is_u8 target -> 0 <= e < d -> d <= 65535 ->
  transition_level start target e d
  = start + Z.quot ((target - start) * e) d
  /\ Z.min start target <= transition_level start target e d
     <= Z.max start target.
Proof.
  unfold is_u8. intros Hs Ht He Hd. unfold transition_level.
  rewrite (s32_id (target - start)) by lia.
  rewrite (s32_id ((target - start) * e)) by nia.
  assert (B : Z.min start target
              <= start + Z.quot ((target - start) * e) d
              <= Z.max start target).
  { destruct (Z_le_gt_dec start target) as [Hle|Hgt].
    - assert (0 <= Z.quot ((target - start) * e) d <= target - start).
      { rewrite Z.quot_div_nonneg by nia. split.
        - apply Z.div_pos; nia.
        - apply Z.div_le_upper_bound; nia. }
      lia.
    - assert (E : (target - start) * e = - ((start - target) * e)) by ring.
      rewrite E, Z.quot_opp_l by lia.
      assert (0 <= Z.quot ((start - target) * e) d <= start - target).
      { rewrite Z.quot_div_nonneg by nia. split.
        - apply Z.div_pos; nia.
        - apply Z.div_le_upper_bound; nia. }
      lia. }
  rewrite u8_id by (unfold is_u8; lia).
  split; [reflexivity | exact B].
Qed.

Lemma transition_ticks_app (a b : list Z) (s : state) :
  transition_ticks (a ++ b) s = transition_ticks b (transition_ticks a s).
Proof.
  revert s. induction a as [|r a IH]; intros s; [reflexivity|].
  cbn [app transition_ticks]. apply IH.
Qed.

(** While [elapsed] stays below the duration without wrapping, every tick
    adds exactly one step and keeps the fade scheduled. *)
Lemma transition_ticks_running (rs : list Z) : forall (s : state),
  let t := transition s in
  0 <= transition_elapsed t ->
  transition_elapsed t + TRANSITION_STEP_MS * Z.of_nat (List.length rs)
    < transition_duration t ->
  transition_duration t <= 65535 ->
  let s' := transition_ticks rs s in
  transition_start (transition s') = transition_start t
  /\ transition_target (transition s') = transition_target t
  /\ transition_duration (transition s') = transition_duration t
  /\ transition_elapsed (transition s')
     = transition_elapsed t + TRANSITION_STEP_MS * Z.of_nat (List.length rs)
  /\ (rs <> [] -> transition_work (transition s') <> None)
  /\ uptime s' = uptime s /\ dev_ctx s' = dev_ctx s.
Proof.
  unfold TRANSITION_STEP_MS.
  induction rs as [|r rs IH]; intros s H0 Hlt Hd;
    set (t := transition s) in *.
  - cbn [transition_ticks List.length Z.of_nat]. subst t.
    repeat split; try lia. intros H; contradiction.
  - cbn [transition_ticks]. cbn [List.length] in Hlt.
    rewrite Nat2Z.inj_succ in Hlt.
    destruct (transition_tick_spec r s) as (Ht & _ & _ & Hc & _ & _ & _ & Hu).
    fold t in Ht. unfold TRANSITION_STEP_MS in Ht.
    assert (E : u16 (transition_elapsed t + 20) = transition_elapsed t + 20)
      by (apply u16_id; unfold is_u16; lia).
    rewrite E in Ht.
    assert (L : (transition_duration t <=? transition_elapsed t + 20) = false)
      by (apply Z.leb_gt; lia).
    rewrite L in Ht.
    specialize (IH (transition_tick r s)).
    rewrite Ht in IH. proj.
    destruct IH as (I1 & I2 & I3 & I4 & I5 & I6 & I7); try lia.
    cbn [List.length]. rewrite Nat2Z.inj_succ.
    repeat split; try congruence; try lia.
    intros _. destruct rs as [|r' rs'].
    + cbn [transition_ticks]. rewrite Ht. proj. discriminate.
    + apply I5. discriminate.
Qed.

Section FadeBelowWrap.

Variables (s : state) (target d r0 : Z).
Hypothesis start_u8 : is_u8 (current_brightness (light s)).
Hypothesis target_u8 : is_u8 target.
Hypothesis duration_fits : 0 < d <= 65520.
Hypothesis not_there : current_brightness (light s) <> target.

Let start := current_brightness (light s).
Let s0 := light_fade_to r0 target d s.

Lemma fade_started :
  transition s0 = {| transition_work := Some (uptime s);
                     transition_start := start;
                     transition_target := target;
                     transition_elapsed := 0;
                     transition_duration := d |}
  /\ light s0 = light s.
Proof.
  subst s0. rewrite light_fade_to_starts by (lia || assumption).
  frame. split; reflexivity.
Qed.

(** For durations up to 65520 ms the fade behaves as designed.  The
    [k]-th run of the handler brings [elapsed] to [20 k].  While that is
    below the duration the handler reschedules itself and an accepted
    write sets the brightness to [start + (target - start) * 20k / d],
    between [start] and [target]; on the first run that reaches the
    duration it schedules nothing and an accepted write sets the
    brightness to the target. *)
Lemma fade_ticks_below_wrap (rs : list Z) (r : Z) :
  let k := Z.of_nat (List.length rs) + 1 in
  let s' := transition_ticks (rs ++ [r]) s0 in
  20 * (k - 1) < d ->
  transition_elapsed (transition s') = 20 * k
  /\ (20 * k < d ->
      transition_work (transition s') <> None
      /\ (r = 0 ->
          current_brightness (light s')
          = start + Z.quot ((target - start) * (20 * k)) d
          /\ Z.min start target <= current_brightness (light s')
             <= Z.max start target))
  /\ (d <= 20 * k ->
      transition_work (transition s') = None
      /\ (r = 0 -> current_brightness (light s') = target)).
Proof.
  intros k s' Hprev. subst s'. rewrite transition_ticks_app.
  cbn [transition_ticks].
  destruct fade_started as (Ht0 & _).
  destruct (transition_ticks_running rs s0) as (I1 & I2 & I3 & I4 & _);
    rewrite ?Ht0; proj; unfold TRANSITION_STEP_MS; try lia.
  rewrite Ht0 in I1, I2, I3, I4. proj. unfold TRANSITION_STEP_MS in I4.
  set (s1 := transition_ticks rs s0) in *.
  destruct (transition_tick_spec r s1) as (Ht & Hl & _).
  rewrite I1, I2, I3, I4 in Ht, Hl. unfold TRANSITION_STEP_MS in Ht, Hl.
  assert (E : u16 (0 + 20 * Z.of_nat (List.length rs) + 20) = 20 * k)
    by (rewrite u16_id; unfold is_u16; lia).
  rewrite E in Ht, Hl.
  split; [rewrite Ht; reflexivity|].
  split.
  - intros Hlt.
    assert (L : (d <=? 20 * k) = false) by (apply Z.leb_gt; lia).
    rewrite L in Ht, Hl. split; [rewrite Ht; proj; discriminate|].
    intros ->. rewrite Hl, light_set_brightness_ok_level.
    assert (He : 0 <= 20 * k < d) by lia.
    assert (Hd : d <= 65535) by lia.
    destruct (transition_level_between start target (20 * k) d
                start_u8 target_u8 He Hd) as (Q & B).
    split; [exact Q | exact B].
  - intros Hge.
    assert (L : (d <=? 20 * k) = true) by (apply Z.leb_le; lia).
    rewrite L in Ht, Hl. split; [rewrite Ht; reflexivity|].
    intros ->. rewrite Hl. apply light_set_brightness_ok_level.
Qed.

End FadeBelowWrap.

(** Before the duration has elapsed the interpolated level falls short of
    the target. *)
Lemma transition_level_short (start target e d : Z) :
  is_u8 start -> is_u8 target -> start <> target -> 0 <= e < d -> d <= 65535 ->
  transition_level start target e d <> target.
Proof.
  intros Hs Ht Hne He Hd.
  destruct (transition_level_between start target e d Hs Ht He Hd) as (Q & _).
  rewrite Q. unfold is_u8 in *.
  destruct (Z_lt_le_dec start target) as [Hlt|Hge].
  - assert (Z.quot ((target - start) * e) d < target - start).
    { rewrite Z.quot_div_nonneg by nia. apply Z.div_lt_upper_bound; nia. }
    lia.
  - assert (E : (target - start) * e = - ((start - target) * e)) by ring.
    rewrite E, Z.quot_opp_l by lia.
    assert (Z.quot ((start - target) * e) d < start - target).
    { rewrite Z.quot_div_nonneg by nia. apply Z.div_lt_upper_bound; nia. }
    lia.
Qed.

(** The brightness after one tick: the level asked for if the PWM accepted
    it, the previous brightness otherwise. *)
Lemma light_set_brightness_level_cases (r level : Z) (s : state) :
  current_brightness (light (light_set_brightness r level s))
  = if r =? 0 then level else current_brightness (light s).
Proof.
  destruct (r =? 0) eqn:E.
  - apply Z.eqb_eq in E. subst r. apply light_set_brightness_ok_level.
  - apply Z.eqb_neq in E. rewrite (light_set_brightness_fail r level s E).
    reflexivity.
Qed.

Lemma multiple_of_4_below (e d : Z) :
  0 <= e < 65536 -> e mod 4 = 0 -> 65532 < d -> e < d.
Proof.
  intros He H4 Hd. pose proof (Z.div_mod e 4) as D. rewrite H4 in D. lia.
Qed.

(** [elapsed] is a [uint16_t]: it only ever holds multiples of 4 below
    65536.  A fade whose duration exceeds 65532 ms therefore never sees
    [elapsed >= duration]: it never writes the target and reschedules itself
    for ever. *)
Lemma fade_stuck_past_wrap (rs : list Z) : forall (s : state),
  let t := transition s in
  is_u8 (transition_start t) -> is_u8 (transition_target t) ->
  transition_start t <> transition_target t ->
  65532 < transition_duration t <= 65535 ->
  0 <= transition_elapsed t < 65536 ->
  transition_elapsed t mod 4 = 0 ->
  transition_work t <> None ->
  current_brightness (light s) <> transition_target t ->
  let s' := transition_ticks rs s in
  transition_work (transition s') <> None
  /\ current_brightness (light s') <> transition_target t
  /\ transition_elapsed (transition s') < transition_duration t
  /\ transition_target (transition s') = transition_target t.
Proof.
  cbv zeta.
  induction rs as [|r rs IH]; intros s Hs Ht Hne Hd He H4 Hw Hb;
    set (t := transition s) in *.
  - cbn [transition_ticks]. fold t. repeat split; try assumption.
    apply multiple_of_4_below; (assumption || lia).
  - cbn [transition_ticks].
    destruct (transition_tick_spec r s) as (Tt & Tl & _).
    fold t in Tt, Tl. unfold TRANSITION_STEP_MS in Tt, Tl.
    set (e := u16 (transition_elapsed t + 20)) in *.
    assert (Ee : 0 <= e < 65536 /\ e mod 4 = 0).
    { subst e. unfold u16.
      pose proof (Z.mod_pos_bound (transition_elapsed t + 20) 65536).
      split; [lia|].
      assert (D : (4 | 65536)) by (exists 16384; reflexivity).
      rewrite (Z.mod_mod_divide _ 65536 4 D).
      rewrite Z.add_mod, H4 by lia. reflexivity. }
    destruct Ee as (Eb & E4).
    assert (Elt : e < transition_duration t)
      by (apply multiple_of_4_below; (assumption || lia)).
    assert (L : (transition_duration t <=? e) = false) by (apply Z.leb_gt; lia).
    rewrite L in Tt, Tl.
    specialize (IH (transition_tick r s)). rewrite Tt in IH. proj.
    destruct IH as (I1 & I2 & I3 & I4); try assumption; try lia.
    + discriminate.
    + rewrite Tl, light_set_brightness_level_cases.
      destruct (r =? 0); [|assumption].
      apply transition_level_short; try assumption; lia.
    + repeat split; assumption.
Qed.

(** C1 at durations past the wrap.  With [on_off_transition_time] written
    to 1966, [light_toggle] asks for a fade from 0 to 255 over
    [1966 * 100 mod 65536 = 65528] ms: after 3276 ticks [elapsed] is 65520
    and the brightness 254; the next tick does not bring [elapsed] to 65540
    but wraps it to 4, sets the brightness back to 0 and reschedules.  And a
    fade from 0 to 255 over 65535 ms, however many ticks run, stays
    scheduled and never sets the brightness to 255. *)
Theorem fade_elapsed_wraps :
  (let s0 := light_toggle 0 long_fade_state in
   transition_duration (transition s0) = 65528
   /\ transition_target (transition s0) = 255
   /\ transition_elapsed (transition (transition_ticks (repeat 0 3276) s0)) = 65520
   /\ current_brightness (light (transition_ticks (repeat 0 3276) s0)) = 254
   /\ transition_elapsed (transition (transition_ticks (repeat 0 3277) s0)) = 4
   /\ current_brightness (light (transition_ticks (repeat 0 3277) s0)) = 0
   /\ transition_work (transition (transition_ticks (repeat 0 3277) s0)) <> None)
  /\ (let s0 := light_fade_to 0 255 65535 (boot_state 1000000) in
      forall rs : list Z,
        transition_work (transition (transition_ticks rs s0)) <> None
        /\ current_brightness (light (transition_ticks rs s0)) <> 255).
Proof.
  split.
  - cbv zeta. repeat split; try (vm_compute; reflexivity).
    vm_compute. discriminate.
  - intros s0 rs.
    assert (T : transition s0 = {| transition_work := Some 0;
                                   transition_start := 0;
                                   transition_target := 255;
                                   transition_elapsed := 0;
                                   transition_duration := 65535 |})
      by (vm_compute; reflexivity).
    assert (B : current_brightness (light s0) = 0) by (vm_compute; reflexivity).
    pose proof (fade_stuck_past_wrap rs s0) as H. cbv zeta in H.
    rewrite T, B in H. proj.
    destruct H as (H1 & H2 & _);
      try (unfold is_u8; lia); try discriminate; try reflexivity.
    split; assumption.
Qed.

(** ** Identify effects *)

#[global] Arguments restore_state : simpl never.

Lemma restore_state_steady (r : Z) (s : state) :
  restore_state r s = light_set_brightness r (steady_level (dev_ctx s)) s.
Proof. unfold restore_state, steady_level. destruct (on_off (dev_ctx s)); reflexivity. Qed.

(** [effect_work_handler] follows the script table row by row. *)
Lemma effect_work_handler_script (r : Z) (s : state) :
  effect_work_handler r s
  = match effect_script (effect_kind (effect_type (effect s)))
                        (effect_step (effect s)) with
    | Some (brightness, next, delay) =>
        schedule_effect_work delay
          (set_effect_step next (light_set_brightness r brightness s))
    | None => effect_finish r s
    end.
Proof.
  unfold effect_work_handler, effect_kind.
  destruct (effect_type (effect s) =? ZB_ZCL_IDENTIFY_EFFECT_ID_BLINK).
  { cbn [effect_script]. destruct (effect_step (effect s) =? 0); reflexivity. }
  destruct (effect_type (effect s) =? ZB_ZCL_IDENTIFY_EFFECT_ID_BREATHE).
  { cbn [effect_script]. destruct (effect_step (effect s) <? 30); reflexivity. }
  destruct (effect_type (effect s) =? ZB_ZCL_IDENTIFY_EFFECT_ID_OKAY).
  { cbn [effect_script]. destruct (effect_step (effect s) <? 4); reflexivity. }
  destruct (effect_type (effect s) =? ZB_ZCL_IDENTIFY_EFFECT_ID_CHANNEL_CHANGE).
  { cbn [effect_script]. destruct (effect_step (effect s) =? 0); [reflexivity|].
    destruct (effect_step (effect s) =? 1); reflexivity. }
  reflexivity.
Qed.

(** One run of [effect_work]. *)
Lemma effect_tick_spec (r : Z) (s : state) :
  let row := effect_script (effect_kind (effect_type (effect s)))
                           (effect_step (effect s)) in
  let level := match row with
               | Some (brightness, _, _) => brightness
               | None => steady_level (dev_ctx s)
               end in
  let s' := effect_tick r s in
  effect s'
  = match row with
    | Some (_, next, delay) =>
        {| effect_work := Some (uptime s + delay);
           effect_type := effect_type (effect s);
           effect_step := next |}
    | None =>
        {| effect_work := None;
           effect_type := ZB_ZCL_IDENTIFY_EFFECT_ID_STOP;
           effect_step := effect_step (effect s) |}
    end
  /\ light s' = light (light_set_brightness r level s)
  /\ hw s' = hw (light_set_brightness r level s)
  /\ dev_ctx s' = dev_ctx s /\ transition s' = transition s
  /\ app_state s' = app_state s /\ long_press_work s' = long_press_work s
  /\ uptime s' = uptime s.
Proof.
  intros row level s'. subst s'. unfold effect_tick.
  rewrite effect_work_handler_script.
  set (s1 := clear_effect_work s).
  assert (F : light s1 = light s /\ hw s1 = hw s /\ dev_ctx s1 = dev_ctx s
              /\ transition s1 = transition s /\ app_state s1 = app_state s
              /\ long_press_work s1 = long_press_work s /\ uptime s1 = uptime s
              /\ effect s1 = {| effect_work := None;
                                effect_type := effect_type (effect s);
                                effect_step := effect_step (effect s) |}).
  { subst s1. frame. repeat split. }
  destruct F as (Fl & Fh & Fc & Ft & Fa & Fp & Fu & Fe).
  rewrite Fe. proj. fold row. subst level.
  destruct row as [[[b n] dl]|].
  - destruct (light_set_brightness_frame r b s1)
      as (Hc & Ha & Hp & He & Ht & Hu & _).
    destruct (light_set_brightness_local r b s1 s Fl Fh) as (Hl & Hh).
    frame. rewrite Hc, Ha, Hp, He, Ht, Hu, Hl, Hh, Fe. proj.
    unfold k_work_schedule. rewrite Fu. repeat split; assumption.
  - unfold effect_finish. rewrite restore_state_steady. rewrite Fc.
    set (lv := steady_level (dev_ctx s)).
    destruct (light_set_brightness_frame r lv s1)
      as (Hc & Ha & Hp & He & Ht & Hu & _).
    destruct (light_set_brightness_local r lv s1 s Fl Fh) as (Hl & Hh).
    frame. rewrite Hc, Ha, Hp, He, Ht, Hu, Hl, Hh, Fe. proj.
    repeat split; assumption.
Qed.

Lemma effect_ticks_app (a b : list Z) (s : state) :
  effect_ticks (a ++ b) s = effect_ticks b (effect_ticks a s).
Proof.
  revert s. induction a as [|r a IH]; intros s; [reflexivity|].
  cbn [app effect_ticks]. apply IH.
Qed.

(** While the script has rows left, the effect keeps its identifier, stays
    scheduled and walks through the steps of the table. *)
Lemma effect_ticks_running (k : EffectKind) (rs : list Z) :
  forall (s : state) (step' : Z),
    effect_kind (effect_type (effect s)) = k ->
    script_after k (effect_step (effect s)) (List.length rs) = Some step' ->
    effect_type (effect (effect_ticks rs s)) = effect_type (effect s)
    /\ effect_step (effect (effect_ticks rs s)) = step'
    /\ dev_ctx (effect_ticks rs s) = dev_ctx s
    /\ (rs <> [] -> effect_work (effect (effect_ticks rs s)) <> None).
Proof.
  induction rs as [|r rs IH]; intros s step' Hk Hs.
  - cbn [List.length script_after] in Hs. injection Hs as <-.
    cbn [effect_ticks]. repeat split. intros H; contradiction.
  - cbn [List.length script_after] in Hs. cbn [effect_ticks].
    destruct (effect_tick_spec r s) as (He & _ & _ & Hc & _).
    rewrite Hk in He.
    destruct (effect_script k (effect_step (effect s))) as [[[b n] dl]|];
      [|discriminate].
    destruct (IH (effect_tick r s) step') as (I1 & I2 & I3 & I4).
    + rewrite He. proj. exact Hk.
    + rewrite He. proj. exact Hs.
    + rewrite He in I1. proj. rewrite Hc in I3.
      repeat split; try assumption.
      intros _. destruct rs as [|r' rs'].
      * cbn [effect_ticks]. rewrite He. proj. discriminate.
      * apply I4. discriminate.
Qed.

Lemma script_rows (k : EffectKind) (n : nat) :
  (n <= List.length (script_levels k))%nat -> script_row_ok k n = true.
Proof.
  destruct k; cbn [script_levels alternate List.length]; intros Hn.
  - destruct n; [reflexivity | lia].
  - do 2 (destruct n as [|n]; [reflexivity|]). lia.
  - do 31 (destruct n as [|n]; [reflexivity|]). lia.
  - do 5 (destruct n as [|n]; [reflexivity|]). lia.
  - do 3 (destruct n as [|n]; [reflexivity|]). lia.
Qed.

Lemma start_identify_effect_spec (r0 effect_id : Z) (s : state) :
  let s0 := start_identify_effect r0 effect_id s in
  let stops := (effect_id =? ZB_ZCL_IDENTIFY_EFFECT_ID_STOP)
               || (effect_id =? ZB_ZCL_IDENTIFY_EFFECT_ID_FINISH_EFFECT) in
  effect s0 = {| effect_work := if stops then None else Some (uptime s);
                 effect_type := effect_id;
                 effect_step := 0 |}
  /\ dev_ctx s0 = dev_ctx s
  /\ transition s0 = transition s
  /\ app_state s0 = app_state s
  /\ long_press_work s0 = long_press_work s
  /\ uptime s0 = uptime s
  /\ light s0 = (if stops
                 then light (light_set_brightness r0 (steady_level (dev_ctx s)) s)
                 else light s).
Proof.
  intros s0 stops. subst s0. unfold start_identify_effect. fold stops.
  destruct stops.
  - rewrite restore_state_steady. frame.
    set (s1 := set_effect _ _).
    assert (F : light s1 = light s /\ hw s1 = hw s) by (subst s1; frame; split; reflexivity).
    destruct F as (Fl & Fh).
    destruct (light_set_brightness_frame r0 (steady_level (dev_ctx s)) s1)
      as (Hc & Ha & Hp & He & Ht & Hu & _).
    destruct (light_set_brightness_local r0 (steady_level (dev_ctx s)) s1 s Fl Fh)
      as (Hl & _).
    rewrite Hc, Ha, Hp, He, Ht, Hu, Hl. subst s1. frame.
    unfold k_work_cancel_delayable. repeat split.
  - frame. unfold k_work_cancel_delayable, k_work_schedule, K_NO_WAIT.
    rewrite Z.add_0_r. repeat split.
Qed.

(** C7.  Starting an identify effect drops whatever run of [effect_work] was
    scheduled and resets the step to 0.  Stop and FinishEffect restore at
    once and schedule nothing.  Every other identifier runs its script:
    while levels are left (255 for Blink, 30 alternating 255/0 for Breathe,
    4 for Okay, 255 then 25 for ChannelChange, none for an unknown
    identifier) the handler shows the next one and reschedules itself; the
    run after the last level leaves the effect idle (nothing scheduled,
    type Stop, the no-effect variant) and sets the brightness from the
    attributes, [current_level] if [on_off] and 0 otherwise.  Brightness
    statements are for runs whose PWM write is accepted. *)
Theorem identify_effect_completes
    (s : state) (effect_id r0 : Z) (rs : list Z) (r : Z) :
  let k := effect_kind effect_id in
  let levels := script_levels k in
  let stops := (effect_id =? ZB_ZCL_IDENTIFY_EFFECT_ID_STOP)
               || (effect_id =? ZB_ZCL_IDENTIFY_EFFECT_ID_FINISH_EFFECT) in
  let s0 := start_identify_effect r0 effect_id s in
  let s' := effect_ticks (rs ++ [r]) s0 in
  effect_step (effect s0) = 0
  /\ effect_type (effect s0) = effect_id
  /\ effect_work (effect s0) = (if stops then None else Some (uptime s))
  /\ (stops = true ->
      effect_kind (effect_type (effect s0)) = NoEffect
      /\ (r0 = 0 -> current_brightness (light s0) = steady_level (dev_ctx s)))
  /\ (stops = false ->
      ((List.length rs < List.length levels)%nat ->
       effect_work (effect s') <> None
       /\ effect_type (effect s') = effect_id
       /\ (r = 0 ->
           current_brightness (light s') = nth (List.length rs) levels 0))
      /\ (List.length rs = List.length levels ->
          effect_work (effect s') = None
          /\ effect_type (effect s') = ZB_ZCL_IDENTIFY_EFFECT_ID_STOP
          /\ effect_kind (effect_type (effect s')) = NoEffect
          /\ (r = 0 ->
              current_brightness (light s') = steady_level (dev_ctx s)))).
Proof.
  intros k levels stops s0 s'.
  destruct (start_identify_effect_spec r0 effect_id s)
    as (He0 & Hc0 & _ & _ & _ & Hu0 & Hl0).
  fold s0 in He0, Hc0, Hu0, Hl0. fold stops in He0, Hl0.
  split; [rewrite He0; reflexivity|].
  split; [rewrite He0; reflexivity|].
  split; [rewrite He0; reflexivity|].
  split.
  { intros Hs. rewrite Hs in Hl0. rewrite He0. proj. split.
    - subst stops. apply orb_true_iff in Hs.
      destruct Hs as [E|E]; apply Z.eqb_eq in E; rewrite E; reflexivity.
    - intros ->. rewrite Hl0. apply light_set_brightness_ok_level. }
  intros Hs.
  assert (Running : forall n : nat,
            n = List.length rs -> (n <= List.length levels)%nat ->
            effect_type (effect (effect_ticks rs s0)) = effect_id
            /\ effect_step (effect (effect_ticks rs s0)) = Z.of_nat n
            /\ dev_ctx (effect_ticks rs s0) = dev_ctx s
            /\ (Nat.ltb n (List.length levels) = true ->
                exists next delay,
                  effect_script k (Z.of_nat n)
                  = Some (nth n levels 0, next, delay))
            /\ (n = List.length levels ->
                effect_script k (Z.of_nat n) = None)).
  { unfold levels. intros n Hn Hle. pose proof (script_rows k n Hle) as Hok.
    unfold script_row_ok in Hok.
    destruct (script_after k 0 n) as [st|] eqn:Hafter; [|discriminate].
    apply andb_true_iff in Hok as [Hst Hrow]. apply Z.eqb_eq in Hst. subst st.
    destruct (effect_ticks_running k rs s0 (Z.of_nat n)) as (I1 & I2 & I3 & _).
    - rewrite He0. reflexivity.
    - rewrite He0. proj. rewrite <- Hn. exact Hafter.
    - rewrite He0 in I1. proj. rewrite Hc0 in I3.
      repeat split; try assumption.
      + intros Hlt.
        destruct (effect_script k (Z.of_nat n)) as [[[b nx] dl]|].
        * apply andb_true_iff in Hrow as [_ Hb]. apply Z.eqb_eq in Hb.
          subst b. exists nx, dl. reflexivity.
        * apply Nat.eqb_eq in Hrow. apply Nat.ltb_lt in Hlt. lia.
      + intros Heq.
        destruct (effect_script k (Z.of_nat n)) as [[[b nx] dl]|];
          [|reflexivity].
        apply andb_true_iff in Hrow as [Hlt _]. apply Nat.ltb_lt in Hlt. lia. }
  subst s'. rewrite effect_ticks_app. cbn [effect_ticks].
  set (s1 := effect_ticks rs s0) in *.
  destruct (effect_tick_spec r s1) as (He & Hl & _).
  split.
  - intros Hlt.
    destruct (Running (List.length rs) eq_refl) as (R1 & R2 & R3 & R4 & _);
      [lia|].
    destruct R4 as (nx & dl & Hrow); [apply Nat.ltb_lt; exact Hlt|].
    rewrite R1, R2 in He, Hl. fold k in He, Hl. rewrite Hrow in He, Hl.
    rewrite He. proj. split; [discriminate|]. split; [reflexivity|].
    intros ->. rewrite Hl. apply light_set_brightness_ok_level.
  - intros Heq.
    destruct (Running (List.length rs) eq_refl) as (R1 & R2 & R3 & _ & R5);
      [lia|].
    specialize (R5 Heq).
    rewrite R1, R2 in He, Hl. fold k in He, Hl. rewrite R5 in He, Hl.
    rewrite He. proj. repeat split.
    intros ->. rewrite Hl, R3. apply light_set_brightness_ok_level.
Qed.

(** The theorem of C7 on a Breathe effect started on a light that is on at
    level 255: the run after the 30 levels restores 255. *)
Lemma identify_effect_completes_witness :
  let s := set_attr_on_off true (boot_state 1000000) in
  let s' := effect_ticks (repeat 0 30 ++ [0])
              (start_identify_effect 0 ZB_ZCL_IDENTIFY_EFFECT_ID_BREATHE s) in
  effect_work (effect s') = None
  /\ effect_type (effect s') = ZB_ZCL_IDENTIFY_EFFECT_ID_STOP
  /\ effect_kind (effect_type (effect s')) = NoEffect
  /\ current_brightness (light s') = 255.
Proof.
  intros s s'.
  pose proof (identify_effect_completes s ZB_ZCL_IDENTIFY_EFFECT_ID_BREATHE 0
                (repeat 0 30) 0) as H.
  cbv zeta in H. destruct H as (_ & _ & _ & _ & H).
  destruct (H eq_refl) as (_ & Hdone).
  destruct (Hdone eq_refl) as (H1 & H2 & H3 & H4).
  split; [exact H1|]. split; [exact H2|]. split; [exact H3|].
  exact (H4 eq_refl).
Defined.

(** C7 as worded fails.  A Blink on a booted board, dark with [on_off]
    false: the first run shows 255, and the PWM refuses the write of the
    restore run ([pwm_set_pulse_dt] returns [-5]).  [light_set_brightness]
    returns before it records anything, so the effect ends idle while the
    light still shows the Blink's 255, not the 0 the attributes ask for. *)
Lemma identify_effect_restore_refused :
  ~ (forall (s : state) (effect_id r0 : Z) (rs : list Z) (r : Z),
       (effect_id =? ZB_ZCL_IDENTIFY_EFFECT_ID_STOP)
       || (effect_id =? ZB_ZCL_IDENTIFY_EFFECT_ID_FINISH_EFFECT) = false ->
       List.length rs = List.length (script_levels (effect_kind effect_id)) ->
       let s' := effect_ticks (rs ++ [r])
                   (start_identify_effect r0 effect_id s) in
       effect_work (effect s') = None
       /\ effect_kind (effect_type (effect s')) = NoEffect
       /\ current_brightness (light s') = steady_level (dev_ctx s)).
Proof.
  intros H.
  specialize (H (boot_state 1000000) ZB_ZCL_IDENTIFY_EFFECT_ID_BLINK 0 [0] (-5)
                eq_refl eq_refl).
  destruct H as (_ & _ & H). vm_compute in H. discriminate H.
Qed.

(** The states of that run, spelled out. *)
Example blink_restore_refused_states :
  let s := boot_state 1000000 in
  let s1 := effect_ticks [0]
              (start_identify_effect 0 ZB_ZCL_IDENTIFY_EFFECT_ID_BLINK s) in
  let s2 := effect_ticks [-5] s1 in
  steady_level (dev_ctx s) = 0
  /\ current_brightness (light s1) = 255
  /\ effect_work (effect s1) = Some 500
  /\ effect_work (effect s2) = None
  /\ effect_type (effect s2) = ZB_ZCL_IDENTIFY_EFFECT_ID_STOP
  /\ current_brightness (light s2) = 255
  /\ outputs s2 = LOG_ERR "PWM set failed" :: outputs s1.
Proof. vm_compute. repeat split. Qed.

(** ** What the button machine is insensitive to *)

Lemma button_view_emit (o : output) (s : state) :
  quiet o = true -> button_view (emit o s) = button_view s.
Proof.
  unfold quiet, button_view, short_presses, long_presses. intros Hq.
  apply andb_true_iff in Hq as [Hs Hl].
  apply negb_true_iff in Hs, Hl.
  cbn [emit outputs app_state long_press_work uptime filter].
  rewrite Hs, Hl. reflexivity.
Qed.

Lemma button_view_light_set_brightness (r level : Z) (s : state) :
  button_view (light_set_brightness r level s) = button_view s.
Proof.
  open_state s. unfold_brightness.
  destruct (r =? 0), (0 <? level), (level =? 0), light_is_on0; reflexivity.
Qed.

Lemma button_view_set_dev_ctx v s : button_view (set_dev_ctx v s) = button_view s.
Proof. reflexivity. Qed.

Lemma button_view_set_effect v s : button_view (set_effect v s) = button_view s.
Proof. reflexivity. Qed.

Lemma button_view_set_light v s : button_view (set_light v s) = button_view s.
Proof. reflexivity. Qed.

Lemma button_view_set_transition v s :
  button_view (set_transition v s) = button_view s.
Proof. reflexivity. Qed.

Lemma button_view_set_hw v s : button_view (set_hw v s) = button_view s.
Proof. reflexivity. Qed.

Lemma button_view_set_last_brightness v s :
  button_view (set_last_brightness v s) = button_view s.
Proof. reflexivity. Qed.

Lemma button_view_save_light_state s :
  button_view (save_light_state s) = button_view s.
Proof.
  unfold save_light_state. rewrite !button_view_emit by reflexivity. reflexivity.
Qed.

Create Rewrite HintDb button_view.

#[global] Hint Rewrite button_view_light_set_brightness button_view_set_dev_ctx
  button_view_set_effect button_view_set_light button_view_set_transition
  button_view_set_hw button_view_set_last_brightness
  button_view_save_light_state : button_view.

(** Rewrites [button_view] through a composite handler: setters and
    brightness writes by the lemmas above, log lines by [button_view_emit],
    branches by case analysis. *)
Ltac button_view_through :=
  repeat first
    [ progress autorewrite with button_view
    | rewrite button_view_emit by reflexivity
    | match goal with
      | |- context [if ?c then _ else _] => destruct c
      end ];
  try reflexivity.

Lemma button_view_restore_state r s :
  button_view (restore_state r s) = button_view s.
Proof. unfold restore_state. button_view_through. Qed.

Lemma button_view_light_fade_to r target d s :
  button_view (light_fade_to r target d s) = button_view s.
Proof.
  unfold light_fade_to. button_view_through.
Qed.

Lemma button_view_light_toggle r s :
  button_view (light_toggle r s) = button_view s.
Proof.
  unfold light_toggle, set_attr_on_off, set_attr_current_level.
  rewrite button_view_emit by reflexivity.
  rewrite button_view_save_light_state.
  destruct (0 <? toggle_target_level s);
    rewrite ?button_view_set_last_brightness, button_view_light_fade_to;
    destruct (negb (on_off (dev_ctx s)) && _); reflexivity.
Qed.

Lemma button_view_level_control_set_value r v s :
  button_view (level_control_set_value r v s) = button_view s.
Proof.
  unfold level_control_set_value, set_attr_current_level.
  button_view_through.
Qed.

Lemma button_view_on_off_set_value r on s :
  button_view (on_off_set_value r on s) = button_view s.
Proof.
  unfold on_off_set_value, set_attr_on_off. button_view_through.
Qed.

Lemma button_view_start_identify_effect r effect_id s :
  button_view (start_identify_effect r effect_id s) = button_view s.
Proof.
  unfold start_identify_effect, schedule_effect_work.
  destruct (_ || _).
  - rewrite button_view_restore_state. button_view_through.
  - button_view_through.
Qed.

Lemma button_view_effect_tick r s : button_view (effect_tick r s) = button_view s.
Proof.
  unfold effect_tick. rewrite effect_work_handler_script.
  destruct (effect_script _ _) as [[[b n] dl]|].
  - unfold schedule_effect_work, set_effect_step, clear_effect_work.
    button_view_through.
  - unfold effect_finish, set_effect_type, clear_effect_work.
    rewrite button_view_set_effect, button_view_restore_state.
    reflexivity.
Qed.

Lemma button_view_transition_tick r s :
  button_view (transition_tick r s) = button_view s.
Proof.
  unfold transition_tick, transition_work_handler, clear_transition_work.
  cbv zeta. button_view_through.
Qed.

Lemma button_view_polarity_timer_handler s :
  button_view (polarity_timer_handler s) = button_view s.
Proof. unfold polarity_timer_handler. button_view_through. Qed.

(** ** The work queue *)

Lemma arrives_spec (t : Z) (s s1 : state) :
  arrives t s = Some s1 ->
  s1 = set_uptime t s /\ uptime s <= t /\ nothing_due_before t s = true.
Proof.
  unfold arrives. intros H.
  destruct ((uptime s <=? t) && nothing_due_before t s) eqn:E; [|discriminate].
  apply andb_true_iff in E as [E1 E2]. apply Z.leb_le in E1.
  injection H as <-. repeat split; assumption.
Qed.

Lemma expires_spec (d : Z) (s s1 : state) :
  expires d s = Some s1 ->
  s1 = set_uptime (Z.max d (uptime s)) s /\ nothing_due_before d s = true.
Proof.
  unfold expires. intros H.
  destruct (nothing_due_before d s) eqn:E; [|discriminate].
  injection H as <-. split; reflexivity.
Qed.

Lemma nothing_due_before_long_press (t d : Z) (s : state) :
  nothing_due_before t s = true -> long_press_work s = Some d -> t <= d.
Proof.
  unfold nothing_due_before. intros H Hd. rewrite Hd in H.
  apply andb_true_iff in H as [H _]. apply andb_true_iff in H as [H _].
  apply Z.leb_le. exact H.
Qed.

(** An event that is not the button's leaves the button machine as it was,
    apart from the clock, which moves forward but not past a pending
    long-press deadline. *)
Lemma step_other (s s' : state) (e : event) :
  is_other e = true -> step s e = Some s' ->
  exists t : Z,
    button_view s' = button_view (set_uptime t s)
    /\ uptime s <= t
    /\ (forall d, long_press_work s = Some d -> uptime s <= d -> t <= d).
Proof.
  intros He Hstep.
  assert (Arr : forall t (f : state -> state),
            (forall x, button_view (f x) = button_view x) ->
            option_map f (arrives t s) = Some s' ->
            exists t : Z,
              button_view s' = button_view (set_uptime t s)
              /\ uptime s <= t
              /\ (forall d, long_press_work s = Some d -> uptime s <= d -> t <= d)).
  { intros t f Hf H. destruct (arrives t s) as [s1|] eqn:Ha; [|discriminate].
    injection H as <-. apply arrives_spec in Ha as (-> & Hle & Hn).
    exists t. rewrite Hf. split; [reflexivity|]. split; [exact Hle|].
    intros d Hd _. exact (nothing_due_before_long_press t d s Hn Hd). }
  assert (Exp : forall d0 (f : state -> state),
            (forall x, button_view (f x) = button_view x) ->
            option_map f (expires d0 s) = Some s' ->
            exists t : Z,
              button_view s' = button_view (set_uptime t s)
              /\ uptime s <= t
              /\ (forall d, long_press_work s = Some d -> uptime s <= d -> t <= d)).
  { intros d0 f Hf H. destruct (expires d0 s) as [s1|] eqn:Ha; [|discriminate].
    injection H as <-. apply expires_spec in Ha as (-> & Hn).
    exists (Z.max d0 (uptime s)). rewrite Hf. split; [reflexivity|].
    split; [lia|].
    intros d Hd Hup.
    pose proof (nothing_due_before_long_press d0 d s Hn Hd). lia. }
  destruct e as [j|r|r|t lv r|t id r|t v r|t on r|t]; try discriminate He;
    cbn [step] in Hstep.
  - destruct (effect_work (effect s)) as [d0|]; [|discriminate].
    apply (Exp d0 (fun x => effect_work_handler r (clear_effect_work x)));
      [|exact Hstep].
    intros x. apply (button_view_effect_tick r x).
  - destruct (transition_work (transition s)) as [d0|]; [|discriminate].
    apply (Exp d0 (fun x => transition_work_handler r (clear_transition_work x)));
      [|exact Hstep].
    intros x. apply (button_view_transition_tick r x).
  - apply (Arr t (start_identify_effect r id)); [|exact Hstep].
    intros x. apply button_view_start_identify_effect.
  - apply (Arr t (level_control_set_value r v)); [|exact Hstep].
    intros x. apply button_view_level_control_set_value.
  - apply (Arr t (on_off_set_value r on)); [|exact Hstep].
    intros x. apply button_view_on_off_set_value.
  - destruct (polarity_timer (hw s)); [|discriminate].
    apply (Arr t polarity_timer_handler); [|exact Hstep].
    intros x. apply button_view_polarity_timer_handler.
Qed.

(** Reading a [button_view] equation field by field. *)
Lemma button_view_fields (s1 s2 : state) :
  button_view s1 = button_view s2 ->
  pressed (app_state s1) = pressed (app_state s2)
  /\ press_time (app_state s1) = press_time (app_state s2)
  /\ long_press_work s1 = long_press_work s2
  /\ uptime s1 = uptime s2
  /\ short_presses s1 = short_presses s2
  /\ long_presses s1 = long_presses s2.
Proof.
  unfold button_view. intros H. injection H as H1 H2 H3 H4 H5 H6.
  repeat split; assumption.
Qed.

(** ** Button state machine *)

Lemma button_work_handler_no_edge (r : Z) (level : bool) (s : state) :
  pressed (app_state s) = level -> button_work_handler r level s = s.
Proof.
  intros H. unfold button_work_handler. rewrite H.
  destruct level; reflexivity.
Qed.

Lemma button_work_handler_press (r : Z) (s : state) :
  pressed (app_state s) = false ->
  button_work_handler r true s
  = set_long_press_work
      (k_work_schedule (long_press_work s) BUTTON_LONG_PRESS_MS (uptime s))
      (set_app_state {| press_time := uptime s; pressed := true;
                        last_brightness := last_brightness (app_state s) |} s).
Proof.
  intros H. unfold button_work_handler. rewrite H. reflexivity.
Qed.

Lemma light_fade_to_dev_ctx (r target d : Z) (s : state) :
  dev_ctx (light_fade_to r target d s) = dev_ctx s.
Proof.
  destruct (Z.eq_dec d 0) as [Hd|Hd];
    [|destruct (Z.eq_dec (current_brightness (light s)) target) as [Hc|Hc]].
  - rewrite light_fade_to_immediate by (left; exact Hd).
    destruct (light_set_brightness_frame r target
                (set_transition
                   {| transition_work := None;
                      transition_start := transition_start (transition s);
                      transition_target := transition_target (transition s);
                      transition_elapsed := transition_elapsed (transition s);
                      transition_duration := transition_duration (transition s) |}
                   s)) as (H & _).
    rewrite H. reflexivity.
  - rewrite light_fade_to_immediate by (right; exact Hc).
    destruct (light_set_brightness_frame r target
                (set_transition
                   {| transition_work := None;
                      transition_start := transition_start (transition s);
                      transition_target := transition_target (transition s);
                      transition_elapsed := transition_elapsed (transition s);
                      transition_duration := transition_duration (transition s) |}
                   s)) as (H & _).
    rewrite H. reflexivity.
  - rewrite light_fade_to_starts by assumption. reflexivity.
Qed.

(** [light_toggle] negates the On/Off attribute. *)
Lemma light_toggle_on_off (r : Z) (s : state) :
  on_off (dev_ctx (light_toggle r s)) = negb (on_off (dev_ctx s)).
Proof.
  unfold light_toggle.
  set (s2 := if _ && _ then _ else _).
  assert (F : on_off (dev_ctx s2) = negb (on_off (dev_ctx s)))
    by (subst s2; destruct (_ && _); reflexivity).
  destruct (0 <? toggle_target_level s); frame;
    rewrite light_fade_to_dev_ctx; exact F.
Qed.

(** A release: the timer is cancelled, and a toggle follows exactly when the
    measured duration is below the threshold. *)
Lemma button_work_handler_release (r : Z) (s : state) :
  pressed (app_state s) = true ->
  let s' := button_work_handler r false s in
  let short := uptime s - press_time (app_state s) <? BUTTON_LONG_PRESS_MS in
  pressed (app_state s') = false
  /\ long_press_work s' = None
  /\ uptime s' = uptime s
  /\ long_presses s' = long_presses s
  /\ short_presses s' = (if short then S (short_presses s) else short_presses s)
  /\ on_off (dev_ctx s')
     = (if short then negb (on_off (dev_ctx s)) else on_off (dev_ctx s)).
Proof.
  intros H s' short. subst s' short. unfold button_work_handler. rewrite H.
  cbn [andb negb]. frame.
  set (s1 := set_long_press_work _ _).
  destruct (uptime s - press_time (app_state s) <? BUTTON_LONG_PRESS_MS).
  - set (s2 := emit _ s1).
    destruct (button_view_fields _ _ (button_view_light_toggle r s2))
      as (H1 & _ & H3 & H4 & H5 & H6).
    rewrite H1, H3, H4, H5, H6, light_toggle_on_off. subst s2 s1.
    unfold k_work_cancel_delayable. repeat split.
  - subst s1. unfold k_work_cancel_delayable. repeat split.
Qed.

Lemma blink_view (n : nat) (s : state) :
  button_view (Nat.iter n blink_once s)
  = button_view (set_uptime (uptime s + 100 * Z.of_nat n) s).
Proof.
  induction n as [|n IH].
  - cbn [Nat.iter nat_rect Z.of_nat]. unfold button_view. frame.
    rewrite Z.mul_0_r, Z.add_0_r. reflexivity.
  - change (Nat.iter (S n) blink_once s)
      with (blink_once (Nat.iter n blink_once s)).
    set (x := Nat.iter n blink_once s) in *.
    apply button_view_fields in IH as (V1 & V2 & V3 & V4 & V5 & V6).
    change (button_view (blink_once x))
      with (button_view (set_uptime (uptime x + 100) x)).
    assert (E : uptime x + 100 = uptime s + 100 * Z.of_nat (S n))
      by (rewrite V4, Nat2Z.inj_succ; frame; lia).
    rewrite E.
    unfold button_view, short_presses, long_presses in *. frame.
    rewrite V1, V2, V3, V5, V6. reflexivity.
Qed.

(** The long-press handler with the button still down: one long press is
    logged and the blink keeps the queue busy for 600 ms. *)
Lemma long_press_work_handler_pressed (joined : bool) (s : state) :
  pressed (app_state s) = true ->
  let s' := long_press_work_handler joined s in
  pressed (app_state s') = true
  /\ press_time (app_state s') = press_time (app_state s)
  /\ long_press_work s' = long_press_work s
  /\ uptime s' = uptime s + 600
  /\ short_presses s' = short_presses s
  /\ long_presses s' = S (long_presses s).
Proof.
  intros H s'. subst s'. unfold long_press_work_handler. rewrite H.
  set (s1 := if joined then _ else _).
  assert (F : pressed (app_state s1) = true
              /\ press_time (app_state s1) = press_time (app_state s)
              /\ long_press_work s1 = long_press_work s
              /\ uptime s1 = uptime s
              /\ short_presses s1 = short_presses s
              /\ long_presses s1 = S (long_presses s)).
  { subst s1. destruct joined; repeat split; assumption || reflexivity. }
  destruct F as (F1 & F2 & F3 & F4 & F5 & F6).
  destruct (button_view_fields _ _ (blink_view 6 s1))
    as (V1 & V2 & V3 & V4 & V5 & V6).
  frame. rewrite V1, V2, V3, V4, V5, V6.
  repeat split; try assumption. rewrite F4. reflexivity.
Qed.

(** While the button is held, the button machine keeps its shape whatever
    else happens. *)
Lemma pressed_since_step (t0 : Z) (a b : nat) (s s' : state) (e : event) :
  pressed_since t0 a b s -> is_release e = false -> step s e = Some s' ->
  pressed_since t0 a b s'.
Proof.
  unfold pressed_since, BUTTON_LONG_PRESS_MS.
  intros (Hp & Ht & Ha & Hcase) Hrel Hstep.
  destruct (is_other e) eqn:Ho.
  - destruct (step_other s s' e Ho Hstep) as (t & Hv & Hle & Hdue).
    apply button_view_fields in Hv as (V1 & V2 & V3 & V4 & V5 & V6).
    frame. rewrite V1, V2, V3, V4, V5, V6.
    repeat split; try assumption.
    destruct Hcase as [(Hw & Hl & Hu)|(Hw & Hl & Hu)].
    + left. repeat split; try assumption. apply (Hdue _ Hw Hu).
    + right. repeat split; try assumption. lia.
  - destruct e as [j|r|r|t lv r|t id r|t v r|t on r|t]; try discriminate Ho;
      cbn [step] in Hstep.
    + destruct Hcase as [(Hw & Hl & Hu)|(Hw & Hl & Hu)];
        rewrite Hw in Hstep; [|discriminate].
      destruct (expires (t0 + 3000) s) as [s1|] eqn:He; [|discriminate].
      apply expires_spec in He as (-> & _). injection Hstep as <-.
      set (s1 := set_long_press_work None _).
      destruct (long_press_work_handler_pressed j s1 Hp)
        as (L1 & L2 & L3 & L4 & L5 & L6).
      rewrite L1, L2, L3, L4, L5, L6. subst s1.
      unfold short_presses, long_presses in *. frame.
      split; [reflexivity|]. split; [exact Ht|]. split; [exact Ha|].
      right. split; [reflexivity|]. split; [congruence | lia].
    + cbn [is_release] in Hrel. apply negb_false_iff in Hrel. subst lv.
      destruct (arrives t s) as [s1|] eqn:Ha'; [|discriminate].
      apply arrives_spec in Ha' as (-> & Hle & Hn). injection Hstep as <-.
      rewrite button_work_handler_no_edge by exact Hp. frame.
      repeat split; try assumption.
      destruct Hcase as [(Hw & Hl & Hu)|(Hw & Hl & Hu)].
      * left. repeat split; try assumption.
        apply (nothing_due_before_long_press t _ s Hn Hw).
      * right. repeat split; try assumption. lia.
Qed.

Lemma pressed_since_run (t0 : Z) (a b : nat) (es : list event) :
  forall s s', pressed_since t0 a b s -> held es = true ->
               run s es = Some s' -> pressed_since t0 a b s'.
Proof.
  induction es as [|e es IH]; intros s s' Hp Hh Hr.
  - injection Hr as <-. exact Hp.
  - cbn [held forallb] in Hh. apply andb_true_iff in Hh as [He Hes].
    apply negb_true_iff in He. cbn [run] in Hr.
    destruct (step s e) as [s1|] eqn:Hs; [|discriminate].
    apply (IH s1 s'); [|exact Hes|exact Hr].
    exact (pressed_since_step t0 a b s s1 e Hp He Hs).
Qed.

Lemma run_app (a b : list event) : forall s,
  run s (a ++ b) = match run s a with Some s1 => run s1 b | None => None end.
Proof.
  induction a as [|e a IH]; intros s; [reflexivity|].
  cbn [app run]. destruct (step s e); [apply IH | reflexivity].
Qed.

(** The press itself. *)
Lemma press_starts (t0 r0 : Z) (s0 s : state) :
  button_idle s0 -> step s0 (ButtonEdge t0 true r0) = Some s ->
  pressed_since t0 (short_presses s0) (long_presses s0) s.
Proof.
  intros (Hp & Hw) Hstep. cbn [step] in Hstep.
  destruct (arrives t0 s0) as [s1|] eqn:Ha; [|discriminate].
  apply arrives_spec in Ha as (-> & _ & _). injection Hstep as <-.
  rewrite button_work_handler_press by exact Hp. frame. rewrite Hw.
  unfold pressed_since, k_work_schedule, BUTTON_LONG_PRESS_MS. frame.
  repeat split. left. repeat split. lia.
Qed.

(** With the button up and no timer pending, nothing but a press can lead
    to a long press. *)
Lemma idle_step (s s' : state) (e : event) :
  button_idle s -> is_press e = false -> step s e = Some s' ->
  button_idle s' /\ long_presses s' = long_presses s
  /\ short_presses s' = short_presses s.
Proof.
  unfold button_idle. intros (Hp & Hw) Hpress Hstep.
  destruct (is_other e) eqn:Ho.
  - destruct (step_other s s' e Ho Hstep) as (t & Hv & _).
    apply button_view_fields in Hv as (V1 & _ & V3 & _ & V5 & V6).
    frame. rewrite V1, V3, V5, V6. repeat split; assumption.
  - destruct e as [j|r|r|t lv r|t id r|t v r|t on r|t]; try discriminate Ho;
      cbn [step] in Hstep.
    + rewrite Hw in Hstep. discriminate.
    + cbn [is_press] in Hpress. subst lv.
      destruct (arrives t s) as [s1|] eqn:Ha; [|discriminate].
      apply arrives_spec in Ha as (-> & _). injection Hstep as <-.
      rewrite button_work_handler_no_edge by exact Hp.
      repeat split; assumption.
Qed.

Lemma idle_run (es : list event) : forall s s',
  button_idle s -> untouched es = true -> run s es = Some s' ->
  button_idle s' /\ long_presses s' = long_presses s
  /\ short_presses s' = short_presses s.
Proof.
  induction es as [|e es IH]; intros s s' Hi Hu Hr.
  - injection Hr as <-. split; [exact Hi|]. split; reflexivity.
  - cbn [untouched forallb] in Hu. apply andb_true_iff in Hu as [He Hes].
    apply negb_true_iff in He. cbn [run] in Hr.
    destruct (step s e) as [s1|] eqn:Hs; [|discriminate].
    destruct (idle_step s s1 e Hi He Hs) as (Hi1 & Hl1 & Hs1).
    destruct (IH s1 s' Hi1 Hes Hr) as (Hi2 & Hl2 & Hs2).
    split; [exact Hi2|]. split; congruence.
Qed.

(** C6.  From an idle button, let the handler see the button go down at
    uptime [t0] and stay down through [mid], whatever else runs meanwhile.
    If it then sees the release at [t1] with [t1 - t0 < 3000], exactly one
    short press and no long press has been logged, the On/Off attribute has
    been toggled, the long-press timer is cancelled, and no long press
    follows for as long as the button is not pressed again.  If instead the
    clock has passed [t0 + 3000] with the button still down, exactly one
    long press and no short press has been logged, and the release that
    follows, whenever it comes, adds neither. *)
Theorem button_press_events (s0 : state) (t0 r0 : Z) (mid : list event) :
  button_idle s0 -> held mid = true ->
  (forall (t1 r1 : Z) (s2 : state),
      run s0 (ButtonEdge t0 true r0 :: mid ++ [ButtonEdge t1 false r1]) = Some s2 ->
      t1 - t0 < BUTTON_LONG_PRESS_MS ->
      short_presses s2 = S (short_presses s0)
      /\ long_presses s2 = long_presses s0
      /\ button_idle s2
      /\ (exists s1 : state,
            run s0 (ButtonEdge t0 true r0 :: mid) = Some s1
            /\ on_off (dev_ctx s2) = negb (on_off (dev_ctx s1)))
      /\ forall (post : list event) (s3 : state),
           untouched post = true -> run s2 post = Some s3 ->
           long_presses s3 = long_presses s0)
  /\ (forall s1 : state,
         run s0 (ButtonEdge t0 true r0 :: mid) = Some s1 ->
         t0 + BUTTON_LONG_PRESS_MS < uptime s1 ->
         long_presses s1 = S (long_presses s0)
         /\ short_presses s1 = short_presses s0
         /\ forall (t1 r1 : Z) (post : list event) (s3 : state),
              untouched post = true ->
              run s1 (ButtonEdge t1 false r1 :: post) = Some s3 ->
              long_presses s3 = S (long_presses s0)
              /\ short_presses s3 = short_presses s0).
Proof.
  intros Hidle Hheld.
  assert (Held : forall s1, run s0 (ButtonEdge t0 true r0 :: mid) = Some s1 ->
                   pressed_since t0 (short_presses s0) (long_presses s0) s1).
  { intros s1 Hr. cbn [run] in Hr.
    destruct (step s0 (ButtonEdge t0 true r0)) as [s|] eqn:Hs; [|discriminate].
    apply (pressed_since_run t0 _ _ mid s s1); [|exact Hheld|exact Hr].
    exact (press_starts t0 r0 s0 s Hidle Hs). }
  assert (Release : forall s1 t1 r1 s2,
            pressed_since t0 (short_presses s0) (long_presses s0) s1 ->
            step s1 (ButtonEdge t1 false r1) = Some s2 ->
            button_idle s2
            /\ ((t1 - t0 < BUTTON_LONG_PRESS_MS
                 /\ short_presses s2 = S (short_presses s0)
                 /\ long_presses s2 = long_presses s0
                 /\ on_off (dev_ctx s2) = negb (on_off (dev_ctx s1)))
                \/ (BUTTON_LONG_PRESS_MS <= t1 - t0
                    /\ short_presses s2 = short_presses s0
                    /\ long_presses s2 = long_presses s1))).
  { intros s1 t1 r1 s2 (Hp & Ht & Ha & Hcase) Hs. cbn [step] in Hs.
    destruct (arrives t1 s1) as [s|] eqn:Harr; [|discriminate].
    apply arrives_spec in Harr as (-> & Hle & Hn). injection Hs as <-.
    destruct (button_work_handler_release r1 (set_uptime t1 s1) Hp)
      as (B1 & B2 & B3 & B4 & B5 & B6).
    unfold short_presses, long_presses in *. frame.
    split; [split; assumption|].
    rewrite Ht in B5, B6.
    destruct (t1 - t0 <? BUTTON_LONG_PRESS_MS) eqn:E.
    - apply Z.ltb_lt in E. left. split; [exact E|].
      split; [rewrite B5, Ha; reflexivity|].
      split; [|exact B6].
      rewrite B4.
      destruct Hcase as [(_ & Hl & _)|(_ & _ & Hu)]; [exact Hl|].
      unfold BUTTON_LONG_PRESS_MS in *. lia.
    - apply Z.ltb_ge in E. right. split; [exact E|].
      split; [rewrite B5, Ha; reflexivity | exact B4]. }
  split.
  - intros t1 r1 s2 Hr Hshort.
    change (ButtonEdge t0 true r0 :: mid ++ [ButtonEdge t1 false r1])
      with ((ButtonEdge t0 true r0 :: mid) ++ [ButtonEdge t1 false r1]) in Hr.
    rewrite run_app in Hr.
    destruct (run s0 (ButtonEdge t0 true r0 :: mid)) as [s1|] eqn:Hr1;
      [|discriminate].
    cbn [run] in Hr.
    destruct (step s1 (ButtonEdge t1 false r1)) as [s|] eqn:Hs; [|discriminate].
    injection Hr as ->.
    destruct (Release s1 t1 r1 s2 (Held s1 eq_refl) Hs)
      as (Hi2 & [(_ & Hsp & Hlp & Hon)|(Hge & _)]); [|lia].
    split; [exact Hsp|]. split; [exact Hlp|]. split; [exact Hi2|].
    split; [exists s1; split; [reflexivity | exact Hon]|].
    intros post s3 Hu Hp.
    destruct (idle_run post s2 s3 Hi2 Hu Hp) as (_ & Hl3 & _). congruence.
  - intros s1 Hr Hpast.
    destruct (Held s1 Hr) as (Hp & Ht & Ha & Hcase).
    destruct Hcase as [(_ & _ & Hu)|(Hw & Hl & Hu)]; [lia|].
    split; [exact Hl|]. split; [exact Ha|].
    intros t1 r1 post s3 Hun Hr3. cbn [run] in Hr3.
    destruct (step s1 (ButtonEdge t1 false r1)) as [s2|] eqn:Hs; [|discriminate].
    destruct (Release s1 t1 r1 s2 (Held s1 Hr) Hs)
      as (Hi2 & [(Hlt & _)|(_ & Hsp & Hlp)]).
    + cbn [step] in Hs.
      destruct (arrives t1 s1) as [s|] eqn:Harr; [|discriminate].
      apply arrives_spec in Harr as (_ & Hle & _). lia.
    + destruct (idle_run post s2 s3 Hi2 Hun Hr3) as (_ & Hl3 & Hs3).
      split; congruence.
Qed.

(** The theorem of C6 on a freshly booted board: a press at 1000 ms released
    at 1500 ms logs one short press; a press at 1000 ms still held at
    4600 ms, after an Okay effect ran and the timer fired at 4000 ms, has
    logged one long press. *)
Lemma button_press_events_witness :
  (short_presses (after_boot short_press_trace) = 1%nat
   /\ long_presses (after_boot short_press_trace) = 0%nat)
  /\ (long_presses (after_boot long_press_trace) = 1%nat
      /\ short_presses (after_boot long_press_trace) = 0%nat).
Proof.
  assert (I : button_idle (boot_state 1000000)) by (split; reflexivity).
  split.
  - destruct (button_press_events (boot_state 1000000) 1000 0 [] I eq_refl)
      as (Short & _).
    destruct (Short 1500 0 (after_boot short_press_trace)) as (H1 & H2 & _).
    + vm_compute. reflexivity.
    + vm_compute. reflexivity.
    + split; [exact H1 | exact H2].
  - destruct (button_press_events (boot_state 1000000) 1000 0
                okay_then_timer I)
      as (_ & Long).
    + reflexivity.
    + destruct (Long (after_boot long_press_trace)) as (H1 & H2 & _).
      * vm_compute. reflexivity.
      * vm_compute. reflexivity.
      * split; [exact H1 | exact H2].
Defined.

(** ** Identify effects against a running fade *)

Lemma step_effect_expires (r : Z) (s s' : state) :
  step s (EffectExpires r) = Some s' ->
  exists d : Z,
    effect_work (effect s) = Some d
    /\ s' = effect_tick r (set_uptime (Z.max d (uptime s)) s).
Proof.
  cbn [step]. intros H.
  destruct (effect_work (effect s)) as [d|]; [|discriminate].
  destruct (expires d s) as [s1|] eqn:He; [|discriminate].
  apply expires_spec in He as (-> & _). injection H as <-.
  exists d. split; reflexivity.
Qed.

(** C3, as the code has it.  Starting an identify effect, and every run of
    its handler, leave the fade engine's state alone: a fade in progress
    stays scheduled, with its due time, and its ticks go on writing the
    brightness beside the effect.  The effect's restore step, when its PWM
    write is accepted, sets the brightness to the value the attributes ask
    for at that moment, [current_level] if [on_off] and 0 otherwise,
    whatever the fade had last written, and leaves the effect idle. *)
Theorem identify_effect_beside_fade (s : state) (effect_id r0 r : Z) :
  transition (start_identify_effect r0 effect_id s) = transition s
  /\ (forall s' : state,
        step s (EffectExpires r) = Some s' -> transition s' = transition s)
  /\ (forall s' : state,
        step s (EffectExpires 0) = Some s' ->
        effect_script (effect_kind (effect_type (effect s)))
                      (effect_step (effect s)) = None ->
        current_brightness (light s') = steady_level (dev_ctx s)
        /\ effect_work (effect s') = None
        /\ effect_type (effect s') = ZB_ZCL_IDENTIFY_EFFECT_ID_STOP).
Proof.
  split; [|split].
  - destruct (start_identify_effect_spec r0 effect_id s) as (_ & _ & Ht & _).
    exact Ht.
  - intros s' Hs. apply step_effect_expires in Hs as (d & _ & ->).
    destruct (effect_tick_spec r (set_uptime (Z.max d (uptime s)) s))
      as (_ & _ & _ & _ & Ht & _).
    rewrite Ht. reflexivity.
  - intros s' Hs Hrow. apply step_effect_expires in Hs as (d & _ & ->).
    destruct (effect_tick_spec 0 (set_uptime (Z.max d (uptime s)) s))
      as (He & Hl & _).
    frame. rewrite Hrow in He, Hl.
    rewrite He, Hl, light_set_brightness_ok_level. frame.
    repeat split.
Qed.

(** The theorem of C3 on the Blink that interrupts a fade: 25 fade ticks
    later the fade has brought the brightness to 132 and is still
    scheduled; the restore step then sets 255, the level the attributes
    hold, and leaves the fade scheduled. *)
Lemma identify_effect_beside_fade_witness :
  let s := after_boot blink_until_restore_trace in
  let s' := after_boot (blink_until_restore_trace ++ [EffectExpires 0]) in
  current_brightness (light s) = 132
  /\ transition_work (transition s) = Some 1620
  /\ current_brightness (light s') = 255
  /\ transition s' = transition s
  /\ effect_work (effect s') = None.
Proof.
  intros s s'.
  assert (Hs : step s (EffectExpires 0) = Some s') by (vm_compute; reflexivity).
  destruct (identify_effect_beside_fade s 0 0 0) as (_ & Hfade & Hrestore).
  destruct (Hrestore s' Hs) as (Hb & Hw & _); [vm_compute; reflexivity|].
  split; [vm_compute; reflexivity|]. split; [vm_compute; reflexivity|].
  split; [exact Hb|]. split; [exact (Hfade s' Hs) | exact Hw].
Defined.

(** C3 as worded fails.  Boot, short press (a one-second fade from 0 to 255
    starts), first fade tick (brightness 5), Blink arrives and shows 255:
    the effect is active, with its restore step scheduled, and the next
    fade tick sets the brightness to 10. *)
Lemma fade_writes_during_effect :
  ~ (forall (es : list event) (s s' : state) (r : Z),
       run (boot_state 1000000) es = Some s ->
       effect_work (effect s) <> None ->
       step s (TransitionExpires r) = Some s' ->
       current_brightness (light s') = current_brightness (light s)).
Proof.
  intros H.
  specialize (H blink_mid_fade_trace (after_boot blink_mid_fade_trace)
                (after_boot (blink_mid_fade_trace ++ [TransitionExpires 0])) 0).
  assert (R : run (boot_state 1000000) blink_mid_fade_trace
              = Some (after_boot blink_mid_fade_trace))
    by (vm_compute; reflexivity).
  assert (A : effect_work (effect (after_boot blink_mid_fade_trace)) <> None)
    by (vm_compute; discriminate).
  assert (S : step (after_boot blink_mid_fade_trace) (TransitionExpires 0)
              = Some (after_boot (blink_mid_fade_trace ++ [TransitionExpires 0])))
    by (vm_compute; reflexivity).
  specialize (H R A S). vm_compute in H. discriminate H.
Qed.

(** The states of that run, spelled out. *)
Example blink_mid_fade_states :
  let s := after_boot blink_mid_fade_trace in
  let s' := after_boot (blink_mid_fade_trace ++ [TransitionExpires 0]) in
  effect_type (effect s) = ZB_ZCL_IDENTIFY_EFFECT_ID_BLINK
  /\ effect_work (effect s) = Some 1610
  /\ current_brightness (light s) = 255
  /\ transition_work (transition s) = Some 1120
  /\ current_brightness (light s') = 10
  /\ effect_work (effect s') = Some 1610.
Proof. vm_compute. repeat split. Qed.

(** ** The idle button on a running board *)

(** X19.  Whatever events have run, in whatever order, a button seen up has
    no long-press timer pending, provided that held at the start: a release
    always cancels the timer, and the timer's own run leaves it idle.  So a
    press always finds the timer free to be armed for its own 3000 ms. *)
Lemma button_up_is_idle (es : list event) : forall s s' : state,
  (pressed (app_state s) = false -> long_press_work s = None) ->
  run s es = Some s' ->
  pressed (app_state s') = false -> long_press_work s' = None.
Proof.
  induction es as [|e es IH]; intros s s' Hinv Hr.
  - injection Hr as <-. exact Hinv.
  - cbn [run] in Hr. destruct (step s e) as [s1|] eqn:Hs; [|discriminate].
    apply (IH s1 s'); [|exact Hr]. clear IH Hr.
    destruct (is_other e) eqn:Ho.
    + destruct (step_other s s1 e Ho Hs) as (t & Hv & _).
      apply button_view_fields in Hv as (V1 & _ & V3 & _).
      frame. rewrite V1, V3. exact Hinv.
    + destruct e as [j|r|r|t lv r|t id r|t v r|t on r|t]; try discriminate Ho;
        cbn [step] in Hs.
      * destruct (long_press_work s) as [d|] eqn:Hw; [|discriminate].
        destruct (expires d s) as [s2|] eqn:He; [|discriminate].
        apply expires_spec in He as (-> & _). injection Hs as <-.
        unfold long_press_work_handler. frame.
        destruct (pressed (app_state s)) eqn:Hp.
        -- intros _.
           destruct (button_view_fields _ _
                       (blink_view 6
                          (if j
                           then emit zb_bdb_reset_via_local_action
                                  (emit (LOG_INF "Long press - factory reset")
                                     (set_long_press_work None
                                        (set_uptime (Z.max d (uptime s)) s)))
                           else emit (LOG_INF "Long press - factory reset")
                                  (set_long_press_work None
                                     (set_uptime (Z.max d (uptime s)) s)))))
             as (_ & _ & V3 & _).
           rewrite V3. destruct j; reflexivity.
        -- intros _. reflexivity.
      * destruct (arrives t s) as [s2|] eqn:Ha; [|discriminate].
        apply arrives_spec in Ha as (-> & _). injection Hs as <-.
        destruct lv, (pressed (app_state s)) eqn:Hp.
        -- rewrite button_work_handler_no_edge by exact Hp. frame.
           rewrite Hp. discriminate.
        -- rewrite button_work_handler_press by exact Hp. frame. discriminate.
        -- intros _.
           destruct (button_work_handler_release r (set_uptime t s) Hp)
             as (_ & B2 & _).
           exact B2.
        -- rewrite button_work_handler_no_edge by exact Hp. frame.
           intros _. apply Hinv. reflexivity.
Qed.

(** * Further properties of the firmware *)

(** ** The actuator stays consistent *)

Lemma u8_is_u8 (z : Z) : is_u8 (u8 z).
Proof. unfold is_u8, u8. pose proof (Z.mod_pos_bound z 256). lia. Qed.

Lemma light_set_brightness_driver_ok (r level : Z) (s : state) :
  driver_ok (light s) (hw s) -> is_u8 level ->
  driver_ok (light (light_set_brightness r level s))
            (hw (light_set_brightness r level s)).
Proof.
  unfold driver_ok, is_u8. open_state s.
  intros (Hb & Hon & Ht & Hs & H1 & H2 & Hp) Hl. unfold_brightness.
  destruct (r =? 0); cbn [negb]; unfold_brightness;
    [|repeat split; assumption || lia].
  destruct (0 <? level) eqn:Hpos, (level =? 0) eqn:Hz, light_is_on0;
    cbn [andb negb]; unfold_brightness; cbn [andb negb] in *;
    rewrite ?Hpos; repeat split; try assumption; try lia; try reflexivity.
  all: try (apply Z.ltb_ge in Hpos; apply Z.eqb_neq in Hz; lia).
Qed.

Lemma driver_ok_same (s s' : state) :
  light s' = light s -> hw s' = hw s ->
  driver_ok (light s) (hw s) -> driver_ok (light s') (hw s').
Proof. intros -> ->. exact (fun H => H). Qed.

(** A handler that touches the actuator only through one call of
    [light_set_brightness] with a [uint8_t] level keeps it consistent. *)
Lemma driver_ok_via (r level : Z) (s s' : state) :
  light s' = light (light_set_brightness r level s) ->
  hw s' = hw (light_set_brightness r level s) ->
  is_u8 level ->
  driver_ok (light s) (hw s) -> driver_ok (light s') (hw s').
Proof.
  intros -> -> Hl H. exact (light_set_brightness_driver_ok r level s H Hl).
Qed.

Lemma steady_level_u8 (c : light_device_ctx_t) :
  is_u8 (current_level c) -> is_u8 (steady_level c).
Proof.
  unfold steady_level. destruct (on_off c); [tauto | unfold is_u8; lia].
Qed.

Lemma toggle_target_level_u8 (s : state) :
  levels_ok s -> is_u8 (toggle_target_level s).
Proof.
  unfold levels_ok, toggle_target_level, is_u8. intros (Hc & Hl & _).
  destruct (negb (on_off (dev_ctx s))); [|lia].
  destruct (0 <? current_level (dev_ctx s));
    match goal with |- context [?x =? 0] => destruct (x =? 0) end; lia.
Qed.

(** [light_set_brightness] and well-formedness. *)
Lemma well_formed_light_set_brightness (r level : Z) (s : state) :
  well_formed s -> is_u8 level -> well_formed (light_set_brightness r level s).
Proof.
  intros (Hd & Hc & Hl & Ht) Hlv.
  destruct (light_set_brightness_frame r level s) as (F1 & F2 & _ & _ & F5 & _).
  split; [exact (light_set_brightness_driver_ok r level s Hd Hlv)|].
  unfold levels_ok. rewrite F1, F2, F5. exact (conj Hc (conj Hl Ht)).
Qed.

Lemma well_formed_restore_state (r : Z) (s : state) :
  well_formed s -> well_formed (restore_state r s).
Proof.
  intros H. rewrite restore_state_steady.
  apply well_formed_light_set_brightness; [exact H|].
  apply steady_level_u8. apply H.
Qed.

(** Wrappers that leave the light, the peripherals and the level variables
    alone. *)
Lemma well_formed_same (s s' : state) :
  light s' = light s -> hw s' = hw s ->
  current_level (dev_ctx s') = current_level (dev_ctx s) ->
  last_brightness (app_state s') = last_brightness (app_state s) ->
  transition_target (transition s') = transition_target (transition s) ->
  well_formed s -> well_formed s'.
Proof.
  unfold well_formed, levels_ok. intros -> -> -> -> -> H. exact H.
Qed.

Lemma well_formed_light_fade_to (r target d : Z) (s : state) :
  well_formed s -> is_u8 target -> well_formed (light_fade_to r target d s).
Proof.
  intros H Ht.
  destruct (Z.eq_dec d 0) as [Hd|Hd];
    [|destruct (Z.eq_dec (current_brightness (light s)) target) as [Hc|Hc]].
  - rewrite light_fade_to_immediate by (left; exact Hd).
    apply well_formed_light_set_brightness; [|exact Ht].
    revert H. apply well_formed_same; reflexivity.
  - rewrite light_fade_to_immediate by (right; exact Hc).
    apply well_formed_light_set_brightness; [|exact Ht].
    revert H. apply well_formed_same; reflexivity.
  - rewrite light_fade_to_starts by assumption.
    destruct H as (Hdr & Hcl & Hlb & _).
    split; [exact Hdr|]. exact (conj Hcl (conj Hlb Ht)).
Qed.

Lemma well_formed_light_toggle (r : Z) (s : state) :
  well_formed s -> well_formed (light_toggle r s).
Proof.
  intros H. pose proof (toggle_target_level_u8 s (proj2 H)) as Ht.
  unfold light_toggle.
  set (s2 := if _ && _ then _ else _).
  assert (W2 : well_formed s2).
  { subst s2. destruct H as (Hd & Hc & Hl & Htt).
    destruct (_ && _); (split; [exact Hd|]);
      [exact (conj Ht (conj Hl Htt)) | exact (conj Hc (conj Hl Htt))]. }
  pose proof (well_formed_light_fade_to r (toggle_target_level s)
                (toggle_transition_ms s) s2 W2 Ht) as W3.
  set (s3 := light_fade_to _ _ _ s2) in *.
  destruct W3 as (Hd & Hc & Hl & Htt).
  destruct (0 <? toggle_target_level s); (split; [exact Hd|]);
    [exact (conj Hc (conj Ht Htt)) | exact (conj Hc (conj Hl Htt))].
Qed.

Lemma well_formed_level_control_set_value (r v : Z) (s : state) :
  well_formed s -> well_formed (level_control_set_value r v s).
Proof.
  intros (Hd & Hc & Hl & Ht). unfold level_control_set_value.
  set (s1 := set_attr_current_level _ _).
  assert (W1 : well_formed s1).
  { subst s1. split; [exact Hd|]. exact (conj (u8_is_u8 v) (conj Hl Ht)). }
  pose proof (well_formed_light_set_brightness r (u8 v) s1 W1 (u8_is_u8 v)) as W2.
  set (s2 := light_set_brightness _ _ s1) in *.
  destruct W2 as (Hd2 & Hc2 & Hl2 & Ht2).
  destruct (0 <? v); (split; [exact Hd2|]);
    [exact (conj Hc2 (conj (u8_is_u8 v) Ht2)) | exact (conj Hc2 (conj Hl2 Ht2))].
Qed.

Lemma well_formed_on_off_set_value (r : Z) (on : bool) (s : state) :
  well_formed s -> well_formed (on_off_set_value r on s).
Proof.
  intros H. unfold on_off_set_value.
  set (s1 := set_attr_on_off on _).
  assert (W1 : well_formed s1) by (revert H; apply well_formed_same; reflexivity).
  assert (W2 : well_formed
                 (if on then light_set_brightness r (current_level (dev_ctx s1)) s1
                  else light_set_brightness r 0 s1)).
  { destruct on; apply well_formed_light_set_brightness; try exact W1.
    - apply W1.
    - unfold is_u8; lia. }
  revert W2. apply well_formed_same; reflexivity.
Qed.

Lemma well_formed_start_identify_effect (r effect_id : Z) (s : state) :
  well_formed s -> well_formed (start_identify_effect r effect_id s).
Proof.
  intros H. unfold start_identify_effect.
  destruct (_ || _).
  - apply well_formed_restore_state. revert H.
    apply well_formed_same; reflexivity.
  - revert H. apply well_formed_same; reflexivity.
Qed.

Lemma effect_script_level_u8 (k : EffectKind) (step b n dl : Z) :
  effect_script k step = Some (b, n, dl) -> is_u8 b.
Proof.
  unfold is_u8. destruct k; cbn [effect_script]; intros H;
    repeat match type of H with
           | (if ?c then _ else _) = _ => destruct c
           | context [if ?c then _ else _] => destruct c
           end;
    try discriminate; injection H as <- _ _; lia.
Qed.

Lemma well_formed_effect_tick (r : Z) (s : state) :
  well_formed s -> well_formed (effect_tick r s).
Proof.
  intros (Hd & Hc & Hl & Ht).
  destruct (effect_tick_spec r s) as (_ & El & Eh & Ec & Etr & Ea & _).
  split.
  - apply (driver_ok_via r _ s _ El Eh); [|exact Hd].
    destruct (effect_script _ _) as [[[b n] dl]|] eqn:E.
    + exact (effect_script_level_u8 _ _ _ _ _ E).
    + apply steady_level_u8. exact Hc.
  - unfold levels_ok. rewrite Ec, Etr, Ea. exact (conj Hc (conj Hl Ht)).
Qed.

Lemma transition_level_u8 (a b e d : Z) : is_u8 (transition_level a b e d).
Proof. unfold transition_level. apply u8_is_u8. Qed.

Lemma well_formed_transition_tick (r : Z) (s : state) :
  well_formed s -> well_formed (transition_tick r s).
Proof.
  intros (Hd & Hc & Hl & Ht).
  destruct (transition_tick_spec r s) as (Et & El & Eh & Ec & Ea & _).
  split.
  - apply (driver_ok_via r _ s _ El Eh); [|exact Hd].
    destruct (_ <=? _); [exact Ht | apply transition_level_u8].
  - unfold levels_ok. rewrite Ec, Ea, Et. exact (conj Hc (conj Hl Ht)).
Qed.

Lemma well_formed_polarity_timer_handler (s : state) :
  well_formed s -> well_formed (polarity_timer_handler s).
Proof.
  intros (Hd & Hl). unfold polarity_timer_handler.
  destruct (light_is_on (light s)) eqn:Hon; cbn [negb];
    [|exact (conj Hd Hl)].
  split; [|exact Hl].
  unfold driver_ok in *. frame.
  destruct Hd as (H1 & H2 & H3 & H4 & H5 & H6 & H7).
  rewrite Hon in *. cbn [andb].
  split; [exact H1|]. split; [exact H2|]. split; [exact H3|].
  split; [exact H4|]. split; [reflexivity|]. split; [reflexivity|].
  exact H7.
Qed.

Lemma well_formed_button_work_handler (r : Z) (level : bool) (s : state) :
  well_formed s -> well_formed (button_work_handler r level s).
Proof.
  intros H. unfold button_work_handler.
  destruct (level && negb (pressed (app_state s))).
  - revert H. apply well_formed_same; reflexivity.
  - destruct (negb level && pressed (app_state s)); [|exact H].
    frame.
    match goal with
    | |- context [if ?c then _ else _] => destruct c
    end.
    + apply well_formed_light_toggle. revert H.
      apply well_formed_same; reflexivity.
    + revert H. apply well_formed_same; reflexivity.
Qed.

(** The reset blink touches the status LED and the clock only. *)
Lemma blink_frame (n : nat) (s : state) :
  let s' := Nat.iter n blink_once s in
  light s' = light s /\ dev_ctx s' = dev_ctx s /\ app_state s' = app_state s
  /\ transition s' = transition s /\ effect s' = effect s
  /\ outputs s' = outputs s
  /\ pwm_period (hw s') = pwm_period (hw s)
  /\ pwm_pulse (hw s') = pwm_pulse (hw s)
  /\ tb6612_ain1 (hw s') = tb6612_ain1 (hw s)
  /\ tb6612_ain2 (hw s') = tb6612_ain2 (hw s)
  /\ tb6612_standby (hw s') = tb6612_standby (hw s)
  /\ polarity_timer (hw s') = polarity_timer (hw s)
  /\ status_led (hw s') = Nat.iter n negb (status_led (hw s)).
Proof.
  induction n as [|n IH]; [cbn; repeat split|].
  change (Nat.iter (S n) blink_once s)
    with (blink_once (Nat.iter n blink_once s)).
  change (Nat.iter (S n) negb (status_led (hw s)))
    with (negb (Nat.iter n negb (status_led (hw s)))).
  cbv zeta in *. set (x := Nat.iter n blink_once s) in *.
  destruct IH as (I1&I2&I3&I4&I5&I6&I7&I8&I9&I10&I11&I12&I13).
  unfold blink_once. frame.
  rewrite I1, I2, I3, I4, I5, I6, I7, I8, I9, I10, I11, I12, I13.
  repeat split.
Qed.

Lemma well_formed_long_press_work_handler (joined : bool) (s : state) :
  well_formed s -> well_formed (long_press_work_handler joined s).
Proof.
  intros H. unfold long_press_work_handler.
  destruct (pressed (app_state s)); [|exact H].
  set (s1 := if joined then _ else _).
  assert (W1 : well_formed s1)
    by (subst s1; destruct joined; revert H; apply well_formed_same; reflexivity).
  destruct (blink_frame 6 s1) as (I1&I2&I3&I4&_&_&I7&I8&I9&I10&I11&I12&_).
  cbv zeta in *. set (s2 := Nat.iter 6 blink_once s1) in *.
  destruct W1 as ((D1&D2&D3&D4&D5&D6&D7) & L).
  split.
  - unfold driver_ok. rewrite I1, I7, I8, I9, I10, I11, I12.
    exact (conj D1 (conj D2 (conj D3 (conj D4 (conj D5 (conj D6 D7)))))).
  - unfold levels_ok in *. rewrite I2, I3, I4. exact L.
Qed.

(** Every event keeps the state well formed. *)
Lemma well_formed_step (s s' : state) (e : event) :
  well_formed s -> step s e = Some s' -> well_formed s'.
Proof.
  intros H Hs.
  assert (U : forall t, well_formed (set_uptime t s))
    by (intros t; revert H; apply well_formed_same; reflexivity).
  destruct e as [j|r|r|t lv r|t id r|t v r|t on r|t]; cbn [step] in Hs.
  - destruct (long_press_work s) as [d|]; [|discriminate].
    destruct (expires d s) as [s1|] eqn:He; [|discriminate].
    apply expires_spec in He as (-> & _). injection Hs as <-.
    apply well_formed_long_press_work_handler.
    generalize (U (Z.max d (uptime s))). apply well_formed_same; reflexivity.
  - destruct (effect_work (effect s)) as [d|]; [|discriminate].
    destruct (expires d s) as [s1|] eqn:He; [|discriminate].
    apply expires_spec in He as (-> & _). injection Hs as <-.
    apply (well_formed_effect_tick r). apply U.
  - destruct (transition_work (transition s)) as [d|]; [|discriminate].
    destruct (expires d s) as [s1|] eqn:He; [|discriminate].
    apply expires_spec in He as (-> & _). injection Hs as <-.
    apply (well_formed_transition_tick r). apply U.
  - destruct (arrives t s) as [s1|] eqn:Ha; [|discriminate].
    apply arrives_spec in Ha as (-> & _). injection Hs as <-.
    apply well_formed_button_work_handler. apply U.
  - destruct (arrives t s) as [s1|] eqn:Ha; [|discriminate].
    apply arrives_spec in Ha as (-> & _). injection Hs as <-.
    apply well_formed_start_identify_effect. apply U.
  - destruct (arrives t s) as [s1|] eqn:Ha; [|discriminate].
    apply arrives_spec in Ha as (-> & _). injection Hs as <-.
    apply well_formed_level_control_set_value. apply U.
  - destruct (arrives t s) as [s1|] eqn:Ha; [|discriminate].
    apply arrives_spec in Ha as (-> & _). injection Hs as <-.
    apply well_formed_on_off_set_value. apply U.
  - destruct (polarity_timer (hw s)); [|discriminate].
    destruct (arrives t s) as [s1|] eqn:Ha; [|discriminate].
    apply arrives_spec in Ha as (-> & _). injection Hs as <-.
    apply well_formed_polarity_timer_handler. apply U.
Qed.

(** X1.  Whatever events run, in whatever order and whatever the PWM
    answers, the actuator stays consistent: the H-bridge is on, STANDBY high
    and the polarity timer running exactly when the recorded brightness is
    positive; the PWM holds the pulse of the recorded brightness; and AIN1
    and AIN2 are never high together. *)
Theorem actuator_stays_consistent (es : list event) (s s' : state) :
  well_formed s -> run s es = Some s' ->
  well_formed s'
  /\ light_is_on (light s') = (0 <? current_brightness (light s'))
  /\ tb6612_standby (hw s') = (0 <? current_brightness (light s'))
  /\ polarity_timer (hw s') = (0 <? current_brightness (light s'))
  /\ pwm_pulse (hw s')
     = pulse_of (pwm_period (hw s')) (current_brightness (light s'))
  /\ tb6612_ain1 (hw s') && tb6612_ain2 (hw s') = false.
Proof.
  revert s. induction es as [|e es IH]; intros s W Hr.
  - injection Hr as <-. split; [exact W|].
    destruct W as ((D1&D2&D3&D4&D5&D6&D7) & _).
    rewrite D3, D4, D5, D6, D2.
    repeat split; try assumption.
    destruct (0 <? _), (polarity_phase (light s)); reflexivity.
  - cbn [run] in Hr. destruct (step s e) as [s1|] eqn:Hs; [|discriminate].
    exact (IH s1 (well_formed_step s s1 e W Hs) Hr).
Qed.

Lemma boot_state_well_formed (period : Z) : well_formed (boot_state period).
Proof.
  unfold well_formed, driver_ok, levels_ok, is_u8. cbn.
  repeat split; try lia; try reflexivity.
Qed.

(** X1 after a short press, a fade tick and a Blink on a booted board. *)
Lemma actuator_stays_consistent_witness :
  let s' := after_boot blink_mid_fade_trace in
  well_formed s'
  /\ light_is_on (light s') = (0 <? current_brightness (light s'))
  /\ tb6612_standby (hw s') = (0 <? current_brightness (light s'))
  /\ polarity_timer (hw s') = (0 <? current_brightness (light s'))
  /\ pwm_pulse (hw s')
     = pulse_of (pwm_period (hw s')) (current_brightness (light s'))
  /\ tb6612_ain1 (hw s') && tb6612_ain2 (hw s') = false.
Proof.
  apply (actuator_stays_consistent blink_mid_fade_trace (boot_state 1000000)).
  - apply boot_state_well_formed.
  - vm_compute. reflexivity.
Defined.

(** ** Polarity alternation *)

(** X2.  The polarity timer does nothing while the light is off, so a tick
    racing a shutdown is harmless.  While the light is on a tick flips the
    phase and swaps AIN1 and AIN2, leaving brightness and PWM alone, and two
    ticks bring the state back. *)
Theorem polarity_timer_alternates (s : state) :
  driver_ok (light s) (hw s) ->
  (light_is_on (light s) = false -> polarity_timer_handler s = s)
  /\ (light_is_on (light s) = true ->
      let s1 := polarity_timer_handler s in
      polarity_phase (light s1) = negb (polarity_phase (light s))
      /\ tb6612_ain1 (hw s1) = tb6612_ain2 (hw s)
      /\ tb6612_ain2 (hw s1) = tb6612_ain1 (hw s)
      /\ tb6612_ain1 (hw s1) = negb (tb6612_ain2 (hw s1))
      /\ current_brightness (light s1) = current_brightness (light s)
      /\ pwm_pulse (hw s1) = pwm_pulse (hw s)
      /\ polarity_timer_handler s1 = s).
Proof.
  intros (_ & _ & _ & _ & H5 & H6 & _).
  split; intros Hon.
  - unfold polarity_timer_handler. rewrite Hon. reflexivity.
  - destruct s as [c a w e [cb on ph] t [pp pu a1 a2 sb pt sl] u o].
    cbn [light hw light_is_on polarity_phase tb6612_ain1 tb6612_ain2] in *.
    subst. cbn [andb] in *.
    unfold polarity_timer_handler, set_light, set_hw.
    cbn [light hw light_is_on polarity_phase current_brightness negb
         pwm_period pwm_pulse tb6612_ain1 tb6612_ain2 tb6612_standby
         polarity_timer status_led dev_ctx app_state long_press_work effect
         transition uptime outputs].
    rewrite !negb_involutive. repeat split.
Qed.

Lemma polarity_timer_alternates_witness :
  let s := light_set_brightness 0 128 (boot_state 1000000) in
  polarity_timer_handler (boot_state 1000000) = boot_state 1000000
  /\ polarity_phase (light (polarity_timer_handler s)) = true
  /\ polarity_timer_handler (polarity_timer_handler s) = s.
Proof.
  intros s.
  assert (W0 : driver_ok (light (boot_state 1000000)) (hw (boot_state 1000000)))
    by apply boot_state_well_formed.
  assert (W : driver_ok (light s) (hw s)).
  { apply light_set_brightness_driver_ok; [exact W0 | unfold is_u8; lia]. }
  destruct (polarity_timer_alternates (boot_state 1000000) W0) as (Hoff & _).
  destruct (polarity_timer_alternates s W) as (_ & Hon).
  destruct (Hon eq_refl) as (H1 & _ & _ & _ & _ & _ & H7).
  split; [exact (Hoff eq_refl)|]. split; [exact H1 | exact H7].
Defined.

(** ** Pulse widths *)

Lemma adjacent_le_nth (l : list Z) (i j : nat) :
  non_decreasing l = true -> (i <= j)%nat -> (j < List.length l)%nat ->
  nth i l 0 <= nth j l 0.
Proof.
  intros H Hij Hj. induction Hij as [|j Hij IH]; [lia|].
  assert (L : nth j l 0 <= nth (S j) l 0).
  { apply Z.leb_le.
    exact (adjacent_nth (fun x y => x <=? y) l H j Hj). }
  specialize (IH ltac:(lia)). lia.
Qed.

Lemma cie1931_lut_monotone (a b : Z) :
  is_u8 a -> is_u8 b -> a <= b ->
  0 <= nth (Z.to_nat a) cie1931_lut 0 <= nth (Z.to_nat b) cie1931_lut 0
  /\ nth (Z.to_nat b) cie1931_lut 0 <= 255.
Proof.
  unfold is_u8. intros Ha Hb Hab.
  assert (M : non_decreasing cie1931_lut = true) by (vm_compute; reflexivity).
  assert (Len : List.length cie1931_lut = 256%nat) by (vm_compute; reflexivity).
  assert (Z0 : nth 0 cie1931_lut 0 = 0) by reflexivity.
  assert (Z255 : nth 255 cie1931_lut 0 = 255) by reflexivity.
  pose proof (adjacent_le_nth cie1931_lut 0 (Z.to_nat a) M) as L0.
  pose proof (adjacent_le_nth cie1931_lut (Z.to_nat a) (Z.to_nat b) M) as L1.
  pose proof (adjacent_le_nth cie1931_lut (Z.to_nat b) 255 M) as L2.
  rewrite Len in *. rewrite Z0 in L0. rewrite Z255 in L2.
  specialize (L0 ltac:(lia) ltac:(lia)).
  specialize (L1 ltac:(lia) ltac:(lia)).
  specialize (L2 ltac:(lia) ltac:(lia)).
  lia.
Qed.

(** X3.  For a PWM period that fits its [uint32_t], the pulse width asked
    for never exceeds the period, grows (weakly) with the level, is 0 at
    level 0 and the whole period at level 255. *)
Theorem pulse_of_monotone (period a b : Z) :
  0 <= period < 4294967296 -> is_u8 a -> is_u8 b -> a <= b ->
  0 <= pulse_of period a <= pulse_of period b
  /\ pulse_of period b <= period
  /\ pulse_of period 0 = 0
  /\ pulse_of period 255 = period.
Proof.
  intros Hp Ha Hb Hab.
  assert (P : forall x, is_u8 x ->
            pulse_of period x
            = nth (Z.to_nat x) cie1931_lut 0 * period / 255
            /\ 0 <= nth (Z.to_nat x) cie1931_lut 0 <= 255).
  { intros x Hx.
    destruct (cie1931_lut_monotone x x Hx Hx (Z.le_refl x)) as ((L0 & _) & L1).
    split; [|lia].
    unfold pulse_of, u64, u32.
    rewrite (Z.mod_small (_ * period)) by nia.
    rewrite Z.quot_div_nonneg by nia.
    apply Z.mod_small. split; [apply Z.div_pos; nia|].
    apply Z.div_lt_upper_bound; nia. }
  destruct (P a Ha) as (Ea & Ra). destruct (P b Hb) as (Eb & Rb).
  destruct (cie1931_lut_monotone a b Ha Hb Hab) as ((_ & Lab) & _).
  rewrite Ea, Eb.
  split; [split|split; [|split]].
  - apply Z.div_pos; nia.
  - apply Z.div_le_mono; nia.
  - apply Z.div_le_upper_bound; nia.
  - destruct (P 0 ltac:(unfold is_u8; lia)) as (E0 & _). rewrite E0.
    change (nth (Z.to_nat 0) cie1931_lut 0) with 0. reflexivity.
  - destruct (P 255 ltac:(unfold is_u8; lia)) as (E & _). rewrite E.
    change (nth (Z.to_nat 255) cie1931_lut 0) with 255.
    rewrite Z.mul_comm. apply Z.div_mul. lia.
Qed.

Lemma pulse_of_monotone_witness :
  0 <= pulse_of 1000000 64 <= pulse_of 1000000 200
  /\ pulse_of 1000000 200 <= 1000000
  /\ pulse_of 1000000 0 = 0
  /\ pulse_of 1000000 255 = 1000000.
Proof.
  apply (pulse_of_monotone 1000000 64 200); unfold is_u8; lia.
Defined.

(** ** Fades that start or do not start *)

(** X4.  [light_fade_to] with duration 0, or towards the brightness the
    light already has, schedules nothing and cancels a pending fade: it is
    one [light_set_brightness(target)].  Towards the brightness a consistent
    light already has, with the PWM accepting, it leaves light and
    peripherals exactly as they were. *)
Theorem light_fade_to_without_fade (r target d : Z) (s : state) :
  d = 0 \/ current_brightness (light s) = target ->
  let s' := light_fade_to r target d s in
  transition_work (transition s') = None
  /\ light s' = light (light_set_brightness r target s)
  /\ hw s' = hw (light_set_brightness r target s)
  /\ (r = 0 -> current_brightness (light s') = target)
  /\ (current_brightness (light s) = target -> r = 0 ->
      driver_ok (light s) (hw s) ->
      light s' = light s /\ hw s' = hw s).
Proof.
  intros H s'. subst s'. rewrite light_fade_to_immediate by exact H.
  set (s1 := set_transition _ s).
  destruct (light_set_brightness_frame r target s1) as (_ & _ & _ & _ & Ft & _).
  destruct (light_set_brightness_local r target s1 s eq_refl eq_refl)
    as (Hl & Hh).
  split; [rewrite Ft; reflexivity|].
  split; [exact Hl|]. split; [exact Hh|].
  split.
  - intros ->. rewrite Hl. apply light_set_brightness_ok_level.
  - intros Hc -> (D1 & D2 & D3 & D4 & D5 & D6 & D7).
    rewrite Hl, Hh. rewrite Hc in *.
    rewrite (light_set_brightness_fixed target s Hc D7 D2).
    split; reflexivity.
Qed.

Lemma light_fade_to_without_fade_witness :
  let s' := light_fade_to 0 200 0 (boot_state 1000000) in
  transition_work (transition s') = None
  /\ current_brightness (light s') = 200.
Proof.
  destruct (light_fade_to_without_fade 0 200 0 (boot_state 1000000))
    as (H1 & _ & _ & H4 & _).
  - left. reflexivity.
  - split; [exact H1 | exact (H4 eq_refl)].
Defined.

(** X5.  A new fade replaces the one in progress without trace: whatever the
    fade engine held before ([v]), [light_fade_to] towards another
    brightness leaves the same state, and so do all the ticks that follow;
    the fade runs from the brightness the light has now to the new
    target. *)
Theorem light_fade_to_supersedes
    (r target d : Z) (v : transition_t) (s : state) (rs : list Z) :
  d <> 0 -> current_brightness (light s) <> target ->
  light_fade_to r target d (set_transition v s) = light_fade_to r target d s
  /\ transition (light_fade_to r target d s)
     = {| transition_work := Some (uptime s);
          transition_start := current_brightness (light s);
          transition_target := target;
          transition_elapsed := 0;
          transition_duration := d |}
  /\ transition_ticks rs (light_fade_to r target d (set_transition v s))
     = transition_ticks rs (light_fade_to r target d s).
Proof.
  intros Hd Hc.
  assert (E : light_fade_to r target d (set_transition v s)
              = light_fade_to r target d s).
  { rewrite !light_fade_to_starts by assumption. reflexivity. }
  split; [exact E|]. split; [|rewrite E; reflexivity].
  rewrite light_fade_to_starts by assumption. reflexivity.
Qed.

Lemma light_fade_to_supersedes_witness :
  let old := {| transition_work := Some 40; transition_start := 7;
                transition_target := 99; transition_elapsed := 20;
                transition_duration := 500 |} in
  light_fade_to 0 200 1000 (set_transition old (boot_state 1000000))
  = light_fade_to 0 200 1000 (boot_state 1000000).
Proof.
  intros old.
  apply (light_fade_to_supersedes 0 200 1000 old (boot_state 1000000) []).
  - discriminate.
  - vm_compute. discriminate.
Defined.

(** ** Battery gauge, continued *)

(** Outside the table the result is clamped. *)
Lemma battery_mv_to_percent_clamped (m : Z) :
  (4200 <= m -> battery_mv_to_percent m = 100)
  /\ (m <= 3000 -> battery_mv_to_percent m = 0).
Proof.
  unfold battery_mv_to_percent.
  change (mv (curve 0)) with 4200.
  change (mv (curve (BATTERY_CURVE_SIZE - 1)%nat)) with 3000.
  split; intros H.
  - destruct (4200 <=? m) eqn:E; [reflexivity | apply Z.leb_gt in E; lia].
  - destruct (4200 <=? m) eqn:E; [apply Z.leb_le in E; lia|].
    destruct (m <=? 3000) eqn:E'; [reflexivity | apply Z.leb_gt in E'; lia].
Qed.

Lemma battery_percent_step (m : Z) :
  0 <= battery_mv_to_percent m <= battery_mv_to_percent (m + 1)
  /\ battery_mv_to_percent (m + 1) <= 100.
Proof.
  destruct (battery_mv_to_percent_clamped m) as (Hi & Lo).
  destruct (battery_mv_to_percent_clamped (m + 1)) as (Hi' & Lo').
  destruct (Z_lt_le_dec m 3000) as [H1|H1].
  { rewrite Lo, Lo' by lia. lia. }
  destruct (Z_le_gt_dec 4200 m) as [H2|H2].
  { rewrite Hi, Hi' by lia. lia. }
  assert (C : all_from
                (fun x => (0 <=? battery_mv_to_percent x)
                          && (battery_mv_to_percent x
                              <=? battery_mv_to_percent (x + 1))
                          && (battery_mv_to_percent (x + 1) <=? 100))
                3000 1200 = true) by (vm_compute; reflexivity).
  pose proof (all_from_spec _ 1200 3000 C m ltac:(lia)) as H.
  cbv beta in H.
  apply andb_true_iff in H as [H H3]. apply andb_true_iff in H as [H4 H5].
  apply Z.leb_le in H3, H4, H5. lia.
Qed.

Lemma battery_mv_to_percent_range (m : Z) :
  0 <= battery_mv_to_percent m <= 100.
Proof.
  pose proof (battery_percent_step m).
  pose proof (battery_percent_step (m - 1)) as P.
  replace (m - 1 + 1) with m in P by lia. lia.
Qed.

(** X6.  [battery_mv_to_percent] never decreases as the voltage rises, and
    its result is always a percentage between 0 and 100. *)
Theorem battery_mv_to_percent_monotone (m1 m2 : Z) :
  m1 <= m2 ->
  0 <= battery_mv_to_percent m1 <= battery_mv_to_percent m2
  /\ battery_mv_to_percent m2 <= 100.
Proof.
  intros H.
  assert (G : forall n : nat,
            0 <= battery_mv_to_percent m1
              <= battery_mv_to_percent (m1 + Z.of_nat n)
            /\ battery_mv_to_percent (m1 + Z.of_nat n) <= 100).
  { induction n as [|n IH].
    - rewrite Z.add_0_r.
      pose proof (battery_percent_step m1).
      pose proof (battery_percent_step (m1 - 1)) as P.
      replace (m1 - 1 + 1) with m1 in P by lia. lia.
    - rewrite Nat2Z.inj_succ.
      replace (m1 + Z.succ (Z.of_nat n)) with (m1 + Z.of_nat n + 1) by lia.
      pose proof (battery_percent_step (m1 + Z.of_nat n)). lia. }
  specialize (G (Z.to_nat (m2 - m1))).
  rewrite Z2Nat.id in G by lia.
  replace (m1 + (m2 - m1)) with m2 in G by lia. exact G.
Qed.

Lemma battery_mv_to_percent_monotone_witness :
  0 <= battery_mv_to_percent 3550 <= battery_mv_to_percent 3900
  /\ battery_mv_to_percent 3900 <= 100.
Proof. apply (battery_mv_to_percent_monotone 3550 3900). lia. Defined.

(** The conversion of a 12-bit sample does not wrap. *)
Lemma sample_to_mv_12bit (x : Z) :
  0 <= x <= 4095 -> Gauge.sample_to_mv x = x * 18000 / 4096.
Proof.
  intros H. unfold Gauge.sample_to_mv, u16, u32.
  rewrite (Z.mod_small x) by lia.
  rewrite (Z.mod_small (x * 18000)) by lia.
  rewrite Z.quot_div_nonneg by lia.
  apply Z.mod_small. split; [apply Z.div_pos; lia|].
  apply Z.div_lt_upper_bound; lia.
Qed.

(** The reading stays within what a 12-bit sample can give. *)
Lemma battery_measure_mv_bound (a : Gauge.adc_t) :
  0 <= Gauge.sample a <= 4095 ->
  0 <= fst (Gauge.battery_measure_mv a) <= 17995.
Proof.
  intros Hs. unfold Gauge.battery_measure_mv.
  assert (B : 0 <= Gauge.sample a * 18000 / 4096 <= 17995).
  { split; [apply Z.div_pos; lia|].
    apply Z.lt_succ_r. apply Z.div_lt_upper_bound; lia. }
  destruct (Gauge.adc_dev a), (Gauge.adc_channel_setup_ret a <? 0),
    (Gauge.adc_read_ret a <? 0); cbn [negb fst]; try lia.
  rewrite sample_to_mv_12bit by exact Hs. exact B.
Qed.

(** X7.  For the samples a 12-bit conversion can give, [battery_measure_mv]
    returns [sample * 18000 / 4096] millivolts, at most 17995 and growing
    with the sample; it returns 0, the value its caller takes for a failed
    measurement, exactly when the ADC is missing, the channel setup or the
    read fails, or the sample itself is 0. *)
Theorem battery_measure_mv_range (a : Gauge.adc_t) :
  0 <= Gauge.sample a <= 4095 ->
  let ok := Gauge.adc_dev a
            && negb (Gauge.adc_channel_setup_ret a <? 0)
            && negb (Gauge.adc_read_ret a <? 0) in
  let mv := fst (Gauge.battery_measure_mv a) in
  0 <= mv <= 17995
  /\ (ok = true -> mv = Gauge.sample a * 18000 / 4096)
  /\ (mv = 0 <-> ok = false \/ Gauge.sample a = 0)
  /\ (forall x y, 0 <= x <= y -> y <= 4095 ->
        Gauge.sample_to_mv x <= Gauge.sample_to_mv y).
Proof.
  intros Hs ok mv. subst ok mv. unfold Gauge.battery_measure_mv.
  pose proof (sample_to_mv_12bit (Gauge.sample a) Hs) as E.
  assert (B : 0 <= Gauge.sample a * 18000 / 4096 <= 17995).
  { split; [apply Z.div_pos; lia|].
    apply Z.lt_succ_r. apply Z.div_lt_upper_bound; lia. }
  assert (Z0 : Gauge.sample a * 18000 / 4096 = 0 <-> Gauge.sample a = 0).
  { split; [|intros ->; reflexivity].
    intros H0. destruct (Z.eq_dec (Gauge.sample a) 0) as [?|Hne]; [assumption|].
    assert (1 <= Gauge.sample a * 18000 / 4096)
      by (apply Z.div_le_lower_bound; lia).
    lia. }
  split; [|split; [|split]].
  - destruct (Gauge.adc_dev a), (Gauge.adc_channel_setup_ret a <? 0),
      (Gauge.adc_read_ret a <? 0); cbn [negb fst]; lia.
  - destruct (Gauge.adc_dev a), (Gauge.adc_channel_setup_ret a <? 0),
      (Gauge.adc_read_ret a <? 0); cbn [negb andb fst];
      try discriminate. intros _. exact E.
  - destruct (Gauge.adc_dev a), (Gauge.adc_channel_setup_ret a <? 0),
      (Gauge.adc_read_ret a <? 0); cbn [negb andb fst];
      try (split; [intros _; left; reflexivity | reflexivity]).
    rewrite E. split.
    + intros H0. right. apply Z0. exact H0.
    + intros [H0|H0]; [discriminate | apply Z0; exact H0].
  - intros x y Hx Hy. rewrite !sample_to_mv_12bit by lia.
    apply Z.div_le_mono; lia.
Qed.

Lemma battery_measure_mv_range_witness :
  fst (Gauge.battery_measure_mv
         {| Gauge.adc_dev := true; Gauge.adc_channel_setup_ret := 0;
            Gauge.adc_read_ret := 0; Gauge.sample := 900 |})
  = 900 * 18000 / 4096.
Proof.
  set (a := {| Gauge.adc_dev := true; Gauge.adc_channel_setup_ret := 0;
               Gauge.adc_read_ret := 0; Gauge.sample := 900 |}).
  assert (H : 0 <= Gauge.sample a <= 4095) by (cbn; lia).
  destruct (battery_measure_mv_range a H) as (_ & E & _).
  exact (E eq_refl).
Defined.

(** X8.  Every run of [battery_work] leaves the next one scheduled a full
    interval later, whether or not the measurement worked.  A failed or zero
    measurement changes neither attribute and reports nothing, only logging
    a warning; a good one stores the voltage in units of 100 mV (at most
    179) and twice the interpolated percentage (at most 200), and reports
    the voltage exactly when the device is joined. *)
Theorem battery_work_handler_cycle
    (a : Gauge.adc_t) (joined : bool) (now : Z) (b : Gauge.battery_t) :
  0 <= Gauge.sample a <= 4095 ->
  let mv := fst (Gauge.battery_measure_mv a) in
  let errs := snd (Gauge.battery_measure_mv a) in
  let b' := Gauge.battery_work_handler a joined now b in
  Gauge.battery_work b' = Some (now + Gauge.BATTERY_REPORT_INTERVAL_MS)
  /\ (mv = 0 ->
      Gauge.battery_voltage b' = Gauge.battery_voltage b
      /\ Gauge.battery_percentage b' = Gauge.battery_percentage b
      /\ Gauge.sent b'
         = Gauge.LOG_WRN "Battery measurement failed" :: errs ++ Gauge.sent b)
  /\ (mv <> 0 ->
      Gauge.battery_voltage b' = mv / 100
      /\ 0 <= Gauge.battery_voltage b' <= 179
      /\ Gauge.battery_percentage b' = 2 * battery_mv_to_percent mv
      /\ 0 <= Gauge.battery_percentage b' <= 200
      /\ Gauge.sent b'
         = (if joined then [Gauge.report_battery_voltage (mv / 100)] else [])
           ++ Gauge.LOG_INF "Battery: %u mV (%u%%)" :: Gauge.sent b).
Proof.
  intros Hs mv errs b'. subst mv errs b'.
  pose proof (battery_measure_mv_bound a Hs) as R.
  unfold Gauge.battery_work_handler, Gauge.battery_update_and_report.
  assert (Noerr : fst (Gauge.battery_measure_mv a) <> 0 ->
                  snd (Gauge.battery_measure_mv a) = []).
  { unfold Gauge.battery_measure_mv.
    destruct (Gauge.adc_dev a), (Gauge.adc_channel_setup_ret a <? 0),
      (Gauge.adc_read_ret a <? 0); cbn [negb fst snd];
      intros H; try reflexivity; contradiction H; reflexivity. }
  destruct (Gauge.battery_measure_mv a) as [mv errs]. cbn [fst snd] in *.
  destruct (mv =? 0) eqn:E.
  - apply Z.eqb_eq in E. cbn [Gauge.battery_voltage Gauge.battery_percentage
      Gauge.battery_work Gauge.sent k_work_schedule].
    split; [reflexivity|]. split; [intros _; repeat split | intros H; lia].
  - apply Z.eqb_neq in E. cbn [Gauge.battery_voltage Gauge.battery_percentage
      Gauge.battery_work Gauge.sent k_work_schedule].
    split; [reflexivity|]. split; [intros H; lia|]. intros _.
    destruct (battery_mv_to_percent_range mv) as (P0 & P1).
    assert (V : 0 <= mv / 100 <= 179).
    { split; [apply Z.div_pos; lia|].
      apply Z.lt_succ_r. apply Z.div_lt_upper_bound; lia. }
    rewrite Z.quot_div_nonneg by lia.
    rewrite (u8_id (mv / 100)) by (unfold is_u8; lia).
    rewrite (u8_id (battery_mv_to_percent mv * 2)) by (unfold is_u8; lia).
    rewrite (Noerr E). cbn [app].
    repeat split; try lia.
Qed.

Lemma battery_work_handler_cycle_witness :
  let a := {| Gauge.adc_dev := true; Gauge.adc_channel_setup_ret := 0;
              Gauge.adc_read_ret := -5; Gauge.sample := 900 |} in
  let b := {| Gauge.battery_voltage := 37; Gauge.battery_percentage := 120;
              Gauge.battery_work := None; Gauge.sent := [] |} in
  Gauge.battery_work (Gauge.battery_work_handler a true 5000 b)
  = Some (5000 + Gauge.BATTERY_REPORT_INTERVAL_MS)
  /\ Gauge.battery_voltage (Gauge.battery_work_handler a true 5000 b) = 37.
Proof.
  intros a b.
  assert (H : 0 <= Gauge.sample a <= 4095) by (cbn; lia).
  destruct (battery_work_handler_cycle a true 5000 b H) as (H1 & H2 & _).
  split; [exact H1|]. destruct (H2 eq_refl) as (H3 & _). exact H3.
Defined.

(** ** Persistent settings *)

(** X9.  What [save_light_state] writes, [light_settings_set] reads back:
    after the two records are saved from [s], handing them to the handler
    (in any state [s'], in either order of keys) restores [on_off] and
    [current_level] of [s] and touches nothing else of the attributes or the
    light.  A record of the wrong length is refused with [-EINVAL] and a key
    the handler does not know is accepted and ignored, both leaving the
    state as it was. *)
Theorem light_settings_round_trip (s s' : state) (name : string) (len v : Z) :
  is_u8 (current_level (dev_ctx s)) ->
  let on_off_byte := if on_off (dev_ctx s) then 1 else 0 in
  let r1 := light_settings_set "on_off" sizeof_on_off on_off_byte s' in
  let r2 := light_settings_set "level" sizeof_current_level
              (current_level (dev_ctx s)) (snd r1) in
  outputs (save_light_state s)
  = settings_save_one "light/level" (current_level (dev_ctx s))
    :: settings_save_one "light/on_off" on_off_byte :: outputs s
  /\ fst r1 = 0 /\ fst r2 = 0
  /\ on_off (dev_ctx (snd r2)) = on_off (dev_ctx s)
  /\ current_level (dev_ctx (snd r2)) = current_level (dev_ctx s)
  /\ start_up_on_off (dev_ctx (snd r2)) = start_up_on_off (dev_ctx s')
  /\ start_up_current_level (dev_ctx (snd r2)) = start_up_current_level (dev_ctx s')
  /\ on_off_transition_time (dev_ctx (snd r2)) = on_off_transition_time (dev_ctx s')
  /\ light (snd r2) = light s' /\ hw (snd r2) = hw s'
  /\ (len <> 1 -> name = "on_off"%string \/ name = "level"%string ->
      light_settings_set name len v s' = (- EINVAL, s'))
  /\ (name <> "on_off"%string -> name <> "level"%string ->
      light_settings_set name len v s' = (0, s')).
Proof.
  intros Hl on_off_byte r1 r2. subst r1 r2 on_off_byte.
  unfold light_settings_set, sizeof_on_off, sizeof_current_level.
  cbn [String.eqb Ascii.eqb Bool.eqb Z.eqb Pos.eqb negb fst snd andb].
  frame. rewrite (u8_id _ Hl).
  split; [reflexivity|]. split; [reflexivity|]. split; [reflexivity|].
  split; [destruct (on_off (dev_ctx s)); reflexivity|].
  do 6 (split; [reflexivity|]).
  split.
  - intros Hlen Hn. apply Z.eqb_neq in Hlen.
    destruct Hn as [-> | ->];
      cbn [String.eqb Ascii.eqb Bool.eqb andb]; rewrite Hlen; reflexivity.
  - intros H1 H2. apply String.eqb_neq in H1, H2. rewrite H1, H2. reflexivity.
Qed.

Lemma light_settings_round_trip_witness :
  let s := light_toggle 0 (boot_state 1000000) in
  let r1 := light_settings_set "on_off" 1 1 (boot_state 1000000) in
  let r2 := light_settings_set "level" 1 255 (snd r1) in
  on_off (dev_ctx (snd r2)) = on_off (dev_ctx s)
  /\ current_level (dev_ctx (snd r2)) = current_level (dev_ctx s).
Proof.
  intros s r1 r2.
  assert (H : is_u8 (current_level (dev_ctx s))) by (vm_compute; split; discriminate).
  destruct (light_settings_round_trip s (boot_state 1000000) "other" 1 0 H)
    as (_ & _ & _ & H1 & H2 & _).
  split; [exact H1 | exact H2].
Defined.

(** ** Toggling twice *)

Lemma light_fade_to_app_state (r target d : Z) (s : state) :
  app_state (light_fade_to r target d s) = app_state s.
Proof.
  destruct (Z.eq_dec d 0) as [Hd|Hd];
    [|destruct (Z.eq_dec (current_brightness (light s)) target) as [Hc|Hc]].
  - rewrite light_fade_to_immediate by (left; exact Hd).
    match goal with
    | |- app_state (light_set_brightness ?r ?l ?x) = _ =>
        destruct (light_set_brightness_frame r l x) as (_ & H & _); rewrite H
    end.
    reflexivity.
  - rewrite light_fade_to_immediate by (right; exact Hc).
    match goal with
    | |- app_state (light_set_brightness ?r ?l ?x) = _ =>
        destruct (light_set_brightness_frame r l x) as (_ & H & _); rewrite H
    end.
    reflexivity.
  - rewrite light_fade_to_starts by assumption. reflexivity.
Qed.

(** The attributes and the remembered brightness after one toggle. *)
Lemma light_toggle_attrs (r : Z) (s : state) :
  let s' := light_toggle r s in
  let target := toggle_target_level s in
  on_off (dev_ctx s') = negb (on_off (dev_ctx s))
  /\ current_level (dev_ctx s')
     = (if negb (on_off (dev_ctx s)) then target else current_level (dev_ctx s))
  /\ start_up_on_off (dev_ctx s') = start_up_on_off (dev_ctx s)
  /\ on_off_transition_time (dev_ctx s') = on_off_transition_time (dev_ctx s)
  /\ start_up_current_level (dev_ctx s') = start_up_current_level (dev_ctx s)
  /\ last_brightness (app_state s')
     = (if 0 <? target then target else last_brightness (app_state s)).
Proof.
  intros s' target. subst s'. unfold light_toggle. fold target.
  set (s2 := if _ && _ then _ else _).
  assert (F : on_off (dev_ctx s2) = negb (on_off (dev_ctx s))
              /\ current_level (dev_ctx s2)
                 = (if negb (on_off (dev_ctx s)) then target
                    else current_level (dev_ctx s))
              /\ start_up_on_off (dev_ctx s2) = start_up_on_off (dev_ctx s)
              /\ on_off_transition_time (dev_ctx s2)
                 = on_off_transition_time (dev_ctx s)
              /\ start_up_current_level (dev_ctx s2)
                 = start_up_current_level (dev_ctx s)
              /\ last_brightness (app_state s2) = last_brightness (app_state s)).
  { subst s2. frame.
    destruct (negb (on_off (dev_ctx s))); cbn [andb].
    - destruct (target =? current_level (dev_ctx s)) eqn:E; cbn [negb]; frame;
        repeat split. apply Z.eqb_eq in E. symmetry. exact E.
    - frame. repeat split. }
  destruct F as (F1 & F2 & F3 & F4 & F5 & F6).
  destruct (0 <? target); frame;
    rewrite ?light_fade_to_dev_ctx, ?light_fade_to_app_state;
    repeat split; assumption.
Qed.

(** X10.  With a positive [current_level], toggling twice brings the
    attributes back: On/Off, the level and the startup settings are what
    they were, and the remembered brightness is that level. *)
Theorem light_toggle_twice (r1 r2 : Z) (s : state) :
  0 < current_level (dev_ctx s) ->
  let s2 := light_toggle r2 (light_toggle r1 s) in
  dev_ctx s2 = dev_ctx s
  /\ last_brightness (app_state s2) = current_level (dev_ctx s).
Proof.
  intros Hpos s2. subst s2.
  destruct (light_toggle_attrs r1 s) as (A1 & A2 & A3 & A4 & A5 & A6).
  destruct (light_toggle_attrs r2 (light_toggle r1 s))
    as (B1 & B2 & B3 & B4 & B5 & B6).
  cbv zeta in *. set (s1 := light_toggle r1 s) in *.
  apply Z.ltb_lt in Hpos.
  assert (T1 : negb (on_off (dev_ctx s)) = true ->
               toggle_target_level s = current_level (dev_ctx s)).
  { intros Hn. unfold toggle_target_level. rewrite Hn, Hpos.
    destruct (current_level (dev_ctx s) =? 0) eqn:E; [|reflexivity].
    apply Z.eqb_eq in E. apply Z.ltb_lt in Hpos. lia. }
  assert (T0 : negb (on_off (dev_ctx s)) = false -> toggle_target_level s = 0).
  { intros Hn. unfold toggle_target_level. rewrite Hn. reflexivity. }
  assert (L1 : current_level (dev_ctx s1) = current_level (dev_ctx s)).
  { rewrite A2. destruct (negb (on_off (dev_ctx s))) eqn:Hn; [|reflexivity].
    apply T1. reflexivity. }
  assert (T1' : negb (on_off (dev_ctx s1)) = true ->
                toggle_target_level s1 = current_level (dev_ctx s)).
  { intros Hn. unfold toggle_target_level. rewrite Hn, L1, Hpos.
    destruct (current_level (dev_ctx s) =? 0) eqn:E; [|reflexivity].
    apply Z.eqb_eq in E. apply Z.ltb_lt in Hpos. lia. }
  assert (T0' : negb (on_off (dev_ctx s1)) = false -> toggle_target_level s1 = 0).
  { intros Hn. unfold toggle_target_level. rewrite Hn. reflexivity. }
  split.
  - destruct (dev_ctx (light_toggle r2 s1)) as [o1 o2 o3 o4 o5].
    destruct (dev_ctx s) as [p1 p2 p3 p4 p5] eqn:Ds.
    cbn [on_off start_up_on_off current_level on_off_transition_time
         start_up_current_level] in *.
    rewrite A1 in B1. rewrite negb_involutive in B1.
    rewrite A3 in B3. rewrite A4 in B4. rewrite A5 in B5.
    assert (o3 = p3).
    { rewrite B2. destruct (negb (on_off (dev_ctx s1))) eqn:Hn;
        [apply T1'; reflexivity | exact L1]. }
    congruence.
  - rewrite B6. rewrite A1, negb_involutive in T1', T0'.
    destruct (on_off (dev_ctx s)) eqn:Hon; cbn [negb] in *.
    + rewrite (T1' eq_refl), Hpos. reflexivity.
    + rewrite (T0' eq_refl). cbn [Z.ltb Z.compare].
      rewrite A6, (T1 eq_refl), Hpos. reflexivity.
Qed.

Lemma light_toggle_twice_witness :
  dev_ctx (light_toggle 0 (light_toggle 0 (boot_state 1000000)))
  = dev_ctx (boot_state 1000000)
  /\ last_brightness
       (app_state (light_toggle 0 (light_toggle 0 (boot_state 1000000))))
     = 255.
Proof.
  apply (light_toggle_twice 0 0 (boot_state 1000000)). cbn. lia.
Defined.

(** ** Fades move one way and arrive *)

Lemma quot_scale_monotone (a e1 e2 d : Z) :
  0 <= a -> 0 <= e1 <= e2 -> 0 < d ->
  0 <= Z.quot (a * e1) d <= Z.quot (a * e2) d.
Proof.
  intros Ha He Hd. rewrite !Z.quot_div_nonneg by nia.
  split; [apply Z.div_pos; nia | apply Z.div_le_mono; nia].
Qed.

(** X11.  A fade never steps back.  For a fade of at most 65520 ms, the
    brightness written at an earlier tick lies between the starting
    brightness and the brightness written at any later tick, which in turn
    lies between it and the target: upwards the written levels only grow,
    downwards they only shrink, whatever the PWM answered at the ticks in
    between. *)
Theorem fade_never_steps_back (s : state) (target d r0 : Z)
    (rs1 rs2 : list Z) :
  is_u8 (current_brightness (light s)) -> is_u8 target ->
  0 < d <= 65520 -> current_brightness (light s) <> target ->
  (List.length rs1 <= List.length rs2)%nat ->
  20 * (Z.of_nat (List.length rs2) + 1) < d ->
  let start := current_brightness (light s) in
  let s0 := light_fade_to r0 target d s in
  let b1 := current_brightness (light (transition_ticks (rs1 ++ [0]) s0)) in
  let b2 := current_brightness (light (transition_ticks (rs2 ++ [0]) s0)) in
  (start <= target -> start <= b1 /\ b1 <= b2 /\ b2 <= target)
  /\ (target <= start -> target <= b2 /\ b2 <= b1 /\ b1 <= start).
Proof.
  intros Hs Ht Hd Hne Hlen Hk start s0 b1 b2.
  destruct (fade_ticks_below_wrap s target d r0 Hs Ht Hd Hne rs1 0)
    as (_ & A & _); [lia|].
  destruct (fade_ticks_below_wrap s target d r0 Hs Ht Hd Hne rs2 0)
    as (_ & B & _); [lia|].
  destruct A as (_ & A); [lia|]. destruct (A eq_refl) as (A1 & _).
  destruct B as (_ & B); [lia|]. destruct (B eq_refl) as (B1 & B2).
  fold s0 in A1, B1, B2. fold b1 in A1. fold b2 in B1, B2. fold start in A1, B1, B2.
  set (k1 := Z.of_nat (List.length rs1) + 1) in *.
  set (k2 := Z.of_nat (List.length rs2) + 1) in *.
  assert (Hk12 : 0 <= 20 * k1 <= 20 * k2) by (subst k1 k2; lia).
  split.
  - intros Hup.
    destruct (quot_scale_monotone (target - start) (20 * k1) (20 * k2) d)
      as (Q1 & Q2); [lia | lia | lia |].
    lia.
  - intros Hdown.
    destruct (quot_scale_monotone (start - target) (20 * k1) (20 * k2) d)
      as (Q1 & Q2); [lia | lia | lia |].
    assert (E1 : (target - start) * (20 * k1) = - ((start - target) * (20 * k1)))
      by ring.
    assert (E2 : (target - start) * (20 * k2) = - ((start - target) * (20 * k2)))
      by ring.
    rewrite E1, Z.quot_opp_l in A1 by lia.
    rewrite E2, Z.quot_opp_l in B1 by lia.
    lia.
Qed.

Lemma fade_never_steps_back_witness :
  let s0 := light_fade_to 0 255 1000 (boot_state 1000000) in
  let b1 := current_brightness (light (transition_ticks ([0] ++ [0]) s0)) in
  let b2 := current_brightness (light (transition_ticks ([0; 5; 0] ++ [0]) s0)) in
  0 <= b1 /\ b1 <= b2 /\ b2 <= 255.
Proof.
  intros s0 b1 b2.
  assert (H1 : is_u8 (current_brightness (light (boot_state 1000000))))
    by (vm_compute; split; discriminate).
  assert (H2 : is_u8 255) by (vm_compute; split; discriminate).
  assert (H3 : 0 < 1000 <= 65520) by lia.
  assert (H4 : current_brightness (light (boot_state 1000000)) <> 255)
    by (vm_compute; discriminate).
  assert (H5 : (List.length [0] <= List.length [0; 5; 0])%nat)
    by (cbn; lia).
  assert (H6 : 20 * (Z.of_nat (List.length [0; 5; 0]) + 1) < 1000)
    by (cbn; lia).
  destruct (fade_never_steps_back (boot_state 1000000) 255 1000 0
              [0] [0; 5; 0] H1 H2 H3 H4 H5 H6) as (Hup & _).
  apply Hup. vm_compute. discriminate.
Defined.

(** The ticks of a fade that starts with [elapsed = 0], as long as the
    16-bit [elapsed] stays below the duration: the [n]-th run leaves
    [elapsed = 20 n mod 65536] and the work scheduled. *)
Lemma transition_ticks_wrapping (rs : list Z) : forall (s : state),
  transition_elapsed (transition s) = 0 ->
  (forall j, 1 <= j <= Z.of_nat (List.length rs) ->
             u16 (20 * j) < transition_duration (transition s)) ->
  let s' := transition_ticks rs s in
  transition_start (transition s') = transition_start (transition s)
  /\ transition_target (transition s') = transition_target (transition s)
  /\ transition_duration (transition s') = transition_duration (transition s)
  /\ transition_elapsed (transition s') = u16 (20 * Z.of_nat (List.length rs))
  /\ (rs <> [] -> transition_work (transition s') <> None).
Proof.
  induction rs as [|r rs IH] using rev_ind; intros s He Hj.
  - cbn. rewrite He. repeat split; try reflexivity. intros H. contradiction H.
    reflexivity.
  - cbv zeta. rewrite transition_ticks_app. cbn [transition_ticks].
    rewrite length_app in *. cbn [List.length] in *.
    destruct (IH s He) as (I1 & I2 & I3 & I4 & _); [intros j Hjj; apply Hj; lia|].
    set (s1 := transition_ticks rs s) in *.
    destruct (transition_tick_spec r s1) as (Ht & _).
    rewrite I1, I2, I3, I4 in Ht. unfold TRANSITION_STEP_MS in Ht.
    assert (E : u16 (u16 (20 * Z.of_nat (List.length rs)) + 20)
                = u16 (20 * Z.of_nat (List.length rs + 1))).
    { unfold u16. rewrite Z.add_mod_idemp_l by lia. f_equal. lia. }
    rewrite E in Ht.
    assert (L : (transition_duration (transition s)
                 <=? u16 (20 * Z.of_nat (List.length rs + 1))) = false).
    { apply Z.leb_gt. apply Hj. lia. }
    rewrite L in Ht. rewrite Ht. cbn.
    repeat split; try reflexivity. discriminate.
Qed.

(** The first number from 1 on at which a decidable property holds. *)
Lemma first_tick (P : nat -> bool) (n : nat) :
  (1 <= n)%nat -> P n = true ->
  exists m, (1 <= m <= n)%nat /\ P m = true
            /\ forall k, (1 <= k < m)%nat -> P k = false.
Proof.
  intros Hn Hp.
  assert (S : forall b, (forall k, (1 <= k < b)%nat -> P k = false)
                        \/ exists m, (1 <= m < b)%nat /\ P m = true
                             /\ forall k, (1 <= k < m)%nat -> P k = false).
  { induction b as [|b IH]; [left; intros k Hk; lia|].
    destruct IH as [IH|IH].
    - destruct (Nat.eq_dec b 0) as [->|Hb]; [left; intros k Hk; lia|].
      destruct (P b) eqn:Pb.
      + right. exists b. split; [lia|]. split; [exact Pb | exact IH].
      + left. intros k Hk. destruct (Nat.eq_dec k b) as [->|Hkb];
          [exact Pb | apply IH; lia].
    - right. destruct IH as (m & Hm & Pm & Hl). exists m.
      split; [lia|]. split; assumption. }
  destruct (S n) as [H|(m & Hm & Pm & Hl)].
  - exists n. split; [lia|]. split; assumption.
  - exists m. split; [lia|]. split; assumption.
Qed.

Lemma arrival_tick_spec (d : Z) :
  0 < d <= 65532 -> d mod 4 = 0 ->
  u16 (20 * arrival_tick d) = d /\ 0 < arrival_tick d < 16384.
Proof.
  intros Hd H4.
  pose proof (Z.div_mod d 4) as D. rewrite H4 in D.
  assert (Hm : 1 <= d / 4 < 1 + Z.of_nat (Z.to_nat 16383)) by lia.
  pose proof (all_from_spec arrival_ok (Z.to_nat 16383) 1) as A.
  assert (Hall : all_from arrival_ok 1 (Z.to_nat 16383) = true)
    by (vm_compute; reflexivity).
  specialize (A Hall (d / 4) Hm). unfold arrival_ok in A.
  assert (E : 4 * (d / 4) = d) by lia. rewrite E in A.
  apply andb_true_iff in A as [A1 A2].
  apply Z.eqb_eq in A1. apply Z.ltb_lt in A2.
  split; [exact A1|]. split; [exact A2|].
  unfold arrival_tick. apply Z.mod_pos_bound. lia.
Qed.

(** A fade whose duration is a multiple of 4 up to 65532 ms arrives, also
    past the 16-bit wrap of [elapsed]: some run of the handler, at most the
    16383rd, finds [elapsed >= duration], writes the target and schedules
    nothing; every run before it reschedules. *)
Lemma fade_arrives (s : state) :
  transition_elapsed (transition s) = 0 ->
  0 < transition_duration (transition s) <= 65532 ->
  transition_duration (transition s) mod 4 = 0 ->
  exists n, 1 <= Z.of_nat n <= 16383
    /\ transition_work (transition (transition_ticks (repeat 0 n) s)) = None
    /\ current_brightness (light (transition_ticks (repeat 0 n) s))
       = transition_target (transition s)
    /\ forall k, (1 <= k < n)%nat ->
         transition_work (transition (transition_ticks (repeat 0 k) s)) <> None.
Proof.
  intros He Hd H4.
  set (d := transition_duration (transition s)) in *.
  destruct (arrival_tick_spec d Hd H4) as (Ha & Hb).
  set (P := fun k : nat => d <=? u16 (20 * Z.of_nat k)).
  destruct (first_tick P (Z.to_nat (arrival_tick d))) as (n & Hn & Pn & Hl).
  { lia. }
  { unfold P. rewrite Z2Nat.id by lia. rewrite Ha. apply Z.leb_refl. }
  assert (Run : forall k, (k < n)%nat ->
            forall j, 1 <= j <= Z.of_nat (List.length (repeat 0 k)) ->
                      u16 (20 * j) < transition_duration (transition s)).
  { intros k Hk j Hj. rewrite repeat_length in Hj. fold d.
    assert (Pj : P (Z.to_nat j) = false) by (apply Hl; lia).
    unfold P in Pj. rewrite Z2Nat.id in Pj by lia. apply Z.leb_gt in Pj.
    exact Pj. }
  exists n. split; [lia|].
  destruct n as [|n]; [lia|].
  assert (R : repeat 0 (S n) = repeat 0 n ++ [0]).
  { change [0] with (repeat 0 1). rewrite <- repeat_app. f_equal. lia. }
  rewrite R, transition_ticks_app. cbn [transition_ticks].
  destruct (transition_ticks_wrapping (repeat 0 n) s He (Run n (Nat.lt_succ_diag_r n)))
    as (I1 & I2 & I3 & I4 & _).
  set (s1 := transition_ticks (repeat 0 n) s) in *.
  destruct (transition_tick_spec 0 s1) as (Ht & Hli & _).
  rewrite I1, I2, I3, I4 in Ht, Hli. unfold TRANSITION_STEP_MS in Ht, Hli.
  rewrite repeat_length in Ht, Hli.
  assert (E : u16 (u16 (20 * Z.of_nat n) + 20) = u16 (20 * Z.of_nat (S n))).
  { unfold u16. rewrite Z.add_mod_idemp_l by lia. f_equal. lia. }
  rewrite E in Ht, Hli. unfold P in Pn. fold d in Ht, Hli. rewrite Pn in Ht, Hli.
  split; [rewrite Ht; reflexivity|].
  split; [rewrite Hli; apply light_set_brightness_ok_level|].
  intros k Hk.
  destruct (transition_ticks_wrapping (repeat 0 k) s He (Run k ltac:(lia)))
    as (_ & _ & _ & _ & W).
  apply W. destruct k; [lia | discriminate].
Qed.

Lemma toggle_transition_ms_fits (s : state) :
  0 < toggle_transition_ms s <= 65532 /\ toggle_transition_ms s mod 4 = 0.
Proof.
  unfold toggle_transition_ms.
  set (t := on_off_transition_time (dev_ctx s)).
  assert (B : 0 <= u16 (t * 100) < 65536) by (apply Z.mod_pos_bound; lia).
  assert (M : u16 (t * 100) mod 4 = 0).
  { unfold u16.
    rewrite (Z.mod_mod_divide (t * 100) 65536 4)
      by (exists 16384; reflexivity).
    replace (t * 100) with (t * 25 * 4) by ring. apply Z.mod_mul. lia. }
  destruct (u16 (t * 100) =? 0) eqn:E; [split; [lia | reflexivity]|].
  apply Z.eqb_neq in E. split; [|exact M].
  pose proof (Z.div_mod (u16 (t * 100)) 4) as D. rewrite M in D. lia.
Qed.

Lemma light_toggle_transition (r : Z) (s : state) :
  current_brightness (light s) <> toggle_target_level s ->
  transition (light_toggle r s)
  = {| transition_work := Some (uptime s);
       transition_start := current_brightness (light s);
       transition_target := toggle_target_level s;
       transition_elapsed := 0;
       transition_duration := toggle_transition_ms s |}.
Proof.
  intros Hne. unfold light_toggle.
  set (target := toggle_target_level s) in *.
  set (s2 := if _ && _ then _ else _).
  assert (F2 : light s2 = light s /\ uptime s2 = uptime s).
  { subst s2. destruct (_ && _); frame; split; reflexivity. }
  destruct F2 as (Hl2 & Hu2).
  rewrite light_fade_to_starts
    by (try apply toggle_transition_ms_nonzero; rewrite Hl2; exact Hne).
  destruct (0 <? target); frame; rewrite Hl2, Hu2; reflexivity.
Qed.

(** X12.  Every fade a toggle starts comes to an end, whatever
    [on_off_transition_time] holds: the duration [light_toggle] computes is
    a multiple of 4 between 4 and 65532 ms, so although [elapsed] may wrap
    around 65536 on the way, within 16383 runs of [transition_work_handler]
    (PWM accepting) one run finds [elapsed >= duration], writes the toggle's
    target level and schedules nothing more, while every run before it
    reschedules the fade. *)
Theorem light_toggle_fade_arrives (r : Z) (s : state) :
  current_brightness (light s) <> toggle_target_level s ->
  exists n, 1 <= Z.of_nat n <= 16383
    /\ transition_work
         (transition (transition_ticks (repeat 0 n) (light_toggle r s))) = None
    /\ current_brightness
         (light (transition_ticks (repeat 0 n) (light_toggle r s)))
       = toggle_target_level s
    /\ forall k, (1 <= k < n)%nat ->
         transition_work
           (transition (transition_ticks (repeat 0 k) (light_toggle r s)))
         <> None.
Proof.
  intros Hne.
  pose proof (light_toggle_transition r s Hne) as T.
  destruct (toggle_transition_ms_fits s) as (F1 & F2).
  destruct (fade_arrives (light_toggle r s)) as (n & Hn & W & B & K).
  - rewrite T. reflexivity.
  - rewrite T. exact F1.
  - rewrite T. exact F2.
  - exists n. rewrite T in B. split; [exact Hn|]. split; [exact W|].
    split; [exact B | exact K].
Qed.

Lemma light_toggle_fade_arrives_witness :
  exists n, 1 <= Z.of_nat n <= 16383
    /\ current_brightness
         (light (transition_ticks (repeat 0 n)
                   (light_toggle 0 long_fade_state)))
       = toggle_target_level long_fade_state.
Proof.
  assert (H : current_brightness (light long_fade_state)
              <> toggle_target_level long_fade_state)
    by (vm_compute; discriminate).
  destruct (light_toggle_fade_arrives 0 long_fade_state H)
    as (n & Hn & _ & B & _).
  exists n. split; [exact Hn | exact B].
Defined.

(** ** Hardware initialisation *)

(** What [tb6612_init] does to the state: on success the three lines are
    low and the timer stopped, on failure no line has been raised; nothing
    else moves. *)
Lemma tb6612_init_spec (e : init_env) (s : state) :
  let ret := fst (tb6612_init e s) in
  let s' := snd (tb6612_init e s) in
  ret <= 0
  /\ (ret = 0 <-> ain1_ready e = true /\ ain2_ready e = true
                  /\ standby_ready e = true /\ 0 <= ain1_configure e
                  /\ 0 <= ain2_configure e /\ 0 <= standby_configure e)
  /\ (ret = 0 -> tb6612_ain1 (hw s') = false /\ tb6612_ain2 (hw s') = false
                 /\ tb6612_standby (hw s') = false
                 /\ polarity_timer (hw s') = false)
  /\ (tb6612_standby (hw s') = true -> tb6612_standby (hw s) = true)
  /\ light s' = light s /\ pwm_period (hw s') = pwm_period (hw s)
  /\ pwm_pulse (hw s') = pwm_pulse (hw s)
  /\ status_led (hw s') = status_led (hw s)
  /\ dev_ctx s' = dev_ctx s /\ app_state s' = app_state s
  /\ long_press_work s' = long_press_work s /\ effect s' = effect s
  /\ transition s' = transition s.
Proof.
  unfold tb6612_init, ENODEV.
  destruct (ain1_ready e), (ain2_ready e), (standby_ready e); cbn [negb];
    try (cbn [fst snd]; frame;
         repeat split; try reflexivity; try lia; try tauto;
         intros (? & ? & ? & _); discriminate).
  destruct (ain1_configure e <? 0) eqn:C1;
    [apply Z.ltb_lt in C1; cbn [fst snd]; frame;
     repeat split; try reflexivity; try lia; tauto|].
  apply Z.ltb_ge in C1.
  destruct (ain2_configure e <? 0) eqn:C2;
    [apply Z.ltb_lt in C2; cbn [fst snd]; unfold configure_ain1; frame;
     repeat split; try reflexivity; try lia; tauto|].
  apply Z.ltb_ge in C2.
  destruct (standby_configure e <? 0) eqn:C3;
    [apply Z.ltb_lt in C3; cbn [fst snd];
     unfold configure_ain1, configure_ain2; frame;
     repeat split; try reflexivity; try lia; tauto|].
  apply Z.ltb_ge in C3. cbn [fst snd].
  unfold configure_ain1, configure_ain2, configure_standby, init_polarity_timer.
  frame. repeat split; try reflexivity; try lia; try tauto.
Qed.

Lemma button_init_spec (e : init_env) (s : state) :
  let ret := fst (button_init e s) in
  let s' := snd (button_init e s) in
  ret <= 0
  /\ (ret = 0 <-> button_ready e = true /\ 0 <= button_configure e
                  /\ 0 <= button_interrupt_configure e
                  /\ 0 <= button_add_callback e)
  /\ (ret = 0 -> long_press_work s' = None)
  /\ light s' = light s /\ hw s' = hw s
  /\ dev_ctx s' = dev_ctx s /\ app_state s' = app_state s
  /\ effect s' = effect s /\ transition s' = transition s.
Proof.
  unfold button_init, ENODEV.
  destruct (button_ready e); cbn [negb];
    [|cbn [fst snd]; frame; repeat split; try reflexivity; try lia;
      intros (? & _); discriminate].
  destruct (button_configure e <? 0) eqn:C1;
    [apply Z.ltb_lt in C1; cbn [fst snd]; frame;
     repeat split; try reflexivity; try lia; tauto|].
  apply Z.ltb_ge in C1.
  destruct (button_interrupt_configure e <? 0) eqn:C2;
    [apply Z.ltb_lt in C2; cbn [fst snd]; frame;
     repeat split; try reflexivity; try lia; tauto|].
  apply Z.ltb_ge in C2.
  destruct (button_add_callback e <? 0) eqn:C3;
    [apply Z.ltb_lt in C3; cbn [fst snd]; frame;
     repeat split; try reflexivity; try lia; tauto|].
  apply Z.ltb_ge in C3. cbn [fst snd]. frame.
  repeat split; try reflexivity; try lia; tauto.
Qed.

Lemma battery_init_spec (e : init_env) (s : state) :
  let s' := snd (battery_init e s) in
  light s' = light s /\ hw s' = hw s /\ dev_ctx s' = dev_ctx s
  /\ app_state s' = app_state s /\ long_press_work s' = long_press_work s
  /\ effect s' = effect s /\ transition s' = transition s.
Proof.
  unfold battery_init. destruct (adc_ready e); cbn [negb fst snd]; frame;
    repeat split.
Qed.


(** X13.  [hardware_init] returns 0 or a negative code, and 0 exactly when
    the PWM, the three H-bridge lines and the button are ready and
    configure: neither the status LED, nor the ADC of the battery gauge,
    nor the answer of the PWM to the closing [light_set_brightness(0)] can
    make it fail.  When it fails, or when that write is refused, the
    recorded brightness, the on flag and the PWM pulse are what they were,
    and the H-bridge has not been taken out of standby. *)
Theorem hardware_init_result (e : init_env) (pwm_ret : Z) (s : state) :
  let ret := fst (fst (hardware_init e pwm_ret s)) in
  let s' := snd (hardware_init e pwm_ret s) in
  ret <= 0
  /\ (ret = 0 <-> required_hardware_ok e)
  /\ (ret < 0 \/ pwm_ret <> 0 ->
      light s' = light s /\ pwm_pulse (hw s') = pwm_pulse (hw s)
      /\ (tb6612_standby (hw s') = true -> tb6612_standby (hw s) = true)).
Proof.
  unfold hardware_init, required_hardware_ok, ENODEV.
  destruct (pwm_ready e); cbn [negb];
    [|cbn [fst snd]; frame; repeat split; try reflexivity; try lia; try tauto;
      intros (? & _); discriminate].
  set (s0 := emit _ s).
  destruct (tb6612_init_spec e s0)
    as (T1 & T2 & T3 & T4 & T5 & T6 & T7 & T8 & _).
  destruct (tb6612_init e s0) as [r1 s1]. cbn [fst snd] in *.
  destruct (r1 <? 0) eqn:R1.
  { apply Z.ltb_lt in R1. cbn [fst snd].
    split; [lia|].
    split; [split; [lia | intros (_ & H1 & H2 & H3 & H4 & H5 & H6 & _);
                          assert (r1 = 0) by (apply T2; tauto); lia]|].
    intros _. rewrite T5, T7. subst s0. frame.
    split; [reflexivity|]. split; [reflexivity | exact T4]. }
  apply Z.ltb_ge in R1. assert (R0 : r1 = 0) by lia.
  set (p := if status_led_ready e then _ else _).
  assert (P : light (snd p) = light s1 /\ pwm_pulse (hw (snd p)) = pwm_pulse (hw s1)
              /\ tb6612_standby (hw (snd p)) = tb6612_standby (hw s1)).
  { subst p. destruct (status_led_ready e); [|repeat split].
    destruct (status_led_configure e <? 0); [repeat split|].
    cbn [snd]. unfold configure_status_led. frame. repeat split. }
  destruct P as (P1 & P2 & P3). destruct p as [w s2]. cbn [snd] in *.
  destruct (button_init_spec e s2) as (B1 & B2 & _ & B4 & B5 & _).
  destruct (button_init e s2) as [r2 s3]. cbn [fst snd] in *.
  destruct (r2 <? 0) eqn:R2.
  { apply Z.ltb_lt in R2. cbn [fst snd].
    split; [lia|].
    split; [split; [lia | intros (_ & _ & _ & _ & _ & _ & _ & H);
                           assert (r2 = 0) by (apply B2; exact H); lia]|].
    intros _. rewrite B4, B5, P1, P2, P3, T5, T7. subst s0. frame.
    split; [reflexivity|]. split; [reflexivity | exact T4]. }
  apply Z.ltb_ge in R2.
  destruct (battery_init_spec e s3) as (A1 & A2 & _).
  destruct (battery_init e s3) as [r3 s4]. cbn [fst snd] in *.
  split; [lia|].
  split.
  { split; [intros _|reflexivity].
    apply T2 in R0. assert (R20 : r2 = 0) by lia. apply B2 in R20.
    split; [reflexivity|]. tauto. }
  intros [H|H]; [lia|].
  rewrite (light_set_brightness_fail pwm_ret 0 _ H). frame.
  rewrite A1, A2, B4, B5, P1, P2, P3, T5, T7. subst s0. frame.
  split; [reflexivity|]. split; [reflexivity | exact T4].
Qed.

(** X14.  A successful [hardware_init] whose closing write the PWM accepts
    leaves the light dark with the actuator consistent, whatever the state
    before: brightness 0, pulse 0, H-bridge in standby with both inputs
    low, polarity timer stopped, and no effect, fade or long-press timer
    pending.  The attributes are not touched. *)
Theorem hardware_init_starts_dark (e : init_env) (s : state) :
  fst (fst (hardware_init e 0 s)) = 0 ->
  let s' := snd (hardware_init e 0 s) in
  driver_ok (light s') (hw s')
  /\ current_brightness (light s') = 0 /\ light_is_on (light s') = false
  /\ pwm_pulse (hw s') = 0
  /\ tb6612_standby (hw s') = false /\ tb6612_ain1 (hw s') = false
  /\ tb6612_ain2 (hw s') = false /\ polarity_timer (hw s') = false
  /\ effect_work (effect s') = None
  /\ transition_work (transition s') = None
  /\ long_press_work s' = None
  /\ dev_ctx s' = dev_ctx s /\ app_state s' = app_state s.
Proof.
  unfold hardware_init, ENODEV.
  destruct (pwm_ready e); cbn [negb]; [|cbn [fst snd]; lia].
  set (s0 := emit _ s).
  destruct (tb6612_init_spec e s0)
    as (T1 & T2 & T3 & T4 & T5 & T6 & T7 & T8 & T9 & T10 & _).
  destruct (tb6612_init e s0) as [r1 s1]. cbn [fst snd] in *.
  destruct (r1 <? 0) eqn:R1; [apply Z.ltb_lt in R1; cbn [fst snd]; lia|].
  apply Z.ltb_ge in R1. assert (R0 : r1 = 0) by lia.
  destruct (T3 R0) as (L1 & L2 & L3 & L4).
  set (p := if status_led_ready e then _ else _).
  assert (P : light (snd p) = light s1
              /\ tb6612_ain1 (hw (snd p)) = tb6612_ain1 (hw s1)
              /\ tb6612_ain2 (hw (snd p)) = tb6612_ain2 (hw s1)
              /\ tb6612_standby (hw (snd p)) = tb6612_standby (hw s1)
              /\ polarity_timer (hw (snd p)) = polarity_timer (hw s1)
              /\ dev_ctx (snd p) = dev_ctx s1
              /\ app_state (snd p) = app_state s1).
  { subst p. destruct (status_led_ready e); [|repeat split].
    destruct (status_led_configure e <? 0); [repeat split|].
    cbn [snd]. unfold configure_status_led. frame. repeat split. }
  destruct P as (P1 & P2 & P3 & P4 & P5 & P6 & P7).
  destruct p as [w s2]. cbn [snd] in *.
  destruct (button_init_spec e s2) as (B1 & B2 & B3 & B4 & B5 & B6 & B7 & _).
  destruct (button_init e s2) as [r2 s3]. cbn [fst snd] in *.
  destruct (r2 <? 0) eqn:R2; [apply Z.ltb_lt in R2; cbn [fst snd]; lia|].
  apply Z.ltb_ge in R2. assert (R20 : r2 = 0) by lia.
  destruct (battery_init_spec e s3) as (A1 & A2 & A3 & A4 & A5 & _).
  destruct (battery_init e s3) as [r3 s4]. cbn [fst snd] in *.
  intros _.
  set (s5 := clear_transition_work (clear_effect_work s4)).
  assert (H5 : hw s5 = hw s2 /\ light s5 = light s /\ dev_ctx s5 = dev_ctx s
               /\ app_state s5 = app_state s /\ long_press_work s5 = None
               /\ effect_work (effect s5) = None
               /\ transition_work (transition s5) = None).
  { subst s5. frame. rewrite A1, A2, A3, A4, A5, B4, B5, B6, B7, P1, P6, P7,
      T5, T9, T10, (B3 R20). subst s0. frame. repeat split. }
  destruct H5 as (H1 & H2 & H3 & H4 & H6 & H7 & H8).
  assert (U0 : is_u8 0) by (unfold is_u8; lia).
  destruct (light_set_brightness_ok_post 0 s5 U0) as (Q1 & Q2 & Q3).
  destruct (light_set_brightness_frame 0 0 s5) as (F1 & F2 & F3 & F4 & F5 & _).
  cbv zeta in *. set (s6 := light_set_brightness 0 0 s5) in *.
  assert (Pz : forall p, pulse_of p 0 = 0).
  { intros q. unfold pulse_of. cbn. reflexivity. }
  assert (Hb : tb6612_standby (hw s6) = false /\ tb6612_ain1 (hw s6) = false
               /\ tb6612_ain2 (hw s6) = false
               /\ polarity_timer (hw s6) = false).
  { subst s6. unfold light_set_brightness.
    change (negb (0 =? 0)) with false. cbv iota.
    change (0 <? 0) with false. change (0 =? 0) with true. cbn [andb].
    frame. destruct (light_is_on (light s5)) eqn:On.
    - unfold tb6612_off. frame. repeat split.
    - frame. rewrite H1, P2, P3, P4, P5, L1, L2, L3, L4. repeat split. }
  destruct Hb as (G1 & G2 & G3 & G4).
  change (0 <? 0) with false in Q3. rewrite Pz in Q2.
  split.
  { unfold driver_ok. rewrite Q1, Q2, Q3, G1, G2, G3, G4, Pz.
    split; [exact U0|]. repeat split. }
  rewrite F1, F2, F3, F4, F5, H3, H4, H6, H7, H8.
  repeat split; assumption.
Qed.

Lemma hardware_init_starts_dark_witness :
  let e := {| pwm_ready := true; ain1_ready := true; ain2_ready := true;
              standby_ready := true; ain1_configure := 0;
              ain2_configure := 0; standby_configure := 0;
              status_led_ready := false; status_led_configure := -5;
              button_ready := true; button_configure := 0;
              button_interrupt_configure := 0; button_add_callback := 0;
              adc_ready := false |} in
  let s := light_toggle 0 (boot_state 1000000) in
  fst (fst (hardware_init e 0 s)) = 0
  /\ current_brightness (light (snd (hardware_init e 0 s))) = 0
  /\ transition_work (transition (snd (hardware_init e 0 s))) = None.
Proof.
  intros e s.
  assert (H : fst (fst (hardware_init e 0 s)) = 0) by (vm_compute; reflexivity).
  destruct (hardware_init_starts_dark e s H)
    as (_ & H1 & _ & _ & _ & _ & _ & _ & _ & H2 & _).
  split; [exact H|]. split; [exact H1 | exact H2].
Defined.

(** ** Status LED *)

Lemma blink_unjoined_spec (n : nat) : forall (now : Z) (l : status_led_t),
  led (blink_unjoined n now l) = (if Nat.even n then led l else negb (led l))
  /\ ((0 < n)%nat ->
      status_led_work (blink_unjoined n now l)
      = Some (now + 500 * Z.of_nat n)).
Proof.
  induction n as [|n IH]; intros now l.
  - cbn. split; [reflexivity | lia].
  - cbn [blink_unjoined].
    destruct (IH (now + 500) (status_led_work_handler true false now l))
      as (I1 & I2).
    rewrite I1.
    unfold status_led_work_handler in *. cbn [negb led status_led_work] in *.
    split.
    + rewrite Nat.even_succ, <- Nat.negb_even.
      destruct (Nat.even n); cbn [negb]; [reflexivity|].
      apply negb_involutive.
    + intros _. destruct n as [|n].
      * cbn. reflexivity.
      * rewrite I2 by lia. f_equal. lia.
Qed.

(** X15.  The status LED follows the network state.  Once the device has
    joined, both [update_status_led] and the next run of
    [status_led_work] turn the LED off and leave nothing scheduled.  While
    it has not joined, [update_status_led] leaves the work scheduled and a
    second call changes nothing (no second schedule, no restart of the
    phase); the runs then follow one another every 500 ms, each toggling
    the LED, so that after [n] runs it shows its first value exactly when
    [n] is even.  When the LED's port is not ready neither function touches
    anything. *)
Theorem status_led_follows_network
    (joined : bool) (now now' : Z) (n : nat) (l : status_led_t) :
  led (update_status_led true true now l) = false
  /\ status_led_work (update_status_led true true now l) = None
  /\ led (status_led_work_handler true true now l) = false
  /\ status_led_work (status_led_work_handler true true now l) = None
  /\ status_led_work (update_status_led true false now l) <> None
  /\ update_status_led true false now' (update_status_led true false now l)
     = update_status_led true false now l
  /\ led (blink_unjoined n now l)
     = (if Nat.even n then led l else negb (led l))
  /\ ((0 < n)%nat ->
      status_led_work (blink_unjoined n now l) = Some (now + 500 * Z.of_nat n))
  /\ update_status_led false joined now l = l
  /\ led (status_led_work_handler false joined now l) = led l.
Proof.
  destruct (blink_unjoined_spec n now l) as (B1 & B2).
  split; [reflexivity|]. split; [reflexivity|].
  split; [reflexivity|]. split; [reflexivity|].
  split; [destruct l as [ld [w|]]; cbn; discriminate|].
  split; [destruct l as [ld [w|]]; reflexivity|].
  split; [exact B1|]. split; [exact B2|]. split; reflexivity.
Qed.

(** ** Level conversion macros *)

(** X16.  For a level of the Zigbee range and a period from 254 up to
    16909320 (beyond which the 32-bit product can wrap),
    [ZB_LEVEL_TO_PWM] gives a duty cycle within the period, growing with
    the level, and [PWM_TO_ZB_LEVEL] brings it back to the level or the one
    just below; the round trip is exact when 254 divides the period. *)
Theorem level_pwm_round_trip (level level' period : Z) :
  0 <= level <= 254 -> 0 <= level' <= level -> 254 <= period <= 16909320 ->
  let duty := ZB_LEVEL_TO_PWM level period in
  0 <= ZB_LEVEL_TO_PWM level' period <= duty /\ duty <= period
  /\ level - 1 <= PWM_TO_ZB_LEVEL duty period <= level
  /\ (period mod 254 = 0 -> PWM_TO_ZB_LEVEL duty period = level).
Proof.
  intros Hl Hl' Hp duty.
  assert (D : forall x, 0 <= x <= 254 ->
                        ZB_LEVEL_TO_PWM x period = x * period / 254).
  { intros x Hx. unfold ZB_LEVEL_TO_PWM, u32.
    rewrite (Z.mod_small x), (Z.mod_small period) by lia.
    rewrite (Z.mod_small (x * period)) by nia.
    apply Z.quot_div_nonneg; nia. }
  subst duty. rewrite (D level Hl), (D level' ltac:(lia)).
  set (d := level * period / 254).
  assert (Hd0 : 0 <= d) by (apply Z.div_pos; nia).
  assert (Hd1 : d * 254 <= level * period).
  { subst d. rewrite Z.mul_comm. apply Z.mul_div_le. lia. }
  assert (Hd2 : level * period < (d + 1) * 254).
  { subst d. pose proof (Z.mod_pos_bound (level * period) 254 ltac:(lia)).
    pose proof (Z.div_mod (level * period) 254 ltac:(lia)). lia. }
  assert (E : PWM_TO_ZB_LEVEL d period = d * 254 / period).
  { unfold PWM_TO_ZB_LEVEL, u32, u8.
    rewrite (Z.mod_small d), (Z.mod_small period) by nia.
    rewrite (Z.mod_small (d * 254)) by nia.
    rewrite Z.quot_div_nonneg by nia.
    apply Z.mod_small. split; [apply Z.div_pos; nia|].
    apply Z.div_lt_upper_bound; nia. }
  rewrite E.
  split; [split; [apply Z.div_pos; nia | apply Z.div_le_mono; nia]|].
  split; [nia|].
  split.
  - split.
    + apply Z.div_le_lower_bound; nia.
    + apply Z.lt_succ_r. apply Z.div_lt_upper_bound; nia.
  - intros Hm.
    assert (Hk : period = 254 * (period / 254)).
    { pose proof (Z.div_mod period 254 ltac:(lia)). lia. }
    set (k := period / 254) in *.
    assert (Hdk : d = level * k).
    { subst d. rewrite Hk.
      replace (level * (254 * k)) with (level * k * 254) by ring.
      apply Z.div_mul. lia. }
    rewrite Hdk, Hk.
    replace (level * k * 254) with (level * (254 * k)) by ring.
    apply Z.div_mul. nia.
Qed.

Lemma level_pwm_round_trip_witness :
  PWM_TO_ZB_LEVEL (ZB_LEVEL_TO_PWM 200 1016000) 1016000 = 200
  /\ 199 <= PWM_TO_ZB_LEVEL (ZB_LEVEL_TO_PWM 200 1000000) 1000000 <= 200.
Proof.
  assert (H1 : 0 <= 200 <= 254) by lia.
  assert (H2 : 0 <= 100 <= 200) by lia.
  assert (H3 : 254 <= 1016000 <= 16909320) by lia.
  assert (H4 : 254 <= 1000000 <= 16909320) by lia.
  destruct (level_pwm_round_trip 200 100 1016000 H1 H2 H3) as (_ & _ & _ & E).
  destruct (level_pwm_round_trip 200 100 1000000 H1 H2 H4) as (_ & _ & R & _).
  split; [apply E; reflexivity | exact R].
Defined.

(** ** The idle button, on an example *)

(** After a short press on a booted board the button is up and no
    long-press timer is pending. *)
Lemma button_up_is_idle_witness :
  pressed (app_state (after_boot short_press_trace)) = false
  /\ long_press_work (after_boot short_press_trace) = None.
Proof.
  assert (H0 : pressed (app_state (boot_state 1000000)) = false ->
               long_press_work (boot_state 1000000) = None)
    by (intros _; reflexivity).
  assert (H1 : run (boot_state 1000000) short_press_trace
               = Some (after_boot short_press_trace))
    by (vm_compute; reflexivity).
  assert (H2 : pressed (app_state (after_boot short_press_trace)) = false)
    by (vm_compute; reflexivity).
  split; [exact H2|].
  exact (button_up_is_idle short_press_trace (boot_state 1000000)
           (after_boot short_press_trace) H0 H1 H2).
Defined.

(** ** Attribute commands *)

(** What [level_control_set_value] writes, given that the PWM accepts. *)
Lemma level_control_set_value_spec (v : Z) (s : state) :
  let s' := level_control_set_value 0 v s in
  current_brightness (light s') = u8 v
  /\ light_is_on (light s') = (0 <? u8 v)
  /\ current_level (dev_ctx s') = u8 v
  /\ on_off (dev_ctx s') = on_off (dev_ctx s)
  /\ last_brightness (app_state s')
     = (if 0 <? v then u8 v else last_brightness (app_state s))
  /\ transition s' = transition s /\ effect s' = effect s.
Proof.
  unfold level_control_set_value.
  set (s1 := set_attr_current_level _ _).
  destruct (light_set_brightness_ok_post (u8 v) s1 (u8_is_u8 v)) as (Q1 & _ & Q3).
  destruct (light_set_brightness_frame 0 (u8 v) s1) as (F1 & F2 & _ & F4 & F5 & _).
  cbv zeta in *. set (s2 := light_set_brightness 0 (u8 v) s1) in *.
  destruct (0 <? v); frame; rewrite ?F1, ?F2, ?F4, ?F5; subst s1; frame;
    repeat split; assumption.
Qed.

(** What [on_off_set_value] writes, given that the PWM accepts. *)
Lemma on_off_set_value_spec (on : bool) (s : state) :
  is_u8 (current_level (dev_ctx s)) ->
  let s' := on_off_set_value 0 on s in
  let level := if on then current_level (dev_ctx s) else 0 in
  current_brightness (light s') = level
  /\ light_is_on (light s') = (0 <? level)
  /\ on_off (dev_ctx s') = on
  /\ current_level (dev_ctx s') = current_level (dev_ctx s)
  /\ app_state s' = app_state s
  /\ transition s' = transition s /\ effect s' = effect s
  /\ outputs s'
     = settings_save_one "light/level" (current_level (dev_ctx s))
       :: settings_save_one "light/on_off" (if on then 1 else 0)
       :: LOG_INF "Set on/off: %s" :: outputs s.
Proof.
  intros Hu. unfold on_off_set_value.
  set (s1 := set_attr_on_off on _).
  assert (U0 : is_u8 0) by (unfold is_u8; lia).
  assert (O : forall l, outputs (light_set_brightness 0 l s1) = outputs s1).
  { intros l. unfold light_set_brightness. change (negb (0 =? 0)) with false.
    cbv iota. destruct (_ && _); [unfold tb6612_on; frame; reflexivity|].
    destruct (_ && _); [unfold tb6612_off; frame; reflexivity|].
    frame. reflexivity. }
  destruct on.
  - destruct (light_set_brightness_ok_post (current_level (dev_ctx s1)) s1)
      as (Q1 & _ & Q3); [subst s1; frame; exact Hu|].
    destruct (light_set_brightness_frame 0 (current_level (dev_ctx s1)) s1)
      as (F1 & F2 & _ & F4 & F5 & _).
    cbv zeta in *. frame. rewrite Q1, Q3, F1, F2, F4, F5, O. subst s1. frame.
    repeat split.
  - destruct (light_set_brightness_ok_post 0 s1 U0) as (Q1 & _ & Q3).
    destruct (light_set_brightness_frame 0 0 s1) as (F1 & F2 & _ & F4 & F5 & _).
    cbv zeta in *. frame. rewrite Q1, Q3, F1, F2, F4, F5, O. subst s1. frame.
    repeat split.
Qed.

(** X17.  Switching off and on again brings back the level last set.
    After [level_control_set_value] the light shows the low byte of the new
    level (whatever the On/Off attribute says, which is left alone);
    [on_off_set_value(false)] then darkens it and puts the H-bridge in
    standby without touching the level attribute, and
    [on_off_set_value(true)] shows that level again and persists it
    together with the on state.  The PWM accepts throughout. *)
Theorem on_off_restores_level (v : Z) (s : state) :
  let s1 := level_control_set_value 0 v s in
  let s2 := on_off_set_value 0 false s1 in
  let s3 := on_off_set_value 0 true s2 in
  current_brightness (light s1) = u8 v
  /\ on_off (dev_ctx s1) = on_off (dev_ctx s)
  /\ current_brightness (light s2) = 0 /\ light_is_on (light s2) = false
  /\ on_off (dev_ctx s2) = false /\ current_level (dev_ctx s2) = u8 v
  /\ current_brightness (light s3) = u8 v
  /\ light_is_on (light s3) = (0 <? u8 v)
  /\ on_off (dev_ctx s3) = true /\ current_level (dev_ctx s3) = u8 v
  /\ (exists rest,
        outputs s3 = settings_save_one "light/level" (u8 v)
                     :: settings_save_one "light/on_off" 1 :: rest).
Proof.
  intros s1 s2 s3.
  destruct (level_control_set_value_spec v s) as (A1 & A2 & A3 & A4 & _).
  fold s1 in A1, A2, A3, A4.
  assert (U1 : is_u8 (current_level (dev_ctx s1)))
    by (rewrite A3; apply u8_is_u8).
  destruct (on_off_set_value_spec false s1 U1) as (B1 & B2 & B3 & B4 & _).
  fold s2 in B1, B2, B3, B4.
  assert (U2 : is_u8 (current_level (dev_ctx s2))) by (rewrite B4; exact U1).
  destruct (on_off_set_value_spec true s2 U2)
    as (C1 & C2 & C3 & C4 & _ & _ & _ & C8).
  fold s3 in C1, C2, C3, C4, C8.
  rewrite B4, A3 in C1, C2, C4, C8. rewrite A3 in B4.
  split; [exact A1|]. split; [exact A4|]. split; [exact B1|].
  split; [exact B2|]. split; [exact B3|]. split; [exact B4|].
  split; [exact C1|]. split; [exact C2|]. split; [exact C3|].
  split; [exact C4|]. eexists. exact C8.
Qed.

(** X18.  Neither attribute command stops a fade.  If a fade is under way
    when [level_control_set_value] or [on_off_set_value] writes its level,
    the fade's record is left as it was, and the next run of
    [transition_work_handler] replaces the level just written by the
    fade's own (the interpolated level, or the fade's target on its last
    tick), while the attributes keep what the command stored. *)
Theorem attribute_command_keeps_fade (v : Z) (on : bool) (s : state) :
  is_u8 (current_level (dev_ctx s)) ->
  let t := transition s in
  let e := u16 (transition_elapsed t + TRANSITION_STEP_MS) in
  let fade_level :=
    if transition_duration t <=? e then transition_target t
    else transition_level (transition_start t) (transition_target t) e
                          (transition_duration t) in
  let s1 := level_control_set_value 0 v s in
  let s2 := on_off_set_value 0 on s in
  transition s1 = t /\ transition s2 = t
  /\ current_brightness (light (transition_tick 0 s1)) = fade_level
  /\ current_level (dev_ctx (transition_tick 0 s1)) = u8 v
  /\ current_brightness (light (transition_tick 0 s2)) = fade_level
  /\ on_off (dev_ctx (transition_tick 0 s2)) = on.
Proof.
  intros Hu t e fade_level s1 s2.
  destruct (level_control_set_value_spec v s) as (_ & _ & A3 & _ & _ & A6 & _).
  destruct (on_off_set_value_spec on s Hu) as (_ & _ & B3 & _ & _ & B6 & _).
  fold s1 in A3, A6. fold s2 in B3, B6.
  destruct (transition_tick_spec 0 s1) as (_ & L1 & _ & D1 & _).
  destruct (transition_tick_spec 0 s2) as (_ & L2 & _ & D2 & _).
  rewrite A6 in L1. rewrite B6 in L2.
  fold t in L1, L2. fold e in L1, L2. fold fade_level in L1, L2.
  split; [exact A6|]. split; [exact B6|].
  split; [rewrite L1; apply light_set_brightness_ok_level|].
  split; [rewrite D1; exact A3|].
  split; [rewrite L2; apply light_set_brightness_ok_level|].
  rewrite D2. exact B3.
Qed.

Lemma attribute_command_keeps_fade_witness :
  let s := light_toggle 0 (boot_state 1000000) in
  current_brightness (light (transition_tick 0 (level_control_set_value 0 7 s)))
  = 5
  /\ current_level (dev_ctx (transition_tick 0 (level_control_set_value 0 7 s)))
     = 7.
Proof.
  intros s.
  assert (H : is_u8 (current_level (dev_ctx s)))
    by (vm_compute; split; discriminate).
  destruct (attribute_command_keeps_fade 7 true s H) as (_ & _ & H1 & H2 & _).
  split; [exact H1 | exact H2].
Defined.

(** ** Effect timing *)

Lemma effect_script_delay (k : EffectKind) (st b nx dl : Z) :
  effect_script k st = Some (b, nx, dl) -> 0 < dl.
Proof.
  destruct k; cbn [effect_script];
    repeat match goal with
           | |- context [if ?c then _ else _] => destruct c
           end;
    intros H; try discriminate H; injection H; intros; lia.
Qed.

(** One run of [effect_work] when nothing else is pending: it happens at its
    due time. *)
Lemma step_effect_alone (r d : Z) (x : state) :
  effect_work (effect x) = Some d -> uptime x <= d ->
  long_press_work x = None -> transition_work (transition x) = None ->
  step x (EffectExpires r) = Some (effect_tick r (set_uptime d x)).
Proof.
  intros Hw Hu Hl Ht. cbn [step]. rewrite Hw.
  unfold expires, nothing_due_before. rewrite Hw, Hl, Ht.
  cbn [not_before andb]. rewrite Z.leb_refl. cbn [option_map].
  rewrite Z.max_l by lia. reflexivity.
Qed.

(** The rows of a script, run alone: each row waits its delay. *)
Lemma run_effect_rows (k : EffectKind) (rs : list Z) :
  forall (x : state) (d st' : Z),
    effect_work (effect x) = Some d -> uptime x <= d ->
    long_press_work x = None -> transition_work (transition x) = None ->
    effect_kind (effect_type (effect x)) = k ->
    script_after k (effect_step (effect x)) (List.length rs) = Some st' ->
    exists x',
      run x (map EffectExpires rs) = Some x'
      /\ effect_work (effect x')
         = Some (d + script_time k (effect_step (effect x)) (List.length rs))
      /\ uptime x' <= d + script_time k (effect_step (effect x)) (List.length rs)
      /\ long_press_work x' = None
      /\ transition_work (transition x') = None
      /\ effect_type (effect x') = effect_type (effect x)
      /\ effect_step (effect x') = st'
      /\ dev_ctx x' = dev_ctx x.
Proof.
  induction rs as [|r rs IH]; intros x d st' Hw Hu Hl Ht Hk Hs.
  - cbn [List.length script_after script_time map run] in *.
    injection Hs as <-. exists x. rewrite Z.add_0_r.
    repeat split; assumption || reflexivity.
  - cbn [List.length script_after script_time map run] in *.
    rewrite (step_effect_alone r d x Hw Hu Hl Ht).
    set (x1 := set_uptime d x).
    destruct (effect_tick_spec r x1) as (He & _ & _ & Hc & Htr & _ & Hlp & Hup).
    assert (F : effect x1 = effect x /\ uptime x1 = d /\ dev_ctx x1 = dev_ctx x
                /\ transition x1 = transition x
                /\ long_press_work x1 = long_press_work x)
      by (subst x1; frame; repeat split).
    destruct F as (F1 & F2 & F3 & F4 & F5).
    rewrite F1, Hk, F2 in He.
    destruct (effect_script k (effect_step (effect x))) as [[[b nx] dl]|] eqn:Row;
      [|discriminate].
    pose proof (effect_script_delay k _ b nx dl Row) as Hdl.
    destruct (IH (effect_tick r x1) (d + dl) st') as (x' & R & I1 & I2 & I3 & I4 & I5 & I6 & I7).
    + rewrite He. reflexivity.
    + rewrite Hup, F2. lia.
    + rewrite Hlp, F5. exact Hl.
    + rewrite Htr, F4. exact Ht.
    + rewrite He. proj. exact Hk.
    + rewrite He. proj. exact Hs.
    + rewrite He in I1, I2, I5. proj.
      exists x'. split; [exact R|].
      split; [rewrite I1; f_equal; lia|]. split; [lia|].
      split; [exact I3|]. split; [exact I4|]. split; [exact I5|].
      split; [exact I6|]. rewrite I7, Hc, F3. reflexivity.
Qed.

(** X20.  An identify effect that meets a quiet queue (no fade, no
    long-press timer, no effect due before it) takes exactly the time its
    script gives.  Started at time [t], the command followed by the runs of
    [effect_work] can happen, one run per level and one to restore; the
    restore run comes [script_duration] after [t], that is 500 ms for Blink,
    15 s for Breathe, 800 ms for Okay, 8 s for ChannelChange and at once for
    an identifier without script; it leaves the effect idle, the attributes
    as they were and, if its PWM write is accepted, the brightness the
    attributes ask for. *)
Theorem identify_effect_timeline
    (s : state) (t effect_id r0 : Z) (rs : list Z) (r : Z) :
  long_press_work s = None -> transition_work (transition s) = None ->
  not_before t (effect_work (effect s)) = true -> uptime s <= t ->
  (effect_id =? ZB_ZCL_IDENTIFY_EFFECT_ID_STOP)
  || (effect_id =? ZB_ZCL_IDENTIFY_EFFECT_ID_FINISH_EFFECT) = false ->
  List.length rs = List.length (script_levels (effect_kind effect_id)) ->
  (exists s',
     run s (IdentifyEffect t effect_id r0 :: map EffectExpires (rs ++ [r]))
     = Some s'
     /\ uptime s' = t + script_duration (effect_kind effect_id)
     /\ effect_work (effect s') = None
     /\ dev_ctx s' = dev_ctx s
     /\ (r = 0 -> current_brightness (light s') = steady_level (dev_ctx s)))
  /\ script_duration Blink = 500 /\ script_duration Breathe = 15000
  /\ script_duration Okay = 800 /\ script_duration ChannelChange = 8000
  /\ script_duration NoEffect = 0.
Proof.
  intros Hl Ht He Hu Hstop Hlen.
  split; [|repeat split].
  set (k := effect_kind effect_id) in *.
  cbn [run step].
  assert (A : arrives t s = Some (set_uptime t s)).
  { unfold arrives, nothing_due_before. rewrite Hl, Ht, He.
    cbn [not_before andb]. apply Z.leb_le in Hu. rewrite Hu. reflexivity. }
  rewrite A. cbn [option_map].
  set (s1 := set_uptime t s).
  destruct (start_identify_effect_spec r0 effect_id s1)
    as (E0 & C0 & T0 & _ & L0 & U0 & _).
  rewrite Hstop in E0.
  set (s0 := start_identify_effect r0 effect_id s1) in *.
  assert (F : uptime s1 = t /\ dev_ctx s1 = dev_ctx s
              /\ transition s1 = transition s
              /\ long_press_work s1 = long_press_work s)
    by (subst s1; frame; repeat split).
  destruct F as (F1 & F2 & F3 & F4).
  rewrite F1 in E0, U0.
  assert (Hle : (List.length rs <= List.length (script_levels k))%nat)
    by (rewrite Hlen; apply Nat.le_refl).
  pose proof (script_rows k (List.length rs) Hle) as Hok.
  unfold script_row_ok in Hok.
  destruct (script_after k 0 (List.length rs)) as [st|] eqn:Hafter;
    [|discriminate].
  apply andb_true_iff in Hok as [Hst Hrow]. apply Z.eqb_eq in Hst.
  assert (Last : effect_script k st = None).
  { destruct (effect_script k st) as [[[b nx] dl]|]; [|reflexivity].
    apply andb_true_iff in Hrow as [Hlt _]. apply Nat.ltb_lt in Hlt.
    rewrite Hlen in Hlt. lia. }
  rewrite map_app. cbn [map].
  destruct (run_effect_rows k rs s0 t st)
    as (x & R & I1 & I2 & I3 & I4 & I5 & I6 & I7).
  { rewrite E0. reflexivity. }
  { rewrite U0. lia. }
  { rewrite L0, F4. exact Hl. }
  { rewrite T0, F3. exact Ht. }
  { rewrite E0. reflexivity. }
  { rewrite E0. proj. exact Hafter. }
  rewrite E0 in I1, I2, I5. proj.
  assert (RA : forall a b y, run s0 a = Some y ->
                             run s0 (a ++ b) = run y b).
  { intros a. generalize s0. induction a as [|e a IHa]; intros z b y Hr.
    - injection Hr as <-. reflexivity.
    - cbn [app run] in *. destruct (step z e) as [z1|]; [|discriminate].
      apply IHa. exact Hr. }
  rewrite (RA _ _ x R). cbn [run].
  rewrite (step_effect_alone r _ x I1 I2 I3 I4).
  set (d := t + script_time k 0 (List.length rs)) in *.
  set (x1 := set_uptime d x).
  destruct (effect_tick_spec r x1) as (Ee & El & _ & Ec & _ & _ & _ & Eu).
  assert (G : effect x1 = effect x /\ uptime x1 = d /\ dev_ctx x1 = dev_ctx x)
    by (subst x1; frame; repeat split).
  destruct G as (G1 & G2 & G3).
  rewrite G1, I5, I6 in Ee, El. fold k in Ee, El. rewrite Last in Ee, El.
  eexists. split; [reflexivity|].
  split; [rewrite Eu, G2; subst d; unfold script_duration; fold k;
          rewrite Hlen; reflexivity|].
  split; [rewrite Ee; reflexivity|].
  split; [rewrite Ec, G3, I7, C0, F2; reflexivity|].
  intros ->. rewrite El, light_set_brightness_ok_level, G3, I7, C0, F2.
  reflexivity.
Qed.

Lemma identify_effect_timeline_witness :
  exists s',
    run (boot_state 1000000)
        (IdentifyEffect 2000 ZB_ZCL_IDENTIFY_EFFECT_ID_OKAY 0
         :: map EffectExpires ([0; 0; 0; 0] ++ [0])) = Some s'
    /\ uptime s' = 2000 + script_duration Okay.
Proof.
  destruct (identify_effect_timeline (boot_state 1000000) 2000
              ZB_ZCL_IDENTIFY_EFFECT_ID_OKAY 0 [0; 0; 0; 0] 0)
    as ((s' & R & U & _) & _); try reflexivity.
  - cbn. lia.
  - exists s'. split; [exact R | exact U].
Defined.

(** ** Fade timing *)

(** One run of [transition_work] when nothing else is pending: it happens
    at its due time. *)
Lemma step_transition_alone (r d : Z) (x : state) :
  transition_work (transition x) = Some d -> uptime x <= d ->
  long_press_work x = None -> effect_work (effect x) = None ->
  step x (TransitionExpires r) = Some (transition_tick r (set_uptime d x)).
Proof.
  intros Hw Hu Hl He. cbn [step]. rewrite Hw.
  unfold expires, nothing_due_before. rewrite Hw, Hl, He.
  cbn [not_before andb]. rewrite Z.leb_refl. cbn [option_map].
  rewrite Z.max_l by lia. reflexivity.
Qed.

(** The ticks of a fade, run alone, while [elapsed] stays below the
    duration: they follow one another every 20 ms. *)
Lemma run_fade_ticks (rs : list Z) :
  forall (x : state) (d0 : Z),
    transition_work (transition x) = Some d0 -> uptime x <= d0 ->
    long_press_work x = None -> effect_work (effect x) = None ->
    0 <= transition_elapsed (transition x) ->
    transition_elapsed (transition x) + 20 * Z.of_nat (List.length rs)
      < transition_duration (transition x) ->
    transition_duration (transition x) <= 65535 ->
    exists x',
      run x (map TransitionExpires rs) = Some x'
      /\ transition x'
         = {| transition_work := Some (d0 + 20 * Z.of_nat (List.length rs));
              transition_start := transition_start (transition x);
              transition_target := transition_target (transition x);
              transition_elapsed := transition_elapsed (transition x)
                                    + 20 * Z.of_nat (List.length rs);
              transition_duration := transition_duration (transition x) |}
      /\ uptime x' <= d0 + 20 * Z.of_nat (List.length rs)
      /\ long_press_work x' = None /\ effect_work (effect x') = None
      /\ dev_ctx x' = dev_ctx x.
Proof.
  induction rs as [|r rs IH]; intros x d0 Hw Hu Hl He H0 Hlt Hd.
  - cbn [List.length map run Z.of_nat]. exists x.
    rewrite Z.mul_0_r, !Z.add_0_r. rewrite <- Hw.
    split; [reflexivity|]. split; [destruct (transition x); reflexivity|].
    repeat split; assumption.
  - cbn [List.length map run] in *. rewrite Nat2Z.inj_succ in *.
    rewrite (step_transition_alone r d0 x Hw Hu Hl He).
    set (x1 := set_uptime d0 x).
    destruct (transition_tick_spec r x1)
      as (Tt & _ & _ & Tc & _ & Te & Tl & Tu).
    assert (F : transition x1 = transition x /\ uptime x1 = d0
                /\ dev_ctx x1 = dev_ctx x /\ effect x1 = effect x
                /\ long_press_work x1 = long_press_work x)
      by (subst x1; frame; repeat split).
    destruct F as (F1 & F2 & F3 & F4 & F5).
    rewrite F1, F2 in Tt. unfold TRANSITION_STEP_MS in Tt.
    assert (E : u16 (transition_elapsed (transition x) + 20)
                = transition_elapsed (transition x) + 20)
      by (apply u16_id; unfold is_u16; lia).
    rewrite E in Tt.
    assert (L : (transition_duration (transition x)
                 <=? transition_elapsed (transition x) + 20) = false)
      by (apply Z.leb_gt; lia).
    rewrite L in Tt.
    destruct (IH (transition_tick r x1) (d0 + 20))
      as (x' & R & I1 & I2 & I3 & I4 & I5).
    + rewrite Tt. reflexivity.
    + rewrite Tu, F2. lia.
    + rewrite Tl, F5. exact Hl.
    + rewrite Te, F4. exact He.
    + rewrite Tt. proj. lia.
    + rewrite Tt. proj. lia.
    + rewrite Tt. proj. exact Hd.
    + rewrite Tt in I1. proj.
      exists x'. split; [exact R|].
      split; [rewrite I1; f_equal; [f_equal|]; lia|].
      split; [lia|]. split; [exact I3|]. split; [exact I4|].
      rewrite I5, Tc, F3. reflexivity.
Qed.

Lemma run_app_from (a b : list event) : forall (x y : state),
  run x a = Some y -> run x (a ++ b) = run y b.
Proof.
  induction a as [|e a IH]; intros x y Hr.
  - injection Hr as <-. reflexivity.
  - cbn [app run] in *. destruct (step x e) as [x1|]; [|discriminate].
    apply IH. exact Hr.
Qed.

(** X21.  A fade ends early by the clock.  [light_fade_to] schedules the
    first run of [transition_work_handler] at once and that run already
    counts 20 ms, so for a duration of at most 65520 ms, with nothing else
    pending, the runs of the fade can happen one after the other every
    20 ms, and the run that writes the target (the [n]-th, with
    [20 (n - 1) < duration <= 20 n]) comes [20 (n - 1)] ms after the call:
    less than [duration_ms], 980 ms for the default second. *)
Theorem fade_timeline
    (s : state) (target d r0 : Z) (rs : list Z) (r : Z) :
  long_press_work s = None -> effect_work (effect s) = None ->
  current_brightness (light s) <> target ->
  0 < d <= 65520 ->
  20 * Z.of_nat (List.length rs) < d <= 20 * (Z.of_nat (List.length rs) + 1) ->
  exists s',
    run (light_fade_to r0 target d s) (map TransitionExpires (rs ++ [r]))
    = Some s'
    /\ uptime s' = uptime s + 20 * Z.of_nat (List.length rs)
    /\ uptime s' < uptime s + d
    /\ transition_work (transition s') = None
    /\ (r = 0 -> current_brightness (light s') = target).
Proof.
  intros Hl He Hne Hd Hn.
  rewrite light_fade_to_starts by (lia || assumption).
  set (s0 := set_transition _ _).
  assert (F : transition s0
              = {| transition_work := Some (uptime s);
                   transition_start := current_brightness (light s);
                   transition_target := target;
                   transition_elapsed := 0;
                   transition_duration := d |}
              /\ uptime s0 = uptime s /\ long_press_work s0 = None
              /\ effect_work (effect s0) = None)
    by (subst s0; frame; repeat split; assumption).
  destruct F as (F1 & F2 & F3 & F4).
  destruct (run_fade_ticks rs s0 (uptime s))
    as (x & R & I1 & I2 & I3 & I4 & _);
    rewrite ?F1, ?F2; proj; try assumption; try lia; try reflexivity.
  rewrite F1 in I1. proj.
  rewrite map_app, (run_app_from _ _ s0 x R). cbn [map run].
  set (t1 := uptime s + 20 * Z.of_nat (List.length rs)) in *.
  assert (W : transition_work (transition x) = Some t1)
    by (rewrite I1; reflexivity).
  rewrite (step_transition_alone r t1 x W I2 I3 I4).
  set (x1 := set_uptime t1 x).
  destruct (transition_tick_spec r x1) as (Tt & Tli & _ & _ & _ & _ & _ & Tu).
  assert (G : transition x1 = transition x /\ uptime x1 = t1)
    by (subst x1; frame; split; reflexivity).
  destruct G as (G1 & G2).
  rewrite G1, I1 in Tt, Tli. proj. unfold TRANSITION_STEP_MS in Tt, Tli.
  assert (E : u16 (0 + 20 * Z.of_nat (List.length rs) + 20)
              = 20 * (Z.of_nat (List.length rs) + 1))
    by (rewrite u16_id; unfold is_u16; lia).
  rewrite E in Tt, Tli.
  assert (L : (d <=? 20 * (Z.of_nat (List.length rs) + 1)) = true)
    by (apply Z.leb_le; lia).
  rewrite L in Tt, Tli.
  eexists. split; [reflexivity|].
  split; [rewrite Tu, G2; reflexivity|].
  split; [rewrite Tu, G2; subst t1; lia|].
  split; [rewrite Tt; reflexivity|].
  intros ->. rewrite Tli. apply light_set_brightness_ok_level.
Qed.

Lemma fade_timeline_witness :
  exists s',
    run (light_fade_to 0 255 1000 (boot_state 1000000))
        (map TransitionExpires (repeat 0 49 ++ [0])) = Some s'
    /\ uptime s' = 980
    /\ current_brightness (light s') = 255.
Proof.
  destruct (fade_timeline (boot_state 1000000) 255 1000 0 (repeat 0 49) 0)
    as (s' & R & U & _ & _ & B); try reflexivity.
  - vm_compute. discriminate.
  - lia.
  - rewrite repeat_length. lia.
  - exists s'. split; [exact R|]. split; [|exact (B eq_refl)].
    rewrite U, repeat_length. reflexivity.
Defined.
